(** * jaeger-mongodb: span codec, trace assembly and dependency graph

    A shallow embedding of the MongoDB storage plugin for Jaeger:
    the span writer ([WriteSpan] and its converters), the span reader
    ([GetTrace], [FindTraces], [FindTraceIDs], [GetDependencies],
    [fetchTracesById], [findTraceIDs] and the document decoders,
    [GetServices], [GetOperations] and their converters), the earlier
    reader of package [jager_mongodb], the persisted document types,
    and the parts of the Go runtime, of [strconv], of the Jaeger domain
    model and of the MongoDB query language those functions rely on. *)

From Stdlib Require Import ZArith Strings.Ascii Init.Byte.
From Stdlib Require Import Floats.PrimFloat.
From stdpp Require Import base tactics option list gmap strings sorting.

Local Open Scope Z_scope.
#[local] Set Warnings "-clear-no-such-hyp".

(** ** Go runtime: machine integers, strings, durations *)

Module Go.

(** [int64(x)]: two's-complement wrap-around of a mathematical integer. *)
Definition int64 (x : Z) : Z := (x + 2 ^ 63) mod 2 ^ 64 - 2 ^ 63.

(** [uint64(x)] *)
Definition uint64 (x : Z) : Z := x mod 2 ^ 64.

Definition is_uint64 (x : Z) : Prop := 0 <= x < 2 ^ 64.
Definition is_int32 (x : Z) : Prop := - 2 ^ 31 <= x < 2 ^ 31.

(** [s[:n]] and [s[n:]] on strings, for [n <= len(s)]. *)
Fixpoint take (n : nat) (s : string) : string :=
  match n, s with
  | S n, String c r => String c (take n r)
  | _, _ => EmptyString
  end.

Fixpoint drop (n : nat) (s : string) : string :=
  match n, s with
  | S n, String _ r => drop n r
  | _, _ => s
  end.

(** [time.Time] is an instant, counted in nanoseconds since the Unix
    epoch; [time.Duration] is a signed 64-bit count of nanoseconds. *)
Definition Time := Z.
Definition Duration := Z.

(** [Duration.Microseconds()]: [int64(d) / 1e3], Go's truncated division. *)
Definition Microseconds (d : Duration) : Z := Z.quot d 1000.

(** [time.UnixMilli(ms)] *)
Definition UnixMilli (ms : Z) : Time := ms * 1000000.

End Go.

(** ** strconv *)

Module strconv.

(** The character of a digit below 16: ['0' + d] or ['a' + d - 10]. *)
Definition digit_char (d : Z) : ascii :=
  ascii_of_N (Z.to_N (if d <? 10 then 48 + d else 87 + d)).

(** The value of a digit character, as [strconv] computes it from the
    byte: ['0'..'9'], then letters of either case from 10 on. *)
Definition digit_val (c : ascii) : option Z :=
  let b := Z.of_N (N_of_ascii c) in
  if (48 <=? b) && (b <=? 57) then Some (b - 48)
  else if (97 <=? b) && (b <=? 102) then Some (b - 97 + 10)
  else if (65 <=? b) && (b <=? 70) then Some (b - 65 + 10)
  else None.

(** Left-to-right accumulation of the digits of [s] in [base]. *)
Fixpoint digits_acc (base : Z) (s : string) (acc : Z) : option Z :=
  match s with
  | EmptyString => Some acc
  | String c r =>
      match digit_val c with
      | Some d => if d <? base then digits_acc base r (base * acc + d) else None
      | None => None
      end
  end.

(** [strconv.ParseUint(s, base, 64)] for an explicit base 10 or 16:
    no sign, at least one digit, and the value must fit 64 bits. *)
Definition ParseUint (s : string) (base : Z) : option Z :=
  match s with
  | EmptyString => None
  | _ =>
      match digits_acc base s 0 with
      | Some v => if v <? 2 ^ 64 then Some v else None
      | None => None
      end
  end.

(** [strconv.ParseInt(s, 10, 64)]: optional sign, then [ParseUint],
    then the signed range check. *)
Definition ParseInt (s : string) : option Z :=
  match s with
  | EmptyString => None
  | String c r =>
      let '(neg, body) :=
        if Ascii.eqb c "+" then (false, r)
        else if Ascii.eqb c "-" then (true, r)
        else (false, s) in
      match ParseUint body 10 with
      | Some v =>
          if neg then (if v <=? 2 ^ 63 then Some (- v) else None)
          else (if v <? 2 ^ 63 then Some v else None)
      | None => None
      end
  end.

(** The digits of [n], most significant first, without padding; [fuel]
    bounds the number of digits. *)
Fixpoint format_digits (fuel : nat) (base n : Z) : string :=
  match fuel with
  | O => String (digit_char (n mod base)) EmptyString
  | S fuel =>
      if n <? base then String (digit_char n) EmptyString
      else format_digits fuel base (n / base)
             +:+ String (digit_char (n mod base)) EmptyString
  end.

(** [strconv.FormatInt(n, 10)] for a 64-bit [n] (at most 19 digits). *)
Definition FormatInt (n : Z) : string :=
  if n <? 0 then String "-" (format_digits 19 10 (- n))
  else format_digits 19 10 n.

(** [fmt.Sprintf("%0<w>x", n)] for [0 <= n < 16^w]: exactly [w]
    lower-case hexadecimal digits. *)
Fixpoint hex_fixed (w : nat) (n : Z) : string :=
  match w with
  | O => EmptyString
  | S w => hex_fixed w (n / 16) +:+ String (digit_char (n mod 16)) EmptyString
  end.

(** [strconv.ParseBool] *)
Definition ParseBool (s : string) : option bool :=
  if bool_decide (s ∈ ["1"; "t"; "T"; "TRUE"; "true"; "True"]) then Some true
  else if bool_decide (s ∈ ["0"; "f"; "F"; "FALSE"; "false"; "False"]) then Some false
  else None.

End strconv.

(** [encoding/hex.EncodeToString] and [strings.ToLower]. *)

Module hex.
Definition EncodeToString (bs : list byte) : string :=
  foldr (λ b acc, strconv.hex_fixed 2 (Z.of_N (Byte.to_N b)) +:+ acc) EmptyString bs.
End hex.

Module strings.
Definition lower_ascii (c : ascii) : ascii :=
  let n := N_of_ascii c in
  if ((65 <=? n) && (n <=? 90))%N then ascii_of_N (n + 32) else c.

Fixpoint ToLower (s : string) : string :=
  match s with
  | EmptyString => EmptyString
  | String c r => String (lower_ascii c) (ToLower r)
  end.
End strings.

(** ** Errors and results *)

Inductive error : Type :=
| ErrTraceNotFound
    (* the package variable [ErrTraceNotFound] *)
| ErrStore (msg : string)
    (* an error reported by the document store *)
| ErrWrap (context : string) (cause : error)
    (* [fmt.Errorf("<context> %w", err)] *)
| ErrMsg (format : string) (arg : string)
    (* [fmt.Errorf(format, arg)] without a wrapped cause *)
| ErrSyntax (fn : string) (input : string).
    (* a [strconv.NumError] or [strconv.ParseBool] failure *)

(** What a call does: it returns a value, returns an error, or ends the
    program ([log.Fatal], a runtime panic). *)
Inductive result (A : Type) : Type :=
| Ok (a : A)
| Err (e : error)
| Fatal (e : error)
| Panic (msg : string).
Arguments Ok {A} a.
Arguments Err {A} e.
Arguments Fatal {A} e.
Arguments Panic {A} msg.

#[global] Instance result_ret : MRet result := λ A a, Ok a.
#[global] Instance result_bind : MBind result := λ A B f r,
  match r with
  | Ok a => f a
  | Err e => Err e
  | Fatal e => Fatal e
  | Panic msg => Panic msg
  end.

(** A [range] loop that fills [out[i]] from [l[i]] and returns at the
    first error. *)
Fixpoint for_each {A B} (f : A → result B) (l : list A) : result (list B) :=
  match l with
  | [] => Ok []
  | x :: l => y ← f x; out ← for_each f l; mret (y :: out)
  end.

Definition of_option {A} (o : option A) (e : error) : result A :=
  match o with Some a => Ok a | None => Err e end.

(** The two float conversions of [strconv] the plugin calls,
    [FormatFloat(v, 'g', 10, 64)] and [ParseFloat(s, 64)], are taken as
    given. *)
Class Float64Conv : Type := {
  FormatFloat : float → string;
  ParseFloat : string → option float
}.

(** Go leaves unspecified the order in which a [range] loop visits the
    entries of a map. An instance fixes one order for every map; what is
    proved for an arbitrary instance holds for every order. *)
Class MapRange : Type := {
  range : ∀ {A : Type}, gmap string A → list (string * A);
  range_perm : ∀ (A : Type) (m : gmap string A), range m ≡ₚ map_to_list m
}.

(** The order of the map's own representation. *)
Definition trie_order : MapRange :=
  {| range := λ A m, map_to_list m; range_perm := λ A m, reflexivity _ |}.

(** ** The Jaeger domain model (package [model]) *)

Module model.

Module TraceID.
Record t : Type := mk { High : Z; Low : Z }.

(** [TraceID.String] *)
Definition String (id : t) : string :=
  if High id =? 0 then strconv.hex_fixed 16 (Low id)
  else strconv.hex_fixed 16 (High id) +:+ strconv.hex_fixed 16 (Low id).
End TraceID.

(** [TraceIDFromString] *)
Definition TraceIDFromString (s : string) : result TraceID.t :=
  let n := String.length s in
  if (32 <? n)%nat then
    Err (ErrMsg "TraceID cannot be longer than 32 hex characters: %s" s)
  else if (16 <? n)%nat then
    let hiLen := (n - 16)%nat in
    hi ← of_option (strconv.ParseUint (Go.take hiLen s) 16)
                   (ErrSyntax "ParseUint" (Go.take hiLen s));
    lo ← of_option (strconv.ParseUint (Go.drop hiLen s) 16)
                   (ErrSyntax "ParseUint" (Go.drop hiLen s));
    mret (TraceID.mk hi lo)
  else
    lo ← of_option (strconv.ParseUint s 16) (ErrSyntax "ParseUint" s);
    mret (TraceID.mk 0 lo).

Module SpanID.
Definition t : Type := Z.
Definition String (id : t) : string := strconv.hex_fixed 16 id.
End SpanID.

(** [SpanIDFromString] *)
Definition SpanIDFromString (s : string) : result SpanID.t :=
  if (16 <? String.length s)%nat then
    Err (ErrMsg "SpanID cannot be longer than 16 hex characters: %s" s)
  else of_option (strconv.ParseUint s 16) (ErrSyntax "ParseUint" s).

(** [ValueType], a protobuf enumeration carried as an [int32]. *)
Module ValueType.
Definition t : Type := Z.
Definition STRING : t := 0.
Definition BOOL : t := 1.
Definition INT64 : t := 2.
Definition FLOAT64 : t := 3.
Definition BINARY : t := 4.

(** The name of a declared value, the number of any other. *)
Definition String (x : t) : string :=
  match x with
  | 0 => "STRING" | 1 => "BOOL" | 2 => "INT64" | 3 => "FLOAT64"
  | 4 => "BINARY"
  | _ => strconv.FormatInt x
  end.
End ValueType.

Definition StringType := ValueType.STRING.
Definition BoolType := ValueType.BOOL.
Definition Int64Type := ValueType.INT64.
Definition Float64Type := ValueType.FLOAT64.
Definition BinaryType := ValueType.BINARY.

Module KeyValue.
Record t : Type := mk {
  Key : string;
  VType : ValueType.t;
  VStr : string;
  VBool : bool;
  VInt64 : Z;
  VFloat64 : float;
  VBinary : list byte
}.

Definition GetVType (kv : t) : ValueType.t := VType kv.

(** [KeyValue.AsString] *)
Definition AsString `{!Float64Conv} (kv : t) : string :=
  match VType kv with
  | 0 => VStr kv
  | 1 => if VBool kv then "true" else "false"
  | 2 => strconv.FormatInt (VInt64 kv)
  | 3 => FormatFloat (VFloat64 kv)
  | 4 =>
      if (256 <? length (VBinary kv))%nat
      then hex.EncodeToString (take 256 (VBinary kv)) +:+ "..."
      else hex.EncodeToString (VBinary kv)
  | x => "unknown type " +:+ strconv.FormatInt x
  end.
End KeyValue.

(** The constructors [model.String], [model.Bool], [model.Int64] and
    [model.Float64]: the named field is set, the others are zero. *)
Definition String (key value : string) : KeyValue.t :=
  KeyValue.mk key StringType value false 0 0%float [].
Definition Bool (key : string) (value : bool) : KeyValue.t :=
  KeyValue.mk key BoolType EmptyString value 0 0%float [].
Definition Int64 (key : string) (value : Z) : KeyValue.t :=
  KeyValue.mk key Int64Type EmptyString false value 0%float [].
Definition Float64 (key : string) (value : float) : KeyValue.t :=
  KeyValue.mk key Float64Type EmptyString false 0 value [].

(** [SpanRefType], a protobuf enumeration carried as an [int32]. *)
Module SpanRefType.
Definition t : Type := Z.
Definition CHILD_OF : t := 0.
Definition FOLLOWS_FROM : t := 1.
End SpanRefType.
Definition ChildOf := SpanRefType.CHILD_OF.
Definition FollowsFrom := SpanRefType.FOLLOWS_FROM.

Module SpanRef.
Record t : Type := mk {
  TraceID : TraceID.t;
  SpanID : SpanID.t;
  RefType : SpanRefType.t
}.
Definition GetRefType (r : t) : SpanRefType.t := RefType r.
End SpanRef.

Definition NewChildOfRef (traceID : TraceID.t) (spanID : SpanID.t) : SpanRef.t :=
  SpanRef.mk traceID spanID ChildOf.
Definition NewFollowsFromRef (traceID : TraceID.t) (spanID : SpanID.t) : SpanRef.t :=
  SpanRef.mk traceID spanID FollowsFrom.

Module Log.
Record t : Type := mk { Timestamp : Go.Time; Fields : list KeyValue.t }.
End Log.

Module Process.
Record t : Type := mk { ServiceName : string; Tags : list KeyValue.t }.
End Process.

Module Span.
Record t : Type := mk {
  TraceID : TraceID.t;
  SpanID : SpanID.t;
  OperationName : string;
  References : list SpanRef.t;
  Flags : Z;
  StartTime : Go.Time;
  Duration : Go.Duration;
  Tags : list KeyValue.t;
  Logs : list Log.t;
  Process : Process.t;
  ProcessID : string;
  Warnings : list string
}.
End Span.

Module Trace.
Record t : Type := mk { Spans : list Span.t }.
End Trace.

Module DependencyLink.
Record t : Type := mk { Parent : string; Child : string; CallCount : Z }.
End DependencyLink.

(** [MicrosecondsAsDuration(v uint64)]: [time.Duration(v) * time.Microsecond]. *)
Definition MicrosecondsAsDuration (v : Z) : Go.Duration :=
  Go.int64 (Go.int64 v * 1000).

End model.

(** ** The persisted span document *)

(** A Go [interface{}] as a stored tag value may hold it: nothing, a
    string, or a value of some other type (here an integer). *)
Inductive any : Type :=
| Nil
| Str (s : string)
| Int (z : Z).

Definition ReferenceType : Type := string.
Definition ValueType : Type := string.

Definition ChildOf : ReferenceType := "CHILD_OF".
Definition FollowsFrom : ReferenceType := "FOLLOWS_FROM".

Definition StringType : ValueType := "string".
Definition BoolType : ValueType := "bool".
Definition Int64Type : ValueType := "int64".
Definition Float64Type : ValueType := "float64".

Module KeyValue.
Record t : Type := mk { Key : string; Type_ : ValueType; Value : any }.
End KeyValue.

Module Reference.
Record t : Type := mk { RefType : ReferenceType; TraceID : string; SpanID : string }.
End Reference.

Module Process.
Record t : Type := mk { ServiceName : string; Tags : list KeyValue.t }.
End Process.

Module Log.
Record t : Type := mk { Timestamp : Z; Fields : list KeyValue.t }.
End Log.

Module Span.
Record t : Type := mk {
  TraceID : string;
  SpanID : string;
  OperationName : string;
  StartTime : Go.Time;
  Duration : Z;
  References : list Reference.t;
  ProcessID : string;
  Process : Process.t;
  Tags : list KeyValue.t;
  Logs : list Log.t;
  Warnings : list string
}.
End Span.

(** ** BSON values and the query filters built from them *)

Module bson.

#[warnings="-register-all"] Inductive value : Type :=
| String (s : string)
| Int64 (z : Z)
| DateTime (t : Go.Time)
| Null
| Document (d : list (string * value))
| Array (a : list value).

(** [bson.D]: an ordered document. *)
Definition D : Type := list (string * value).

(** A [bson.M] literal nested in a filter, as the list of its entries. *)
Definition doc (entries : list (string * value)) : value := Document entries.

Fixpoint lookup (k : string) (d : D) : option value :=
  match d with
  | [] => None
  | (k', v) :: r => if String.eqb k k' then Some v else lookup k r
  end.

Definition of_any (x : any) : value :=
  match x with
  | Nil => Null
  | Str s => String s
  | Int z => Int64 z
  end.

End bson.

(** ** The document store behind the reader and the writer *)

Module options.
Record FindOptions : Type := mk {
  Projection : bson.D;
  Sort : bson.D
}.
Definition none : FindOptions := mk [] [].
End options.

Module mongo.

(** A cursor over the result of a [Find]: for each matched document,
    what [Decode] into a [Span] gives, and the error [Err] reports once
    [Next] has returned false. *)
Record Cursor : Type := mkCursor {
  batch : list (error + Span.t);
  cursor_err : option error
}.

(** *** Query evaluation on span documents *)

(** The value of a (possibly dotted) field path of a span document. *)
Definition tag_document (kv : KeyValue.t) : bson.value :=
  bson.Document [("key", bson.String (KeyValue.Key kv));
                 ("type", bson.String (KeyValue.Type_ kv));
                 ("value", bson.of_any (KeyValue.Value kv))].

Definition field (path : string) (d : Span.t) : option bson.value :=
  if String.eqb path "traceID" then Some (bson.String (Span.TraceID d))
  else if String.eqb path "spanID" then Some (bson.String (Span.SpanID d))
  else if String.eqb path "operationName" then Some (bson.String (Span.OperationName d))
  else if String.eqb path "startTime" then Some (bson.DateTime (Span.StartTime d))
  else if String.eqb path "duration" then Some (bson.Int64 (Span.Duration d))
  else if String.eqb path "processID" then Some (bson.String (Span.ProcessID d))
  else if String.eqb path "process.serviceName"
    then Some (bson.String (Process.ServiceName (Span.Process d)))
  else if String.eqb path "tags" then Some (bson.Array (tag_document <$> Span.Tags d))
  else None.

(** Ordering of two values of one BSON type; values of different types
    do not compare under a range operator. *)
Definition compare (x y : bson.value) : option comparison :=
  match x, y with
  | bson.Int64 a, bson.Int64 b => Some (a ?= b)
  | bson.DateTime a, bson.DateTime b => Some (a ?= b)
  | _, _ => None
  end.

(** Equality of scalar values, as an equality match uses it. *)
Definition value_eqb (x y : bson.value) : bool :=
  match x, y with
  | bson.String a, bson.String b => String.eqb a b
  | bson.Int64 a, bson.Int64 b => a =? b
  | bson.DateTime a, bson.DateTime b => a =? b
  | bson.Null, bson.Null => true
  | _, _ => false
  end.

(** [{k1: v1, ...}] inside [$elemMatch]: every listed field of the
    array element equals the given value. *)
Definition elem_matches (q : bson.D) (elem : bson.value) : bool :=
  match elem with
  | bson.Document e =>
      forallb (λ '(k, v),
                 match bson.lookup k e with
                 | Some x => value_eqb x v
                 | None => false
                 end) q
  | _ => false
  end.

(** One operator of an operator document applied to a field value. *)
Definition operator (op : string) (arg : bson.value) (x : bson.value) : bool :=
  if String.eqb op "$gt" then
    match compare x arg with Some Gt => true | _ => false end
  else if String.eqb op "$lt" then
    match compare x arg with Some Lt => true | _ => false end
  else if String.eqb op "$gte" then
    match compare x arg with Some Gt | Some Eq => true | _ => false end
  else if String.eqb op "$lte" then
    match compare x arg with Some Lt | Some Eq => true | _ => false end
  else if String.eqb op "$in" then
    match arg with
    | bson.Array vs => existsb (value_eqb x) vs
    | _ => false
    end
  else if String.eqb op "$elemMatch" then
    match arg, x with
    | bson.Document q, bson.Array elems => existsb (elem_matches q) elems
    | _, _ => false
    end
  else false.

(** A condition on one field: an operator document (all its operators
    must hold) or a plain value (equality). *)
Definition condition (cond : bson.value) (x : bson.value) : bool :=
  match cond with
  | bson.Document ops => forallb (λ '(op, arg), operator op arg x) ops
  | _ => value_eqb x cond
  end.

(** A filter document: every entry must hold; [$and] takes an array of
    filter documents, every other key is a field path. *)
Fixpoint matches (filter : bson.value) (d : Span.t) : bool :=
  match filter with
  | bson.Document entries =>
      (fix all (es : list (string * bson.value)) : bool :=
         match es with
         | [] => true
         | (k, v) :: r =>
             (if String.eqb k "$and" then
                match v with
                | bson.Array fs =>
                    (fix each (l : list bson.value) : bool :=
                       match l with
                       | [] => true
                       | f :: l' => matches f d && each l'
                       end) fs
                | _ => false
                end
              else
                match field k d with
                | Some x => condition v x
                | None => false
                end)
             && all r
         end) entries
  | _ => false
  end.

(** A [bson.M] filter is a Go map from keys to values. *)
Definition matchesM (filter : gmap string bson.value) (d : Span.t) : bool :=
  matches (bson.Document (map_to_list filter)) d.

End mongo.

Module memstore.

(** An in-memory collection of span documents, in insertion order. *)
Definition Collection : Type := list Span.t.

Definition InsertOne (c : Collection) (d : Span.t) : Collection := c ++ [d].

(** Whether an inclusion projection keeps the field [name]. *)
Definition included (p : bson.D) (name : string) : bool :=
  match p with
  | [] => true
  | _ => match bson.lookup name p with
         | Some (bson.Int64 1) => true
         | _ => false
         end
  end.

(** The document a projection leaves; a field it drops decodes to the
    zero value of its Go type. *)
Definition project (p : bson.D) (d : Span.t) : Span.t :=
  Span.mk
    (if included p "traceID" then Span.TraceID d else EmptyString)
    (if included p "spanID" then Span.SpanID d else EmptyString)
    (if included p "operationName" then Span.OperationName d else EmptyString)
    (if included p "startTime" then Span.StartTime d else 0)
    (if included p "duration" then Span.Duration d else 0)
    (if included p "references" then Span.References d else [])
    (if included p "processID" then Span.ProcessID d else EmptyString)
    (if included p "process" then Span.Process d else Process.mk EmptyString [])
    (if included p "tags" then Span.Tags d else [])
    (if included p "logs" then Span.Logs d else [])
    (if included p "warnings" then Span.Warnings d else []).

(** Later start times first. *)
Definition newer_first (a b : Span.t) : Prop := Span.StartTime b <= Span.StartTime a.

#[global] Instance newer_first_dec a b : Decision (newer_first a b).
Proof. unfold newer_first. apply _. Defined.

(** The sort specifications the reader uses: none, or start time
    descending. *)
Definition sort (s : bson.D) (l : list Span.t) : list Span.t :=
  match s with
  | [(k, bson.Int64 (-1))] =>
      if String.eqb k "startTime" then merge_sort newer_first l else l
  | _ => l
  end.

(** [Collection.Find]: the matching documents, sorted, projected. *)
Definition Find (c : Collection) (filter : gmap string bson.value)
    (opts : options.FindOptions) : mongo.Cursor :=
  mongo.mkCursor
    (inr <$> (project (options.Projection opts)
                <$> sort (options.Sort opts)
                      (List.filter (mongo.matchesM filter) c)))
    None.

(** The string a field path holds in a span document, for the paths
    whose field is a string. *)
Definition string_field (path : string) (d : Span.t) : option string :=
  match mongo.field path d with
  | Some (bson.String s) => Some s
  | _ => None
  end.

(** [Collection.Distinct] on a string field: the distinct values of
    the field among the documents the filter matches, each once. The
    reader asks for string fields only; the values of other fields are
    not modelled, and neither is the order of the answer, which the
    store leaves open. *)
Definition Distinct (c : Collection) (fieldName : string) (filter : bson.value)
    : list any :=
  Str <$> remove_dups (omap (string_field fieldName)
                         (List.filter (mongo.matches filter) c)).

End memstore.

(** ** The span writer *)

Module SpanWriter.
Section writer.
Context `{!Float64Conv}.

Definition convertRefType (refType : model.SpanRefType.t) : ReferenceType :=
  if refType =? model.FollowsFrom then FollowsFrom else ChildOf.

Definition convertReferences (span : model.Span.t) : list Reference.t :=
  foldl (λ out ref,
           out ++ [Reference.mk
                     (convertRefType (model.SpanRef.RefType ref))
                     (model.TraceID.String (model.SpanRef.TraceID ref))
                     (model.SpanID.String (model.SpanRef.SpanID ref))])
        [] (model.Span.References span).

Definition convertKeyValue (kv : model.KeyValue.t) : KeyValue.t :=
  KeyValue.mk
    (model.KeyValue.Key kv)
    (strings.ToLower (model.ValueType.String (model.KeyValue.VType kv)))
    (Str (model.KeyValue.AsString kv)).

Definition convertKeyValues (keyValues : list model.KeyValue.t) : list KeyValue.t :=
  foldl (λ kvs kv,
           if bool_decide (model.KeyValue.GetVType kv ≠ model.BinaryType)
           then kvs ++ [convertKeyValue kv]
           else kvs)
        [] keyValues.

Definition convertProcess (process : model.Process.t) : Process.t :=
  Process.mk (model.Process.ServiceName process)
             (convertKeyValues (model.Process.Tags process)).

(** The document [WriteSpan] builds from a span ([mSpan]); the [Logs]
    field is left unset. *)
Definition mSpan (span : model.Span.t) : Span.t :=
  Span.mk
    (model.TraceID.String (model.Span.TraceID span))
    (model.SpanID.String (model.Span.SpanID span))
    (model.Span.OperationName span)
    (model.Span.StartTime span)
    (Go.Microseconds (model.Span.Duration span))
    (convertReferences span)
    (model.Span.ProcessID span)
    (convertProcess (model.Span.Process span))
    (convertKeyValues (model.Span.Tags span))
    []
    (model.Span.Warnings span).

(** [WriteSpan]: marshal the document and insert it. *)
Definition WriteSpan (c : memstore.Collection) (span : model.Span.t)
    : result memstore.Collection :=
  Ok (memstore.InsertOne c (mSpan span)).

End writer.
End SpanWriter.

(** ** The span reader *)

Module spanstore.
Record TraceQueryParameters : Type := mkQuery {
  ServiceName : string;
  OperationName : string;
  Tags : gmap string string;
  StartTimeMin : Go.Time;
  StartTimeMax : Go.Time;
  DurationMin : Go.Duration;
  DurationMax : Go.Duration;
  NumTraces : Z
}.

Module Operation.
Record t : Type := mk { Name : string; SpanKind : string }.
End Operation.

Module OperationQueryParameters.
Record t : Type := mk { ServiceName : string; SpanKind : string }.
End OperationQueryParameters.

End spanstore.

(** The [ReaderStorage] interface, as far as the trace queries use it. *)
Record ReaderStorage : Type := mkReaderStorage {
  Find : gmap string bson.value → options.FindOptions → error + mongo.Cursor
}.

(** [MongoReaderStorage]: the interface forwarded to a collection. *)
Definition MongoReaderStorage (c : memstore.Collection) : ReaderStorage :=
  mkReaderStorage (λ filter opts, inr (memstore.Find c filter opts)).

(** The [Distinct] method of the [ReaderStorage] interface, which the
    name queries use: the distinct values of a field among the documents
    a filter matches, each as an [interface{}]. The time limit passed in
    the options is not modelled. *)
Record DistinctStorage : Type := mkDistinctStorage {
  Distinct : string → bson.value → error + list any
}.

(** [MongoReaderStorage.Distinct]: forwarded to the collection. *)
Definition MongoDistinctStorage (c : memstore.Collection) : DistinctStorage :=
  mkDistinctStorage (λ fieldName filter, inr (memstore.Distinct c fieldName filter)).

(** [err.Error()], the text of an error, is taken as given. *)
Class ErrorText : Type := { Error : error → string }.

(** [errors.New(text)]: a message with no argument and no cause. *)
Definition errors_New (text : string) : error := ErrMsg text EmptyString.

(** [errors.Unwrap]: the cause of an error built with the verb [%w]. *)
Definition Unwrap (e : error) : option error :=
  match e with
  | ErrWrap _ cause => Some cause
  | _ => None
  end.

Definition maxTracesForDependencies : Z := 25000.

Module SpanReader.
Section reader.
Context `{!Float64Conv} `{!MapRange}.

Definition convertRefs (refs : list Reference.t) : result (list model.SpanRef.t) :=
  for_each (λ r,
          refType ←
            (if String.eqb (Reference.RefType r) ChildOf then Ok model.ChildOf
             else if String.eqb (Reference.RefType r) FollowsFrom then Ok model.FollowsFrom
             else Err (ErrMsg "not a valid SpanRefType string %s" (Reference.RefType r)));
          traceID ← model.TraceIDFromString (Reference.TraceID r);
          spanID ← model.SpanIDFromString (Reference.SpanID r);
          mret (model.SpanRef.mk traceID spanID refType))
       refs.

Definition convertKeyValue (tag : KeyValue.t) : result model.KeyValue.t :=
  match KeyValue.Value tag with
  | Nil => Err (ErrMsg "invalid nil Value in %v" (KeyValue.Key tag))
  | Int _ => Err (ErrMsg "non-string Value of type %t in %v" (KeyValue.Key tag))
  | Str tagValue =>
      if String.eqb (KeyValue.Type_ tag) StringType then
        Ok (model.String (KeyValue.Key tag) tagValue)
      else if String.eqb (KeyValue.Type_ tag) BoolType then
        value ← of_option (strconv.ParseBool tagValue) (ErrSyntax "ParseBool" tagValue);
        mret (model.Bool (KeyValue.Key tag) value)
      else if String.eqb (KeyValue.Type_ tag) Int64Type then
        value ← of_option (strconv.ParseInt tagValue) (ErrSyntax "ParseInt" tagValue);
        mret (model.Int64 (KeyValue.Key tag) value)
      else if String.eqb (KeyValue.Type_ tag) Float64Type then
        value ← of_option (ParseFloat tagValue) (ErrSyntax "ParseFloat" tagValue);
        mret (model.Float64 (KeyValue.Key tag) value)
      else Err (ErrMsg "not a valid ValueType string %s" (KeyValue.Type_ tag))
  end.

Definition convertKeyValues (tags : list KeyValue.t) : result (list model.KeyValue.t) :=
  for_each convertKeyValue tags.

Definition convertLogs (logs : list Log.t) : result (list model.Log.t) :=
  for_each (λ log,
          fields ← convertKeyValues (Log.Fields log);
          mret (model.Log.mk (Go.UnixMilli (Go.int64 (Log.Timestamp log))) fields))
       logs.

(** The conversion of one decoded document in the loop of
    [fetchTracesById]. *)
Definition convertSpan (ms : Span.t) : result model.Span.t :=
  tId ← model.TraceIDFromString (Span.TraceID ms);
  sId ← model.SpanIDFromString (Span.SpanID ms);
  refs ← convertRefs (Span.References ms);
  tags ← convertKeyValues (Span.Tags ms);
  pTags ← convertKeyValues (Process.Tags (Span.Process ms));
  logs ← convertLogs (Span.Logs ms);
  mret (model.Span.mk tId sId (Span.OperationName ms) refs 0 (Span.StartTime ms)
          (model.MicrosecondsAsDuration (Go.uint64 (Span.Duration ms)))
          tags logs
          (model.Process.mk (Process.ServiceName (Span.Process ms)) pTags)
          EmptyString
          (Span.Warnings ms)).

(** One iteration of the cursor loop of [fetchTracesById] on a decoded
    document: the trace entry is created when missing, the document is
    converted, and the span is appended to its trace. *)
Definition addSpan (tracesMap : gmap string model.Trace.t) (ms : Span.t)
    : result (gmap string model.Trace.t) :=
  let tracesMap :=
    match tracesMap !! Span.TraceID ms with
    | None => <[Span.TraceID ms := model.Trace.mk []]> tracesMap
    | Some _ => tracesMap
    end in
  s ← convertSpan ms;
  mret (alter (λ t, model.Trace.mk (model.Trace.Spans t ++ [s]))
              (Span.TraceID ms) tracesMap).

Fixpoint readSpans (items : list (error + Span.t))
    (tracesMap : gmap string model.Trace.t) : result (gmap string model.Trace.t) :=
  match items with
  | [] => Ok tracesMap
  | inl err :: _ => Err (ErrWrap "error decoding span:" err)
  | inr ms :: rest => tracesMap ← addSpan tracesMap ms; readSpans rest tracesMap
  end.

Definition fetchFilter (ids : list string) : gmap string bson.value :=
  {[ "traceID" := bson.doc [("$in", bson.Array (bson.String <$> ids))] ]}.

Definition fetchTracesById (s : ReaderStorage) (ids : list string)
    : result (gmap string model.Trace.t) :=
  match Find s (fetchFilter ids) options.none with
  | inl err => Err (ErrWrap "error finding spans" err)
  | inr cur =>
      tracesMap ← readSpans (mongo.batch cur) ∅;
      match mongo.cursor_err cur with
      | Some err => Err (ErrWrap "error with finding span" err)
      | None => Ok tracesMap
      end
  end.

(** The filter [findTraceIDs] builds from a query. *)
Definition traceIDFilter (query : spanstore.TraceQueryParameters)
    : gmap string bson.value :=
  let filter : gmap string bson.value := ∅ in
  let filter :=
    <["startTime" := bson.doc [("$gt", bson.DateTime (spanstore.StartTimeMin query));
                               ("$lt", bson.DateTime (spanstore.StartTimeMax query))]]>
      filter in
  let tags_array :=
    foldl (λ a '(k, v),
             a ++ [bson.doc [("tags",
                     bson.doc [("$elemMatch",
                       bson.doc [("key", bson.String k); ("value", bson.String v)])])]])
          [] (range (spanstore.Tags query)) in
  let filter :=
    if bool_decide (length tags_array ≠ 0%nat)
    then <["$and" := bson.Array tags_array]> filter else filter in
  let filter :=
    if bool_decide (spanstore.ServiceName query ≠ EmptyString)
    then <["process.serviceName" := bson.String (spanstore.ServiceName query)]> filter
    else filter in
  let filter :=
    if bool_decide (spanstore.OperationName query ≠ EmptyString)
    then <["operationName" := bson.String (spanstore.OperationName query)]> filter
    else filter in
  let filter :=
    if bool_decide (spanstore.DurationMax query ≠ 0)
    then <["duration" :=
             bson.doc [("$lte", bson.Int64 (Go.Microseconds (spanstore.DurationMax query)))]]>
           filter
    else filter in
  let filter :=
    if bool_decide (spanstore.DurationMin query ≠ 0)
    then <["duration" :=
             bson.doc [("$gte", bson.Int64 (Go.Microseconds (spanstore.DurationMin query)))]]>
           filter
    else filter in
  let filter :=
    if bool_decide (spanstore.DurationMax query ≠ 0 ∧ spanstore.DurationMin query ≠ 0)
    then <["duration" :=
             bson.doc [("$lte", bson.Int64 (Go.Microseconds (spanstore.DurationMax query)));
                       ("$gte", bson.Int64 (Go.Microseconds (spanstore.DurationMin query)))]]>
           filter
    else filter in
  filter.

Definition traceIDOptions : options.FindOptions :=
  options.mk [("traceID", bson.Int64 1); ("_id", bson.Int64 0)]
             [("startTime", bson.Int64 (-1))].

(** The cursor loop of [findTraceIDs]: every trace id read is added to
    the set, and the loop stops once the set has [NumTraces] members. *)
Fixpoint collectTraceIDs (NumTraces : Z) (items : list (error + Span.t))
    (traceIds : gmap string unit) : result (gmap string unit) :=
  match items with
  | [] => Ok traceIds
  | inl err :: _ => Fatal err
  | inr span :: rest =>
      let traceIds := <[Span.TraceID span := tt]> traceIds in
      if Z.of_nat (size traceIds) >=? NumTraces then Ok traceIds
      else collectTraceIDs NumTraces rest traceIds
  end.

Definition findTraceIDs (s : ReaderStorage) (query : spanstore.TraceQueryParameters)
    : result (list string) :=
  match Find s (traceIDFilter query) traceIDOptions with
  | inl err => Err (ErrWrap "error getting traceIDs:" err)
  | inr cursor =>
      traceIds ← collectTraceIDs (spanstore.NumTraces query) (mongo.batch cursor) ∅;
      if spanstore.NumTraces query <? 0 then Panic "makeslice: cap out of range"
      else Ok (fst <$> range traceIds)
  end.

Definition GetTrace (s : ReaderStorage) (traceID : model.TraceID.t)
    : result model.Trace.t :=
  tracesMap ← fetchTracesById s [model.TraceID.String traceID];
  match range tracesMap with
  | (_, trace) :: _ => Ok trace
  | [] => Err ErrTraceNotFound
  end.

Definition FindTraces (s : ReaderStorage) (query : spanstore.TraceQueryParameters)
    : result (list model.Trace.t) :=
  ids ← findTraceIDs s query;
  if bool_decide (length ids = 0%nat) then Ok []
  else
    tracesMap ← fetchTracesById s ids;
    Ok (snd <$> range tracesMap).

Definition FindTraceIDs (s : ReaderStorage) (query : spanstore.TraceQueryParameters)
    : result (list model.TraceID.t) :=
  ids ← findTraceIDs s query;
  if bool_decide (length ids = 0%nat) then Ok []
  else for_each model.TraceIDFromString ids.

(** The body of [GetDependencies] after the traces have been fetched. *)
Definition serviceNames (traces : list model.Trace.t) : gmap Z string :=
  foldl (λ serviceNameBySpanID trace,
           foldl (λ serviceNameBySpanID s,
                    <[model.Span.SpanID s :=
                        model.Process.ServiceName (model.Span.Process s)]>
                      serviceNameBySpanID)
                 serviceNameBySpanID (model.Trace.Spans trace))
        ∅ traces.

Definition countLink (serviceNameBySpanID : gmap Z string) (s : model.Span.t)
    (m : gmap string model.DependencyLink.t) (ref : model.SpanRef.t)
    : gmap string model.DependencyLink.t :=
  if bool_decide (model.SpanRef.GetRefType ref = model.SpanRefType.CHILD_OF
                  ∧ default EmptyString (serviceNameBySpanID !! model.SpanRef.SpanID ref)
                    ≠ EmptyString)
  then
    let parent := default EmptyString (serviceNameBySpanID !! model.SpanRef.SpanID ref) in
    let child := model.Process.ServiceName (model.Span.Process s) in
    let dl := default (model.DependencyLink.mk parent child 0) (m !! (parent +:+ child)) in
    <[parent +:+ child :=
        model.DependencyLink.mk (model.DependencyLink.Parent dl)
          (model.DependencyLink.Child dl)
          (Go.uint64 (model.DependencyLink.CallCount dl + 1))]> m
  else m.

Definition dependencyLinks (traces : list model.Trace.t) : list model.DependencyLink.t :=
  let serviceNameBySpanID := serviceNames traces in
  let m :=
    foldl (λ m trace,
             foldl (λ m s, foldl (countLink serviceNameBySpanID s) m
                                 (model.Span.References s))
                   m (model.Trace.Spans trace))
          ∅ traces in
  foldl (λ dls '(_, dl),
           if bool_decide (model.DependencyLink.Parent dl ≠ model.DependencyLink.Child dl)
           then dls ++ [dl] else dls)
        [] (range m).

Definition GetDependencies (s : ReaderStorage) (endTs : Go.Time) (lookback : Go.Duration)
    : result (list model.DependencyLink.t) :=
  match FindTraces s
          (spanstore.mkQuery EmptyString EmptyString ∅
             (endTs + Go.int64 (-1 * lookback)) endTs 0 0 maxTracesForDependencies) with
  | Ok traces => Ok (dependencyLinks traces)
  | Err err => (* logged *) Ok (dependencyLinks [])
  | Fatal err => Fatal err
  | Panic msg => Panic msg
  end.

(** [toStringArray]: every element must be a string. *)
Definition toStringArray (arr : list any) : result (list string) :=
  for_each (λ s, match s with
                 | Str str => Ok str
                 | _ => Err (errors_New "non-string key found")
                 end) arr.

(** [toStringOperations]: the same, each name wrapped in an operation
    of span kind "TODO". *)
Definition toStringOperations (arr : list any) : result (list spanstore.Operation.t) :=
  for_each (λ s, match s with
                 | Str str => Ok (spanstore.Operation.mk str "TODO")
                 | _ => Err (errors_New "non-string key found")
                 end) arr.

Definition GetServices `{!ErrorText} (s : DistinctStorage) : result (list string) :=
  match Distinct s "process.serviceName" (bson.Document []) with
  | inl err => Err (ErrMsg "distinct call failed: %s" (Error err))
  | inr services => toStringArray services
  end.

Definition GetOperations `{!ErrorText} (s : DistinctStorage)
    (query : spanstore.OperationQueryParameters.t)
    : result (list spanstore.Operation.t) :=
  let filter : bson.D := [] in
  let filter :=
    if bool_decide (spanstore.OperationQueryParameters.ServiceName query ≠ EmptyString)
    then [("process.serviceName",
           bson.String (spanstore.OperationQueryParameters.ServiceName query))]
    else filter in
  match Distinct s "operationName" (bson.Document filter) with
  | inl err => Err (ErrMsg "distinct call failed: %s" (Error err))
  | inr ops => toStringOperations ops
  end.

End reader.
End SpanReader.


(** ** The earlier reader (package [jager_mongodb])

    The reader the plugin had before the storage interface and the tag
    search were added. Its [toStringArray], [convertRefs],
    [convertKeyValues] and [convertKeyValue] read as those of the later
    reader, which are used here. *)

Module jager_mongodb.
Section reader.
Context `{!Float64Conv}.

(** The conversion of one decoded document in the loop of
    [findTraces]. The error of the conversion of the span's own tags is
    overwritten by the next call before it is looked at; logs and
    warnings are left empty. *)
Definition convertSpan (ms : Span.t) : result model.Span.t :=
  tId ← model.TraceIDFromString (Span.TraceID ms);
  sId ← model.SpanIDFromString (Span.SpanID ms);
  refs ← SpanReader.convertRefs (Span.References ms);
  match SpanReader.convertKeyValues (Span.Tags ms) with
  | Fatal e => Fatal e
  | Panic msg => Panic msg
  | r =>
      let tags := match r with Ok tags => tags | _ => [] end in
      pTags ← SpanReader.convertKeyValues (Process.Tags (Span.Process ms));
      mret (model.Span.mk tId sId (Span.OperationName ms) refs 0 (Span.StartTime ms)
              (model.MicrosecondsAsDuration (Go.uint64 (Span.Duration ms)))
              tags []
              (model.Process.mk (Process.ServiceName (Span.Process ms)) pTags)
              EmptyString
              [])
  end.

(** The filter [findTraceIDs] builds from a query; tags are not
    searched. *)
Definition traceIDFilter (query : spanstore.TraceQueryParameters)
    : gmap string bson.value :=
  let filter : gmap string bson.value := ∅ in
  let filter :=
    <["startTime" := bson.doc [("$gt", bson.DateTime (spanstore.StartTimeMin query));
                               ("$lt", bson.DateTime (spanstore.StartTimeMax query))]]>
      filter in
  let filter :=
    if bool_decide (spanstore.ServiceName query ≠ EmptyString)
    then <["process.serviceName" := bson.String (spanstore.ServiceName query)]> filter
    else filter in
  let filter :=
    if bool_decide (spanstore.OperationName query ≠ EmptyString)
    then <["operationName" := bson.String (spanstore.OperationName query)]> filter
    else filter in
  let filter :=
    if bool_decide (spanstore.DurationMax query ≠ 0)
    then <["duration" :=
             bson.doc [("$lte", bson.Int64 (Go.Microseconds (spanstore.DurationMax query)))]]>
           filter
    else filter in
  let filter :=
    if bool_decide (spanstore.DurationMin query ≠ 0)
    then <["duration" :=
             bson.doc [("$gte", bson.Int64 (Go.Microseconds (spanstore.DurationMin query)))]]>
           filter
    else filter in
  let filter :=
    if bool_decide (spanstore.DurationMax query ≠ 0 ∧ spanstore.DurationMin query ≠ 0)
    then <["duration" :=
             bson.doc [("$lte", bson.Int64 (Go.Microseconds (spanstore.DurationMax query)));
                       ("$gte", bson.Int64 (Go.Microseconds (spanstore.DurationMin query)))]]>
           filter
    else filter in
  filter.

(** [findTraceIDs]: the distinct trace ids of the matching documents,
    cut to the limit of the query by the slice [ids[:limit]]. *)
Definition findTraceIDs (s : DistinctStorage) (query : spanstore.TraceQueryParameters)
    : result (list string) :=
  match Distinct s "traceID" (bson.Document (map_to_list (traceIDFilter query))) with
  | inl err => Err (ErrWrap "error getting traceIDs:" err)
  | inr traceIds =>
      match SpanReader.toStringArray traceIds with
      | Ok ids =>
          let limit := spanstore.NumTraces query in
          let limit :=
            if limit >? Z.of_nat (length ids) then Z.of_nat (length ids) else limit in
          if limit <? 0 then Panic "slice bounds out of range"
          else Ok (take (Z.to_nat limit) ids)
      | Err err => Err (ErrWrap "error transforming traceIDs:" err)
      | Fatal e => Fatal e
      | Panic msg => Panic msg
      end
  end.

Definition FindTraceIDs (s : DistinctStorage) (query : spanstore.TraceQueryParameters)
    : result (list model.TraceID.t) :=
  ids ← findTraceIDs s query;
  if bool_decide (length ids = 0%nat) then Ok []
  else for_each model.TraceIDFromString ids.

End reader.
End jager_mongodb.
(** * Specification vocabulary *)

(** ** Well-formed domain spans *)

Section well_formed.
Context `{!Float64Conv}.

Definition wf_trace_id (id : model.TraceID.t) : Prop :=
  Go.is_uint64 (model.TraceID.High id) ∧ Go.is_uint64 (model.TraceID.Low id).




End well_formed.

(** The tags that are persisted: all but the binary ones. *)
Definition persisted_tags (kvs : list model.KeyValue.t) : list model.KeyValue.t :=
  List.filter (λ kv, bool_decide (model.KeyValue.VType kv ≠ model.BinaryType)) kvs.


(** The kind a reference has once written: follows-from stays, every
    other kind is child-of. *)
Definition persisted_kind (k : model.SpanRefType.t) : model.SpanRefType.t :=
  if k =? model.FollowsFrom then model.FollowsFrom else model.ChildOf.

Definition persisted_ref (r : model.SpanRef.t) : model.SpanRef.t :=
  model.SpanRef.mk (model.SpanRef.TraceID r) (model.SpanRef.SpanID r)
    (persisted_kind (model.SpanRef.RefType r)).

(** ** Filters *)

(** One entry of a filter document. *)
Definition entry_holds (d : Span.t) (e : string * bson.value) : bool :=
  if String.eqb e.1 "$and" then
    match e.2 with
    | bson.Array fs => forallb (λ f, mongo.matches f d) fs
    | _ => false
    end
  else
    match mongo.field e.1 d with
    | Some x => mongo.condition e.2 x
    | None => false
    end.

(** ** Results, groups of spans *)

(** A call that comes back to its caller, with a value or an error. *)
Definition returns {A} (r : result A) : Prop :=
  match r with
  | Ok _ | Err _ => True
  | Fatal _ | Panic _ => False
  end.

(** The decoded spans of the documents of trace [tid], in the order of
    the documents. *)
Definition spans_of (tid : string) (pairs : list (Span.t * model.Span.t))
    : list model.Span.t :=
  snd <$> List.filter (λ p, bool_decide (Span.TraceID p.1 = tid)) pairs.

(** The traces of a list of decoded documents: one per trace id that
    occurs, holding the spans of that id in arrival order. *)
Definition grouped (pairs : list (Span.t * model.Span.t))
    (m : gmap string model.Trace.t) : Prop :=
  ∀ tid, m !! tid = match spans_of tid pairs with
                    | [] => None
                    | g => Some (model.Trace.mk g)
                    end.

(** ** Valid stored documents *)

Section valid_documents.
Context `{!Float64Conv}.

(** A stored tag is valid when its value is a string that reads as a
    value of its declared type, one of the four known ones. *)
Definition valid_tag (tag : KeyValue.t) : Prop :=
  ∃ v, KeyValue.Value tag = Str v
       ∧ (KeyValue.Type_ tag = StringType
          ∨ (KeyValue.Type_ tag = BoolType ∧ is_Some (strconv.ParseBool v))
          ∨ (KeyValue.Type_ tag = Int64Type ∧ is_Some (strconv.ParseInt v))
          ∨ (KeyValue.Type_ tag = Float64Type ∧ is_Some (ParseFloat v))).

(** A stored reference is valid when its kind is one of the two known
    ones and its identifiers parse. *)
Definition valid_reference (r : Reference.t) : Prop :=
  (Reference.RefType r = ChildOf ∨ Reference.RefType r = FollowsFrom)
  ∧ (∃ t, model.TraceIDFromString (Reference.TraceID r) = Ok t)
  ∧ (∃ i, model.SpanIDFromString (Reference.SpanID r) = Ok i).

Definition valid_document (d : Span.t) : Prop :=
  (∃ t, model.TraceIDFromString (Span.TraceID d) = Ok t)
  ∧ (∃ i, model.SpanIDFromString (Span.SpanID d) = Ok i)
  ∧ Forall valid_reference (Span.References d)
  ∧ Forall valid_tag (Span.Tags d)
  ∧ Forall valid_tag (Process.Tags (Span.Process d))
  ∧ Forall (λ l, Forall valid_tag (Log.Fields l)) (Span.Logs d).

End valid_documents.

(** ** The round trip, as specified *)


(** ** Example data *)

Module example.

(** Float conversions for examples whose spans carry no float tag:
    every float prints as NaN and no string reads as a float. *)
Definition no_floats : Float64Conv :=
  {| FormatFloat := λ _, "NaN"; ParseFloat := λ _, None |}.

(** A span of service "frontend" with tags of three types, a warning
    and one log entry. *)
Definition frontend_span : model.Span.t :=
  model.Span.mk (model.TraceID.mk 0 42) 7 "GET /" [] 0
    1625101261000000001 15000
    [model.String "component" "net/http"; model.Int64 "http.status_code" 200;
     model.KeyValue.mk "payload" model.BinaryType EmptyString false 0 0%float
       [Byte.x01; Byte.xff]]
    [model.Log.mk 1625101261000000500 [model.String "event" "accepted"]]
    (model.Process.mk "frontend" [model.Bool "debug" true])
    "p1"
    ["clock skew adjusted"].

(** Two stored documents of one trace, and one that does not decode
    (its reference kind is unknown). *)
Definition doc_a : Span.t :=
  Span.mk "000000000000002a" "0000000000000001" "GET /" 1000 15 [] "p1"
    (Process.mk "frontend" [])
    [KeyValue.mk "http.status_code" Int64Type (Str "200")] [] [].

Definition doc_b : Span.t :=
  Span.mk "000000000000002a" "0000000000000002" "SELECT" 1005 4
    [Reference.mk ChildOf "000000000000002a" "0000000000000001"] "p2"
    (Process.mk "db" []) [] [] [].

Definition doc_bad : Span.t :=
  Span.mk "000000000000002a" "0000000000000003" "SELECT" 1006 4
    [Reference.mk "PARENT" "000000000000002a" "0000000000000001"] "p2"
    (Process.mk "db" []) [] [] [].

End example.

Module example2.

(** A store that answers the trace-id query from a collection holding
    [example.doc_a] and is unavailable when spans are fetched by trace
    id. *)
Definition unavailable_on_fetch : ReaderStorage :=
  mkReaderStorage
    (λ filter opts,
       match filter !! "traceID" with
       | Some _ => inl (ErrStore "server selection timeout")
       | None => inr (memstore.Find [example.doc_a] filter opts)
       end).

(** A span of service "worker" whose single reference, to the span of
    [example.frontend_span], has a kind outside the enumeration. *)
Definition odd_kind_span : model.Span.t :=
  model.Span.mk (model.TraceID.mk 0 42) 8 "job" [model.SpanRef.mk (model.TraceID.mk 0 42) 7 5]
    0 1625101261000000700 2000 [] [] (model.Process.mk "worker" []) "p2" [].

End example2.

(** ** What a trace query asks of a span document *)

Module asks.

Definition in_window (q : spanstore.TraceQueryParameters) (d : Span.t) : Prop :=
  spanstore.StartTimeMin q < Span.StartTime d < spanstore.StartTimeMax q.

(** Some tag of the document has this key and this value. *)
Definition has_tag (d : Span.t) (k v : string) : Prop :=
  ∃ tag, tag ∈ Span.Tags d ∧ KeyValue.Key tag = k ∧ KeyValue.Value tag = Str v.

Definition tags (q : spanstore.TraceQueryParameters) (d : Span.t) : Prop :=
  ∀ k v, spanstore.Tags q !! k = Some v → has_tag d k v.

Definition service (q : spanstore.TraceQueryParameters) (d : Span.t) : Prop :=
  spanstore.ServiceName q ≠ EmptyString →
  Process.ServiceName (Span.Process d) = spanstore.ServiceName q.

Definition operation (q : spanstore.TraceQueryParameters) (d : Span.t) : Prop :=
  spanstore.OperationName q ≠ EmptyString →
  Span.OperationName d = spanstore.OperationName q.

Definition duration (q : spanstore.TraceQueryParameters) (d : Span.t) : Prop :=
  (spanstore.DurationMax q ≠ 0 → Span.Duration d <= Go.Microseconds (spanstore.DurationMax q))
  ∧ (spanstore.DurationMin q ≠ 0 → Go.Microseconds (spanstore.DurationMin q) <= Span.Duration d).

End asks.

(** The query with other tags, with other duration bounds. *)
Definition with_tags (q : spanstore.TraceQueryParameters) (tags : gmap string string)
    : spanstore.TraceQueryParameters :=
  spanstore.mkQuery (spanstore.ServiceName q) (spanstore.OperationName q) tags
    (spanstore.StartTimeMin q) (spanstore.StartTimeMax q)
    (spanstore.DurationMin q) (spanstore.DurationMax q) (spanstore.NumTraces q).

Definition with_durations (q : spanstore.TraceQueryParameters) (dmin dmax : Go.Duration)
    : spanstore.TraceQueryParameters :=
  spanstore.mkQuery (spanstore.ServiceName q) (spanstore.OperationName q) (spanstore.Tags q)
    (spanstore.StartTimeMin q) (spanstore.StartTimeMax q)
    dmin dmax (spanstore.NumTraces q).

(** The entry of [$and] for one requested tag. *)
Definition tag_filter (kv : string * string) : bson.value :=
  bson.doc [("tags",
     bson.doc [("$elemMatch",
       bson.doc [("key", bson.String kv.1); ("value", bson.String kv.2)])])].

(** The entries of the filter of a query under the keys [$and] and
    [duration]. *)
Definition and_clause `{!MapRange} (q : spanstore.TraceQueryParameters) : option bson.value :=
  if decide (spanstore.Tags q = ∅) then None
  else Some (bson.Array (tag_filter <$> range (spanstore.Tags q))).

Definition duration_clause (q : spanstore.TraceQueryParameters) : option bson.value :=
  if decide (spanstore.DurationMax q ≠ 0 ∧ spanstore.DurationMin q ≠ 0) then
    Some (bson.doc [("$lte", bson.Int64 (Go.Microseconds (spanstore.DurationMax q)));
                    ("$gte", bson.Int64 (Go.Microseconds (spanstore.DurationMin q)))])
  else if decide (spanstore.DurationMin q ≠ 0) then
    Some (bson.doc [("$gte", bson.Int64 (Go.Microseconds (spanstore.DurationMin q)))])
  else if decide (spanstore.DurationMax q ≠ 0) then
    Some (bson.doc [("$lte", bson.Int64 (Go.Microseconds (spanstore.DurationMax q)))])
  else None.

Module example3.

(** A search for GET requests answered with status 200 that took
    between 1 and 50 milliseconds. *)
Definition slow_ok_query : spanstore.TraceQueryParameters :=
  spanstore.mkQuery EmptyString EmptyString
    {[ "http.status_code" := "200"; "component" := "net/http" ]}
    0 5000 1000000 50000000 20.

End example3.

(** ** The first distinct trace ids of a fetch *)

(** The distinct elements of a list, in the order of their first
    occurrence. *)
Fixpoint first_distinct (l : list string) : list string :=
  match l with
  | [] => []
  | x :: l => x :: filter (λ y, y ≠ x) (first_distinct l)
  end.


(** ** Linear chains of spans and their edges *)

Module chain.

Definition service (s : model.Span.t) : string :=
  model.Process.ServiceName (model.Span.Process s).






End chain.

(** The key under which [GetDependencies] counts a link. *)
Definition link_key (dl : model.DependencyLink.t) : string :=
  model.DependencyLink.Parent dl +:+ model.DependencyLink.Child dl.

(** The spans of a list of traces, trace after trace. *)
Definition flatten (traces : list model.Trace.t) : list model.Span.t :=
  traces ≫= model.Trace.Spans.

(** The service names recorded for a list of spans, by span id. *)
Definition names_of (spans : list model.Span.t) : gmap Z string :=
  foldl (λ names s, <[model.Span.SpanID s := chain.service s]> names) ∅ spans.

(** The (parent, child) service pairs a span contributes: one for each
    child-of reference whose target has a recorded, non-empty service
    name. *)
Definition observed (names : gmap Z string) (s : model.Span.t) : list (string * string) :=
  model.Span.References s ≫= λ ref,
    if bool_decide (model.SpanRef.GetRefType ref = model.SpanRefType.CHILD_OF
                    ∧ default EmptyString (names !! model.SpanRef.SpanID ref) ≠ EmptyString)
    then [(default EmptyString (names !! model.SpanRef.SpanID ref), chain.service s)]
    else [].

(** Counting one observed pair. *)
Definition bump (m : gmap string model.DependencyLink.t) (pc : string * string)
    : gmap string model.DependencyLink.t :=
  let dl := default (model.DependencyLink.mk pc.1 pc.2 0) (m !! (pc.1 +:+ pc.2)) in
  <[pc.1 +:+ pc.2 :=
      model.DependencyLink.mk (model.DependencyLink.Parent dl) (model.DependencyLink.Child dl)
        (Go.uint64 (model.DependencyLink.CallCount dl + 1))]> m.

(** The link counted once for an observed pair. *)
Definition link_of (pc : string * string) : model.DependencyLink.t :=
  model.DependencyLink.mk pc.1 pc.2 1.

(** The number of child-of references, among [spans], from a span of
    service [c] to a span of service [p]. *)
Definition calls (spans : list model.Span.t) (p c : string) : nat :=
  length
    (List.filter
       (λ sr : model.Span.t * model.SpanRef.t,
          bool_decide
            (chain.service sr.1 = c
             ∧ model.SpanRef.GetRefType sr.2 = model.SpanRefType.CHILD_OF
             ∧ Exists (λ q, model.Span.SpanID q = model.SpanRef.SpanID sr.2
                            ∧ chain.service q = p) spans))
       (spans ≫= λ s, pair s <$> model.Span.References s)).

Module example4.

(** Three services calling one another in a row, one span each, each
    span in a trace of its own. *)
Definition hop (i : Z) (svc : string) (refs : list model.SpanRef.t) : model.Span.t :=
  model.Span.mk (model.TraceID.mk 0 i) i "call" refs 0 (1000 + i) 3000 [] []
    (model.Process.mk svc []) EmptyString [].

Definition spans : list model.Span.t :=
  [hop 1 "gateway" [];
   hop 2 "orders" [model.NewChildOfRef (model.TraceID.mk 0 1) 1];
   hop 3 "stock" [model.NewChildOfRef (model.TraceID.mk 0 2) 2]].

Definition docs : list Span.t := @SpanWriter.mSpan example.no_floats <$> spans.

(** One trace in which "bc" calls "a" and "c" calls "ab". *)
Definition call (i : Z) (svc : string) (refs : list model.SpanRef.t) : model.Span.t :=
  model.Span.mk (model.TraceID.mk 0 9) i "call" refs 0 (1000 + i) 3000 [] []
    (model.Process.mk svc []) EmptyString [].

Definition crossing : list model.Span.t :=
  [call 1 "a" []; call 2 "ab" [];
   call 3 "bc" [model.NewChildOfRef (model.TraceID.mk 0 9) 1];
   call 4 "c" [model.NewChildOfRef (model.TraceID.mk 0 9) 2]].

End example4.

(** The linear chain in the shape the repository's tests generate:
    span [i], of service "Service i", alone in trace (i, i), a child of
    span [i-1]. *)
Module long_chain.

Definition service (i : nat) : string := "Service " +:+ strconv.FormatInt (Z.of_nat i).

Definition trace (i : nat) : model.TraceID.t := model.TraceID.mk (Z.of_nat i) (Z.of_nat i).

Definition span (i : nat) : model.Span.t :=
  model.Span.mk (trace i) (Z.of_nat i) "http"
    (match i with
     | O => []
     | S j => [model.NewChildOfRef (trace j) (Z.of_nat j)]
     end)
    0 1000 3000 [] [] (model.Process.mk (service i) []) EmptyString [].

Definition spans (n : nat) : list model.Span.t := span <$> seq 0 n.

Definition docs (n : nat) : list Span.t := @SpanWriter.mSpan example.no_floats <$> spans n.

(** Two spans more than [maxTracesForDependencies]. *)
Definition n : nat := Z.to_nat (maxTracesForDependencies + 2).

End long_chain.

Module example5.


(** A store whose cursor yields one document and then one that cannot
    be decoded. *)
Definition corrupt : ReaderStorage :=
  mkReaderStorage
    (λ filter opts,
       inr (mongo.mkCursor [inr example.doc_a; inl (ErrStore "cannot decode")] None)).

(** A search of the window (0, 5000) for at most [n] traces. *)
Definition any_in_window (n : Z) : spanstore.TraceQueryParameters :=
  spanstore.mkQuery EmptyString EmptyString ∅ 0 5000 0 0 n.

End example5.

(** ** Writing several spans *)

#[global] Instance TraceID_eq_dec : EqDecision model.TraceID.t.
Proof. solve_decision. Defined.


(** ** Calls among the spans read *)

(** A call from service [p] to service [c] among [spans]: a span of
    service [c] carries a child-of reference to the id of a span of
    service [p]. *)
Definition call_between (spans : list model.Span.t) (p c : string) : Prop :=
  ∃ s ref parent,
    s ∈ spans ∧ ref ∈ model.Span.References s
    ∧ model.SpanRef.GetRefType ref = model.SpanRefType.CHILD_OF
    ∧ parent ∈ spans ∧ model.Span.SpanID parent = model.SpanRef.SpanID ref
    ∧ chain.service parent = p ∧ chain.service s = c.

(** The query [GetDependencies] searches with. *)
Definition dependency_query (endTs : Go.Time) (lookback : Go.Duration)
    : spanstore.TraceQueryParameters :=
  spanstore.mkQuery EmptyString EmptyString ∅
    (endTs + Go.int64 (-1 * lookback)) endTs 0 0 maxTracesForDependencies.

Module example6.

(** Two spans of one trace, the second following from the first. *)
Definition followers : list model.Span.t :=
  [example4.call 1 "producer" [];
   example4.call 2 "consumer" [model.NewFollowsFromRef (model.TraceID.mk 0 9) 1]].

(** Three spans of one trace: a span of "web" and two spans of "api",
    each a child of it. *)
Definition fanout : list model.Span.t :=
  [example4.call 1 "web" [];
   example4.call 2 "api" [model.NewChildOfRef (model.TraceID.mk 0 9) 1];
   example4.call 3 "api" [model.NewChildOfRef (model.TraceID.mk 0 9) 1]].


End example6.


(** How often a pair of services occurs in a list of pairs. *)
Definition occurrences (pc : string * string) (l : list (string * string)) : nat :=
  length (filter (λ x, x = pc) l).


(** The document the earlier reader in effect decodes: tags that do not
    all decode are taken as none, and logs and warnings are left out. *)
Definition as_the_earlier_reader `{!Float64Conv} (d : Span.t) : Span.t :=
  Span.mk (Span.TraceID d) (Span.SpanID d) (Span.OperationName d) (Span.StartTime d)
    (Span.Duration d) (Span.References d) (Span.ProcessID d) (Span.Process d)
    (match SpanReader.convertKeyValues (Span.Tags d) with
     | Ok _ => Span.Tags d
     | _ => []
     end)
    [] [].

Module example7.

(** A store whose [Distinct] answers with three trace ids. *)
Definition three_ids : DistinctStorage :=
  mkDistinctStorage (λ fieldName filter, inr [Str "0a"; Str "0b"; Str "0c"]).

(** A document whose one tag holds an integer where a string is
    expected. *)
Definition doc_int_tag : Span.t :=
  Span.mk "000000000000002a" "0000000000000004" "GET /" 1000 15 [] "p1"
    (Process.mk "frontend" [])
    [KeyValue.mk "http.status_code" Int64Type (Int 200)] [] ["clock skew adjusted"].

End example7.


Module example8.

(** A span with a tag whose value type is outside the enumeration. *)
Definition odd_tag_span : model.Span.t :=
  model.Span.mk (model.TraceID.mk 0 9) 6 "resize" [] 0 1000 3000
    [model.KeyValue.mk "shape" 7 EmptyString false 0 0%float []] []
    (model.Process.mk "api" []) EmptyString [].

End example8.

(** ** Vocabulary of the further properties *)

(** An [interface{}] that holds no string. *)
Definition not_a_string (x : any) : Prop := ∀ s, x ≠ Str s.

(** The operation [toStringOperations] makes of a name. *)
Definition operation_of (name : string) : spanstore.Operation.t :=
  spanstore.Operation.mk name "TODO".


(** What holds of every entry of the link map: it sits under the
    concatenation of its two names, which are those of an observed
    pair. *)
Definition link_entries_sound (obs : list (string * string))
    (m : gmap string model.DependencyLink.t) : Prop :=
  ∀ k dl, m !! k = Some dl →
          k = link_key dl
          ∧ (model.DependencyLink.Parent dl, model.DependencyLink.Child dl) ∈ obs.
(** * Properties *)

(** ** Strings and number formats *)

Section strconv_facts.

Lemma string_app_cons (c : ascii) (s t : string) :
  String c s +:+ t = String c (s +:+ t).
Proof. reflexivity. Qed.

Lemma string_app_nil_l (s : string) : EmptyString +:+ s = s.
Proof. reflexivity. Qed.

Lemma string_app_nil_r (s : string) : s +:+ EmptyString = s.
Proof. induction s as [|c s IH]; [done|]. by rewrite string_app_cons, IH. Qed.

Lemma string_app_assoc (a b c : string) : (a +:+ b) +:+ c = a +:+ (b +:+ c).
Proof. induction a as [|x a IH]; [done|]. by rewrite !string_app_cons, IH. Qed.

Lemma string_app_length (a b : string) :
  String.length (a +:+ b) = (String.length a + String.length b)%nat.
Proof. induction a as [|x a IH]; [done|]. rewrite string_app_cons. simpl. by rewrite IH. Qed.

Lemma take_app_length (a b : string) : Go.take (String.length a) (a +:+ b) = a.
Proof.
  induction a as [|x a IH]; [by destruct b|].
  rewrite string_app_cons. simpl. by rewrite IH.
Qed.

Lemma drop_app_length (a b : string) : Go.drop (String.length a) (a +:+ b) = b.
Proof. induction a as [|x a IH]; [by destruct b|]. by rewrite string_app_cons. Qed.

Lemma take_app_exact (n : nat) (a b : string) :
  String.length a = n → Go.take n (a +:+ b) = a.
Proof. intros <-. apply take_app_length. Qed.

Lemma drop_app_exact (n : nat) (a b : string) :
  String.length a = n → Go.drop n (a +:+ b) = b.
Proof. intros <-. apply drop_app_length. Qed.

Lemma digit_val_char (d : Z) : 0 <= d < 16 → strconv.digit_val (strconv.digit_char d) = Some d.
Proof.
  intros Hd.
  assert (Hcases : d ∈ [0; 1; 2; 3; 4; 5; 6; 7; 8; 9; 10; 11; 12; 13; 14; 15]).
  { rewrite !elem_of_cons. lia. }
  repeat (apply elem_of_cons in Hcases as [->|Hcases]; [done|]).
  by apply elem_of_nil in Hcases.
Qed.

Lemma digits_acc_snoc (base : Z) (s : string) (c : ascii) (acc : Z) :
  strconv.digits_acc base (s +:+ String c EmptyString) acc
  = match strconv.digits_acc base s acc with
    | Some v => strconv.digits_acc base (String c EmptyString) v
    | None => None
    end.
Proof.
  revert acc. induction s as [|x s IH]; intros acc; [done|].
  rewrite string_app_cons. cbn [strconv.digits_acc].
  destruct (strconv.digit_val x) as [d|]; [|done].
  destruct (d <? base); [apply IH|done].
Qed.

Lemma digits_acc_digit (base d acc : Z) :
  0 <= d < base → base <= 16 →
  strconv.digits_acc base (String (strconv.digit_char d) EmptyString) acc
  = Some (base * acc + d).
Proof.
  intros Hd Hb. simpl. rewrite digit_val_char by lia.
  by rewrite (proj2 (Z.ltb_lt d base)) by lia.
Qed.

Lemma hex_fixed_length (w : nat) (n : Z) : String.length (strconv.hex_fixed w n) = w.
Proof.
  revert n. induction w as [|w IH]; intros n; simpl; [done|].
  rewrite string_app_length, IH. simpl. lia.
Qed.

Lemma hex_fixed_digits (w : nat) (n : Z) :
  0 <= n →
  strconv.digits_acc 16 (strconv.hex_fixed w n) 0 = Some (n mod 16 ^ Z.of_nat w).
Proof.
  revert n. induction w as [|w IH]; intros n Hn.
  - simpl. by rewrite Z.mod_1_r.
  - cbn [strconv.hex_fixed]. rewrite digits_acc_snoc.
    rewrite IH by (apply Z.div_pos; lia).
    rewrite digits_acc_digit by (pose proof (Z.mod_pos_bound n 16); lia).
    f_equal. rewrite Nat2Z.inj_succ, Z.pow_succ_r by lia.
    assert (0 < 16 ^ Z.of_nat w) by (apply Z.pow_pos_nonneg; lia).
    rewrite Z.rem_mul_r by lia. lia.
Qed.

Lemma ParseUint_hex_fixed (w : nat) (n : Z) :
  (0 < w)%nat → 0 <= n < 16 ^ Z.of_nat w → 16 ^ Z.of_nat w <= 2 ^ 64 →
  strconv.ParseUint (strconv.hex_fixed w n) 16 = Some n.
Proof.
  intros Hw Hn Hmax. unfold strconv.ParseUint.
  destruct (strconv.hex_fixed w n) as [|c r] eqn:Hs.
  { apply (f_equal String.length) in Hs. rewrite hex_fixed_length in Hs. simpl in Hs. lia. }
  rewrite <- Hs, hex_fixed_digits by lia.
  rewrite Z.mod_small by lia.
  by rewrite (proj2 (Z.ltb_lt n (2 ^ 64))) by lia.
Qed.

Lemma ParseUint_hex16 (n : Z) :
  Go.is_uint64 n → strconv.ParseUint (strconv.hex_fixed 16 n) 16 = Some n.
Proof.
  intros Hn. unfold Go.is_uint64 in Hn.
  apply ParseUint_hex_fixed; [lia| |]; change (16 ^ Z.of_nat 16) with (2 ^ 64); lia.
Qed.

Lemma format_digits_head (fuel : nat) (n : Z) :
  0 <= n →
  ∃ d r, 0 <= d < 10 ∧ strconv.format_digits fuel 10 n = String (strconv.digit_char d) r.
Proof.
  revert n. induction fuel as [|fuel IH]; intros n Hn; simpl.
  - exists (n mod 10), EmptyString. split; [apply Z.mod_pos_bound; lia|done].
  - destruct (Z.ltb_spec n 10) as [Hlt|Hge].
    + exists n, EmptyString. split; [lia|done].
    + destruct (IH (n / 10)) as (d & r & Hd & ->); [apply Z.div_pos; lia|].
      exists d, (r +:+ String (strconv.digit_char (n mod 10)) EmptyString).
      by rewrite string_app_cons.
Qed.




End strconv_facts.


(** ** The codec *)

Section codec_facts.
Context `{!Float64Conv}.

Lemma foldl_snoc_fmap {A B} (f : A → B) (l : list A) (acc : list B) :
  foldl (λ out x, out ++ [f x]) acc l = acc ++ (f <$> l).
Proof.
  revert acc. induction l as [|x l IH]; intros acc; simpl.
  - by rewrite app_nil_r.
  - rewrite IH. by rewrite <- app_assoc.
Qed.

Lemma foldl_snoc_filter_fmap {A B} (f : A → B) (p : A → bool) (l : list A) (acc : list B) :
  foldl (λ out x, if p x then out ++ [f x] else out) acc l
  = acc ++ (f <$> List.filter p l).
Proof.
  revert acc. induction l as [|x l IH]; intros acc; simpl.
  - by rewrite app_nil_r.
  - rewrite IH. destruct (p x); simpl; [by rewrite <- app_assoc|done].
Qed.

Lemma for_each_Ok_fmap {A B} (f : A → result B) (g : A → B) (l : list A) :
  Forall (λ x, f x = Ok (g x)) l → for_each f l = Ok (g <$> l).
Proof.
  induction 1 as [|x l Hx _ IH]; simpl; [done|].
  by rewrite Hx; simpl; rewrite IH.
Qed.

Lemma for_each_Ok_inv {A B} (f : A → result B) (l : list A) (k : list B) :
  for_each f l = Ok k → Forall2 (λ x y, f x = Ok y) l k.
Proof.
  revert k. induction l as [|x l IH]; intros k; simpl.
  - intros [= <-]. constructor.
  - destruct (f x) as [y| | |] eqn:Hx; simpl; try done.
    destruct (for_each f l) as [k'| | |]; simpl; try done.
    intros [= <-]. constructor; [done|by apply IH].
Qed.

Lemma for_each_fmap {A B C} (f : B → result C) (g : A → B) (l : list A) :
  for_each f (g <$> l) = for_each (f ∘ g) l.
Proof. induction l as [|x l IH]; csimpl; [done|]. by rewrite IH. Qed.

Lemma convertReferences_fmap (span : model.Span.t) :
  SpanWriter.convertReferences span
  = (λ ref, Reference.mk
              (SpanWriter.convertRefType (model.SpanRef.RefType ref))
              (model.TraceID.String (model.SpanRef.TraceID ref))
              (model.SpanID.String (model.SpanRef.SpanID ref)))
      <$> model.Span.References span.
Proof. unfold SpanWriter.convertReferences. by rewrite foldl_snoc_fmap. Qed.

Lemma writer_convertKeyValues_fmap (kvs : list model.KeyValue.t) :
  SpanWriter.convertKeyValues kvs = SpanWriter.convertKeyValue <$> persisted_tags kvs.
Proof.
  unfold SpanWriter.convertKeyValues, persisted_tags, model.KeyValue.GetVType.
  by rewrite (foldl_snoc_filter_fmap SpanWriter.convertKeyValue
                (λ kv, bool_decide (model.KeyValue.VType kv ≠ model.BinaryType))).
Qed.

Lemma TraceIDFromString_String (id : model.TraceID.t) :
  wf_trace_id id → model.TraceIDFromString (model.TraceID.String id) = Ok id.
Proof.
  destruct id as [hi lo]. intros [Hhi Hlo]; cbn in Hhi, Hlo.
  unfold model.TraceIDFromString, model.TraceID.String.
  cbn [model.TraceID.High model.TraceID.Low].
  destruct (Z.eqb_spec hi 0) as [->|Hne].
  - rewrite hex_fixed_length.
    change (32 <? 16)%nat with false. change (16 <? 16)%nat with false. cbn iota.
    by rewrite ParseUint_hex16.
  - rewrite string_app_length, !hex_fixed_length.
    change (32 <? 16 + 16)%nat with false. change (16 <? 16 + 16)%nat with true.
    cbn iota. change (16 + 16 - 16)%nat with 16%nat.
    rewrite take_app_exact, drop_app_exact by apply hex_fixed_length.
    by rewrite !ParseUint_hex16.
Qed.

Lemma SpanIDFromString_String (id : model.SpanID.t) :
  Go.is_uint64 id → model.SpanIDFromString (model.SpanID.String id) = Ok id.
Proof.
  intros Hid. unfold model.SpanIDFromString, model.SpanID.String.
  rewrite hex_fixed_length. change (16 <? 16)%nat with false. cbn iota.
  by rewrite ParseUint_hex16.
Qed.

End codec_facts.

#[local] Arguments strconv.FormatInt : simpl never.
#[local] Arguments strconv.ParseInt : simpl never.
#[local] Arguments strconv.ParseUint : simpl never.
#[local] Arguments strconv.hex_fixed : simpl never.
#[local] Arguments model.TraceID.String : simpl never.
#[local] Arguments model.SpanID.String : simpl never.
#[local] Arguments model.TraceIDFromString : simpl never.
#[local] Arguments model.SpanIDFromString : simpl never.
#[local] Arguments model.MicrosecondsAsDuration : simpl never.
#[local] Arguments SpanWriter.convertReferences : simpl never.
#[local] Arguments SpanWriter.convertKeyValues : simpl never.
#[local] Arguments SpanReader.convertRefs : simpl never.
#[local] Arguments SpanReader.convertKeyValues : simpl never.
#[local] Arguments SpanReader.convertLogs : simpl never.


Section roundtrip_facts.
Context `{!Float64Conv}.



(** Reading back written references: identifiers are reproduced, the
    kind is the persisted one. *)
Lemma convertRefs_convertReferences (span : model.Span.t) :
  Forall (λ r, wf_trace_id (model.SpanRef.TraceID r) ∧ Go.is_uint64 (model.SpanRef.SpanID r))
         (model.Span.References span) →
  SpanReader.convertRefs (SpanWriter.convertReferences span)
  = Ok (persisted_ref <$> model.Span.References span).
Proof.
  intros Hwf. rewrite convertReferences_fmap.
  unfold SpanReader.convertRefs. rewrite for_each_fmap.
  apply for_each_Ok_fmap. eapply Forall_impl; [exact Hwf|].
  intros [tid sid k] [Htid Hsid]; cbn in *.
  unfold SpanWriter.convertRefType, persisted_ref, persisted_kind; cbn.
  rewrite TraceIDFromString_String, SpanIDFromString_String by done.
  by destruct (k =? model.FollowsFrom).
Qed.




End roundtrip_facts.

(** ** Query evaluation *)

Section query_facts.


Lemma matches_Document (entries : list (string * bson.value)) (d : Span.t) :
  mongo.matches (bson.Document entries) d = forallb (entry_holds d) entries.
Proof.
  induction entries as [|[k v] r IH]; [done|].
  change (mongo.matches (bson.Document ((k, v) :: r)) d)
    with ((if String.eqb k "$and" then
             match v with
             | bson.Array fs =>
                 (fix each (l : list bson.value) : bool :=
                    match l with
                    | [] => true
                    | f :: l' => mongo.matches f d && each l'
                    end) fs
             | _ => false
             end
           else
             match mongo.field k d with
             | Some x => mongo.condition v x
             | None => false
             end)
          && mongo.matches (bson.Document r) d).
  by rewrite IH.
Qed.

(** A filter map holds of a document exactly when each of its entries
    does. *)
Lemma matchesM_spec (filter : gmap string bson.value) (d : Span.t) :
  mongo.matchesM filter d = true
  ↔ ∀ k v, filter !! k = Some v → entry_holds d (k, v) = true.
Proof.
  unfold mongo.matchesM. rewrite matches_Document, forallb_forall. split.
  - intros H k v Hkv. apply H, list_elem_of_In. by apply elem_of_map_to_list.
  - intros H [k v] Hin. apply H. by apply elem_of_map_to_list, list_elem_of_In.
Qed.

Lemma value_eqb_String (a b : string) :
  mongo.value_eqb (bson.String a) (bson.String b) = bool_decide (a = b).
Proof.
  cbn. destruct (String.eqb_spec a b) as [->|Hne].
  - by rewrite bool_decide_eq_true_2.
  - by rewrite bool_decide_eq_false_2.
Qed.

Lemma existsb_String_elem_of (x : string) (ids : list string) :
  existsb (mongo.value_eqb (bson.String x)) (bson.String <$> ids) = bool_decide (x ∈ ids).
Proof.
  induction ids as [|y ids IH].
  - symmetry. apply bool_decide_eq_false_2, not_elem_of_nil.
  - rewrite fmap_cons. cbn [existsb]. rewrite IH, value_eqb_String.
    rewrite <- bool_decide_or. apply bool_decide_ext. by rewrite elem_of_cons.
Qed.

(** The fetch filter selects the documents whose trace id is listed. *)
Lemma matchesM_fetchFilter (ids : list string) (d : Span.t) :
  mongo.matchesM (SpanReader.fetchFilter ids) d = bool_decide (Span.TraceID d ∈ ids).
Proof.
  unfold mongo.matchesM, SpanReader.fetchFilter.
  rewrite map_to_list_singleton, matches_Document. cbn [forallb].
  rewrite andb_true_r. unfold entry_holds. cbn.
  rewrite andb_true_r. apply existsb_String_elem_of.
Qed.

Lemma project_all (d : Span.t) : memstore.project [] d = d.
Proof. by destruct d. Qed.

Lemma Find_fetchFilter (c : memstore.Collection) (ids : list string) :
  memstore.Find c (SpanReader.fetchFilter ids) options.none
  = mongo.mkCursor
      (inr <$> List.filter (λ d, bool_decide (Span.TraceID d ∈ ids)) c) None.
Proof.
  unfold memstore.Find. cbn. f_equal. f_equal.
  rewrite (list_fmap_ext (memstore.project []) id) by (intros; apply project_all).
  rewrite list_fmap_id. apply filter_ext. intros d. apply matchesM_fetchFilter.
Qed.

End query_facts.

(** ** Fetching and grouping *)

#[local] Arguments spans_of : simpl never.
#[local] Arguments SpanReader.convertSpan : simpl never.

Section fetch_facts.
Context `{!Float64Conv}.

Lemma returns_bind {A B} (r : result A) (f : A → result B) :
  returns r → (∀ a, returns (f a)) → returns (r ≫= f).
Proof. destruct r; simpl; auto. Qed.

Lemma returns_of_option {A} (o : option A) (e : error) : returns (of_option o e).
Proof. by destruct o. Qed.

Lemma returns_for_each {A B} (f : A → result B) (l : list A) :
  (∀ x, returns (f x)) → returns (for_each f l).
Proof.
  intros Hf. induction l as [|x l IH]; simpl; [done|].
  apply returns_bind; [done|]. intros y. apply returns_bind; [done|]. by intros.
Qed.

Lemma returns_TraceIDFromString (s : string) : returns (model.TraceIDFromString s).
Proof.
  unfold model.TraceIDFromString. repeat case_match; try done;
    repeat (apply returns_bind; [apply returns_of_option|intros]); done.
Qed.

Lemma returns_SpanIDFromString (s : string) : returns (model.SpanIDFromString s).
Proof.
  unfold model.SpanIDFromString. case_match; [done|apply returns_of_option].
Qed.

Lemma returns_convertKeyValue (tag : KeyValue.t) :
  returns (SpanReader.convertKeyValue tag).
Proof.
  unfold SpanReader.convertKeyValue. repeat case_match; try done;
    (apply returns_bind; [apply returns_of_option|by intros]).
Qed.

Lemma returns_convertSpan (d : Span.t) : returns (SpanReader.convertSpan d).
Proof.
  unfold SpanReader.convertSpan.
  apply returns_bind; [apply returns_TraceIDFromString|intros].
  apply returns_bind; [apply returns_SpanIDFromString|intros].
  apply returns_bind.
  { apply returns_for_each. intros r.
    apply returns_bind; [by repeat case_match|intros].
    apply returns_bind; [apply returns_TraceIDFromString|intros].
    apply returns_bind; [apply returns_SpanIDFromString|by intros]. }
  intros. apply returns_bind.
  { apply returns_for_each, returns_convertKeyValue. }
  intros. apply returns_bind.
  { apply returns_for_each, returns_convertKeyValue. }
  intros. apply returns_bind; [|by intros].
  apply returns_for_each. intros l. apply returns_bind; [|by intros].
  apply returns_for_each, returns_convertKeyValue.
Qed.

Lemma addSpan_Ok (m : gmap string model.Trace.t) (d : Span.t) (s : model.Span.t) :
  SpanReader.convertSpan d = Ok s →
  SpanReader.addSpan m d
  = Ok (<[Span.TraceID d :=
            model.Trace.mk
              (model.Trace.Spans (default (model.Trace.mk []) (m !! Span.TraceID d)) ++ [s])]> m).
Proof.
  intros Hs. unfold SpanReader.addSpan. rewrite Hs. cbn. f_equal.
  destruct (m !! Span.TraceID d) as [t|] eqn:Hm; cbn.
  - apply map_eq. intros k. destruct (decide (k = Span.TraceID d)) as [->|Hne].
    + by rewrite lookup_alter_eq, lookup_insert_eq, Hm.
    + by rewrite lookup_alter_ne, lookup_insert_ne.
  - by rewrite alter_insert_eq.
Qed.

Lemma addSpan_Err (m : gmap string model.Trace.t) (d : Span.t) (e : error) :
  SpanReader.convertSpan d = Err e → SpanReader.addSpan m d = Err e.
Proof. intros Hs. unfold SpanReader.addSpan. by rewrite Hs. Qed.

Lemma spans_of_cons (tid : string) (p : Span.t * model.Span.t) pairs :
  spans_of tid (p :: pairs)
  = if bool_decide (Span.TraceID p.1 = tid) then p.2 :: spans_of tid pairs
    else spans_of tid pairs.
Proof. unfold spans_of. cbn. by destruct (bool_decide _). Qed.

(** The cursor loop on documents that all decode: every trace ends up
    with its earlier spans followed by its new ones, in arrival order. *)
Lemma readSpans_Ok (pairs : list (Span.t * model.Span.t)) (m0 : gmap string model.Trace.t) :
  Forall (λ p, SpanReader.convertSpan p.1 = Ok p.2) pairs →
  ∃ m, SpanReader.readSpans (inr ∘ fst <$> pairs) m0 = Ok m
       ∧ ∀ tid, m !! tid
                = match spans_of tid pairs with
                  | [] => m0 !! tid
                  | g => Some (model.Trace.mk
                                 (model.Trace.Spans (default (model.Trace.mk []) (m0 !! tid)) ++ g))
                  end.
Proof.
  revert m0. induction pairs as [|[d s] pairs IH]; intros m0 Hall.
  - exists m0. by split.
  - apply Forall_cons in Hall as [Hd Hall]. cbn in Hd.
    rewrite fmap_cons. cbn [SpanReader.readSpans compose fst].
    rewrite (addSpan_Ok _ _ _ Hd). cbn.
    destruct (IH (<[Span.TraceID d :=
                      model.Trace.mk
                        (model.Trace.Spans (default (model.Trace.mk []) (m0 !! Span.TraceID d))
                           ++ [s])]> m0) Hall) as (m & Hm & Hlook).
    exists m. split; [done|]. intros tid. rewrite Hlook, spans_of_cons. cbn [fst snd].
    destruct (decide (Span.TraceID d = tid)) as [<-|Hne].
    + rewrite bool_decide_eq_true_2 by done. rewrite lookup_insert_eq. cbn.
      destruct (spans_of (Span.TraceID d) pairs) as [|x g]; [done|].
      by rewrite <- app_assoc.
    + rewrite bool_decide_eq_false_2 by done. by rewrite lookup_insert_ne.
Qed.

(** The cursor loop fails as soon as one document fails. *)
Lemma readSpans_Err (items : list (error + Span.t)) (m0 : gmap string model.Trace.t) :
  Exists (λ item, match item with
                  | inl _ => True
                  | inr d => ∀ s, SpanReader.convertSpan d ≠ Ok s
                  end) items →
  ∃ e, SpanReader.readSpans items m0 = Err e.
Proof.
  revert m0. induction items as [|item items IH]; intros m0 Hex.
  - by apply Exists_nil in Hex.
  - destruct item as [e|d]; cbn; [by eexists|].
    pose proof (returns_convertSpan d) as Hret.
    destruct (SpanReader.convertSpan d) as [s|e| |] eqn:Hd; try done.
    + rewrite (addSpan_Ok _ _ _ Hd). cbn. apply IH.
      apply Exists_cons in Hex as [Hhd|Htl]; [|done].
      by destruct (Hhd s).
    + rewrite (addSpan_Err _ _ _ Hd). cbn. by eexists.
Qed.

End fetch_facts.

Section valid_document_facts.
Context `{!Float64Conv}.


Lemma bind_Ok_iff {A B} (r : result A) (f : A → result B) (b : B) :
  r ≫= f = Ok b ↔ ∃ a, r = Ok a ∧ f a = Ok b.
Proof.
  destruct r as [a| | |]; cbn; split; try done.
  - intros. by exists a.
  - by intros (a' & [= <-] & ?).
  - by intros (? & ? & ?).
  - by intros (? & ? & ?).
  - by intros (? & ? & ?).
Qed.

Lemma bind_decodes {A B} (r : result A) (f : A → result B) :
  (∃ b, r ≫= f = Ok b) ↔ ∃ a, r = Ok a ∧ ∃ b, f a = Ok b.
Proof.
  split.
  - intros (b & Hb). apply bind_Ok_iff in Hb as (a & ? & ?). eauto.
  - intros (a & Ha & b & Hb). exists b. apply bind_Ok_iff. eauto.
Qed.

Lemma of_option_decodes {A} (o : option A) (e : error) :
  (∃ a, of_option o e = Ok a) ↔ is_Some o.
Proof.
  destruct o as [a|]; cbn; split.
  - by eexists.
  - intros _. by exists a.
  - by intros (? & ?).
  - by intros (? & ?).
Qed.

Lemma for_each_decodes {A B} (f : A → result B) (l : list A) :
  (∃ out, for_each f l = Ok out) ↔ Forall (λ x, ∃ y, f x = Ok y) l.
Proof.
  induction l as [|x l IH]; cbn [for_each].
  - split; [constructor|by eexists].
  - rewrite bind_decodes, Forall_cons. split.
    + intros (y & Hy & Hrest). apply bind_decodes in Hrest as (out & Hout & _).
      split; [by exists y|]. apply IH. by exists out.
    + intros [(y & Hy) Hl]. apply IH in Hl as (out & Hout).
      exists y. split; [done|]. rewrite Hout. by eexists.
Qed.

Lemma convertKeyValue_decodes (tag : KeyValue.t) :
  (∃ kv, SpanReader.convertKeyValue tag = Ok kv) ↔ valid_tag tag.
Proof.
  destruct tag as [k ty val]. unfold SpanReader.convertKeyValue, valid_tag.
  cbn [KeyValue.Value KeyValue.Type_ KeyValue.Key].
  destruct val as [|v|z].
  - split; [by intros (? & ?)|by intros (? & ? & ?)].
  - destruct (String.eqb_spec ty StringType) as [->|Hs].
    { split; [intros _; exists v; auto|by eexists]. }
    destruct (String.eqb_spec ty BoolType) as [->|Hb].
    { rewrite bind_decodes. split.
      - intros (b & Hb & _). exists v. split; [done|]. right. left. split; [done|].
        apply (of_option_decodes _ (ErrSyntax "ParseBool" v)). by exists b.
      - intros (v' & [= <-] & [?|[[_ Hp]|[[? _]|[? _]]]]); try done.
        apply (of_option_decodes _ (ErrSyntax "ParseBool" v)) in Hp as (b & Hb).
        exists b. split; [done|by eexists]. }
    destruct (String.eqb_spec ty Int64Type) as [->|Hi].
    { rewrite bind_decodes. split.
      - intros (b & Hb' & _). exists v. split; [done|]. right. right. left. split; [done|].
        apply (of_option_decodes _ (ErrSyntax "ParseInt" v)). by exists b.
      - intros (v' & [= <-] & [?|[[? _]|[[_ Hp]|[? _]]]]); try done.
        apply (of_option_decodes _ (ErrSyntax "ParseInt" v)) in Hp as (b & Hb').
        exists b. split; [done|by eexists]. }
    destruct (String.eqb_spec ty Float64Type) as [->|Hf].
    { rewrite bind_decodes. split.
      - intros (b & Hb' & _). exists v. split; [done|]. right. right. right. split; [done|].
        apply (of_option_decodes _ (ErrSyntax "ParseFloat" v)). by exists b.
      - intros (v' & [= <-] & [?|[[? _]|[[? _]|[_ Hp]]]]); try done.
        apply (of_option_decodes _ (ErrSyntax "ParseFloat" v)) in Hp as (b & Hb').
        exists b. split; [done|by eexists]. }
    split; [by intros (? & ?)|].
    intros (v' & _ & [?|[[? _]|[[? _]|[? _]]]]); done.
  - split; [by intros (? & ?)|by intros (? & ? & ?)].
Qed.

Lemma convertKeyValues_decodes (tags : list KeyValue.t) :
  (∃ kvs, SpanReader.convertKeyValues tags = Ok kvs) ↔ Forall valid_tag tags.
Proof.
  unfold SpanReader.convertKeyValues. rewrite for_each_decodes.
  apply Forall_proper; [|done]. intros tag. apply convertKeyValue_decodes.
Qed.

Lemma convertRefs_decodes (refs : list Reference.t) :
  (∃ out, SpanReader.convertRefs refs = Ok out) ↔ Forall valid_reference refs.
Proof.
  unfold SpanReader.convertRefs. rewrite for_each_decodes.
  apply Forall_proper; [|done]. intros r. unfold valid_reference.
  rewrite bind_decodes. split.
  - intros (k & Hk & Hrest).
    apply bind_decodes in Hrest as (t & Ht & Hrest).
    apply bind_decodes in Hrest as (i & Hi & _).
    split; [|by eauto].
    destruct (String.eqb_spec (Reference.RefType r) ChildOf); [by left|].
    destruct (String.eqb_spec (Reference.RefType r) FollowsFrom); [by right|done].
  - intros (Hk & (t & Ht) & (i & Hi)).
    exists (if String.eqb (Reference.RefType r) ChildOf then model.ChildOf
            else model.FollowsFrom).
    split.
    + destruct Hk as [-> | ->]; done.
    + rewrite Ht, Hi. by eexists.
Qed.

Lemma convertLogs_decodes (logs : list Log.t) :
  (∃ out, SpanReader.convertLogs logs = Ok out)
  ↔ Forall (λ l, Forall valid_tag (Log.Fields l)) logs.
Proof.
  unfold SpanReader.convertLogs. rewrite for_each_decodes.
  apply Forall_proper; [|done]. intros l.
  rewrite bind_decodes, <- convertKeyValues_decodes. split.
  - intros (kvs & ? & _). by exists kvs.
  - intros (kvs & ?). exists kvs. split; [done|by eexists].
Qed.

(** A document decodes exactly when it is valid. *)
Lemma convertSpan_decodes (d : Span.t) :
  (∃ s, SpanReader.convertSpan d = Ok s) ↔ valid_document d.
Proof.
  unfold SpanReader.convertSpan, valid_document.
  rewrite <- convertRefs_decodes, <- !convertKeyValues_decodes, <- convertLogs_decodes.
  rewrite bind_decodes. split.
  - intros (t & Ht & H1). apply bind_decodes in H1 as (i & Hi & H1).
    apply bind_decodes in H1 as (refs & Hrefs & H1).
    apply bind_decodes in H1 as (tags & Htags & H1).
    apply bind_decodes in H1 as (ptags & Hptags & H1).
    apply bind_decodes in H1 as (logs & Hlogs & _).
    repeat split; by eexists.
  - intros ((t & Ht) & (i & Hi) & (refs & Hrefs) & (tags & Htags)
            & (ptags & Hptags) & (logs & Hlogs)).
    exists t. split; [done|]. rewrite Hi, Hrefs, Htags, Hptags, Hlogs. by eexists.
Qed.

End valid_document_facts.

(** * The claims *)

Section trace_assembly.
Context `{!Float64Conv} `{!MapRange}.

Lemma decode_all (ds : list Span.t) :
  Forall valid_document ds →
  ∃ pairs, pairs.*1 = ds ∧ Forall (λ p, SpanReader.convertSpan p.1 = Ok p.2) pairs.
Proof.
  induction 1 as [|d ds Hd _ (pairs & <- & Hall)]; [by exists []|].
  apply convertSpan_decodes in Hd as (s & Hs).
  exists ((d, s) :: pairs). split; [done|]. by constructor.
Qed.

(** Fetching when every matched document decodes: the traces are the
    groups of the decoded spans. *)
Lemma fetchTracesById_grouped (st : ReaderStorage) (ids : list string)
    (pairs : list (Span.t * model.Span.t)) :
  Find st (SpanReader.fetchFilter ids) options.none
    = inr (mongo.mkCursor (inr <$> pairs.*1) None) →
  Forall (λ p, SpanReader.convertSpan p.1 = Ok p.2) pairs →
  ∃ m, SpanReader.fetchTracesById st ids = Ok m ∧ grouped pairs m.
Proof.
  intros Hfind Hall. unfold SpanReader.fetchTracesById. rewrite Hfind.
  cbn [mongo.batch mongo.cursor_err].
  destruct (readSpans_Ok pairs ∅ Hall) as (m & Hm & Hlook).
  rewrite <- list_fmap_compose, Hm. exists m. split; [done|].
  intros tid. rewrite Hlook, lookup_empty. cbn.
  by destruct (spans_of tid pairs).
Qed.

(** C8. Fetching and grouping by trace ids is all or nothing: when one
    matched document fails to decode (the cursor cannot decode it, or
    its identifiers, a reference kind or a tag value or type are bad),
    the operation returns an error and no mapping; when every matched
    document is valid, each is decoded and the traces returned hold,
    per trace id, the decoded spans in arrival order. *)
Theorem fetchTracesById_all_or_nothing (st : ReaderStorage) (ids : list string)
    (cur : mongo.Cursor) :
  Find st (SpanReader.fetchFilter ids) options.none = inr cur →
  (Exists (λ item, match item with
                   | inl _ => True
                   | inr d => ¬ valid_document d
                   end) (mongo.batch cur) →
   ∃ e, SpanReader.fetchTracesById st ids = Err e)
  ∧ (∀ ds, mongo.batch cur = inr <$> ds → Forall valid_document ds →
           mongo.cursor_err cur = None →
           ∃ pairs m, pairs.*1 = ds
                      ∧ Forall (λ p, SpanReader.convertSpan p.1 = Ok p.2) pairs
                      ∧ SpanReader.fetchTracesById st ids = Ok m
                      ∧ grouped pairs m).
Proof.
  intros Hfind. split.
  - intros Hex. unfold SpanReader.fetchTracesById. rewrite Hfind.
    destruct (readSpans_Err (mongo.batch cur) ∅) as (e & ->); [|by exists e].
    eapply Exists_impl; [exact Hex|]. intros [e|d]; [done|].
    intros Hbad s Hs. apply Hbad, convertSpan_decodes. by exists s.
  - intros ds Hbatch Hvalid Herr.
    destruct (decode_all ds Hvalid) as (pairs & <- & Hall).
    destruct cur as [batch cerr]. cbn in Hbatch, Herr. subst batch cerr.
    destruct (fetchTracesById_grouped st ids pairs Hfind Hall) as (m & Hm & Hg).
    by exists pairs, m.
Qed.

End trace_assembly.

(** Goals [∃ x, f = Ok x] on closed terms, by evaluation. *)
Ltac decodes :=
  lazymatch goal with
  | |- ∃ x, ?f = Ok x =>
      let r := eval vm_compute in f in
      lazymatch r with
      | Ok ?v => exists v; vm_compute; reflexivity
      end
  end.

Lemma doc_a_valid : @valid_document example.no_floats example.doc_a.
Proof.
  unfold valid_document, example.doc_a.
  cbn [Span.TraceID Span.SpanID Span.References Span.Tags Span.Process Span.Logs
       Process.Tags].
  split; [decodes|]. split; [decodes|].
  split; [constructor|]. split; [|split; constructor].
  constructor; [|constructor].
  exists "200". split; [reflexivity|]. right. right. left.
  split; [reflexivity|]. exists 200. vm_compute. reflexivity.
Qed.

Lemma doc_b_valid : @valid_document example.no_floats example.doc_b.
Proof.
  unfold valid_document, example.doc_b.
  cbn [Span.TraceID Span.SpanID Span.References Span.Tags Span.Process Span.Logs
       Process.Tags].
  split; [decodes|]. split; [decodes|].
  split; [|split; [constructor|split; constructor]].
  constructor; [|constructor].
  split; [by left|]. cbn [Reference.TraceID Reference.SpanID]. split; decodes.
Qed.

Lemma doc_bad_invalid : ¬ @valid_document example.no_floats example.doc_bad.
Proof.
  intros (_ & _ & Hrefs & _). apply Forall_cons in Hrefs as [([H|H] & _) _]; discriminate H.
Qed.

(** C8, on a collection of two valid documents of one trace and of a
    third one whose reference kind is unknown. *)
Lemma fetchTracesById_all_or_nothing_witness :
  (∃ e, @SpanReader.fetchTracesById example.no_floats
          (MongoReaderStorage [example.doc_a; example.doc_bad; example.doc_b])
          ["000000000000002a"] = Err e)
  ∧ (∃ pairs m, pairs.*1 = [example.doc_a; example.doc_b]
       ∧ Forall (λ p, @SpanReader.convertSpan example.no_floats p.1 = Ok p.2) pairs
       ∧ @SpanReader.fetchTracesById example.no_floats
           (MongoReaderStorage [example.doc_a; example.doc_b])
           ["000000000000002a"] = Ok m
       ∧ grouped pairs m).
Proof.
  split.
  - refine (proj1 (@fetchTracesById_all_or_nothing example.no_floats
                     (MongoReaderStorage [example.doc_a; example.doc_bad; example.doc_b])
                     ["000000000000002a"]
                     (mongo.mkCursor
                        [inr example.doc_a; inr example.doc_bad; inr example.doc_b] None)
                     _) _).
    + vm_compute. reflexivity.
    + apply Exists_cons_tl, Exists_cons_hd, doc_bad_invalid.
  - refine (proj2 (@fetchTracesById_all_or_nothing example.no_floats
                     (MongoReaderStorage [example.doc_a; example.doc_b])
                     ["000000000000002a"]
                     (mongo.mkCursor [inr example.doc_a; inr example.doc_b] None)
                     _) [example.doc_a; example.doc_b] eq_refl _ eq_refl).
    + vm_compute. reflexivity.
    + exact (Forall_cons_2 _ _ _ doc_a_valid (Forall_cons_2 _ _ _ doc_b_valid (Forall_nil_2 _))).
Defined.

(** ** Ranging over small maps *)

Section range_facts.
Context `{!MapRange}.

Lemma range_empty {A} : range (∅ : gmap string A) = [].
Proof. apply Permutation_nil_r. by rewrite range_perm, map_to_list_empty. Qed.

Lemma range_singleton {A} (k : string) (v : A) : range ({[k := v]} : gmap string A) = [(k, v)].
Proof. apply Permutation_singleton_r. by rewrite range_perm, map_to_list_singleton. Qed.

Lemma range_elem_of {A} (m : gmap string A) (k : string) (v : A) :
  (k, v) ∈ range m ↔ m !! k = Some v.
Proof. by rewrite range_perm, elem_of_map_to_list. Qed.

Lemma range_NoDup_fst {A} (m : gmap string A) : NoDup (range m).*1.
Proof. rewrite range_perm. apply NoDup_fst_map_to_list. Qed.


End range_facts.

Section lookup_operations.
Context `{!Float64Conv} `{!MapRange}.


(** Whatever the store does, [GetDependencies] hands no error to its
    caller. *)
Lemma GetDependencies_no_error (st : ReaderStorage) (endTs : Go.Time)
    (lookback : Go.Duration) (e : error) :
  SpanReader.GetDependencies st endTs lookback ≠ Err e.
Proof. unfold SpanReader.GetDependencies. by destruct (SpanReader.FindTraces _ _). Qed.

Lemma dependencyLinks_nil : SpanReader.dependencyLinks [] = [].
Proof. unfold SpanReader.dependencyLinks. cbn. by rewrite range_empty. Qed.

(** C3, at a store that fails when the spans of the matched traces are
    fetched: [FindTraces] returns the store's error, [GetDependencies]
    over the same window returns an empty edge list and no error. *)
Theorem GetDependencies_swallows_fetch_failure :
  SpanReader.FindTraces example2.unavailable_on_fetch
    (spanstore.mkQuery EmptyString EmptyString ∅ 500 2000 0 0 maxTracesForDependencies)
  = Err (ErrWrap "error finding spans" (ErrStore "server selection timeout"))
  ∧ SpanReader.GetDependencies example2.unavailable_on_fetch 2000 1500 = Ok [].
Proof.
  assert (Hfind :
    SpanReader.FindTraces example2.unavailable_on_fetch
      (spanstore.mkQuery EmptyString EmptyString ∅ 500 2000 0 0 maxTracesForDependencies)
    = Err (ErrWrap "error finding spans" (ErrStore "server selection timeout"))).
  { unfold SpanReader.FindTraces, SpanReader.findTraceIDs, SpanReader.traceIDFilter.
    cbn [spanstore.Tags spanstore.ServiceName spanstore.OperationName
         spanstore.DurationMax spanstore.DurationMin spanstore.StartTimeMin
         spanstore.StartTimeMax spanstore.NumTraces].
    rewrite range_empty. cbn [foldl length].
    change (Find example2.unavailable_on_fetch ?f ?o)
      with (@inr error _ (memstore.Find [example.doc_a] f o)) at 1.
    vm_compute memstore.Find. cbn [mongo.batch SpanReader.collectTraceIDs].
    rewrite !insert_empty, map_size_singleton.
    change (Z.of_nat 1 >=? maxTracesForDependencies) with false.
    cbn [mbind result_bind spanstore.NumTraces].
    change (maxTracesForDependencies <? 0) with false.
    cbn [mbind result_bind]. rewrite range_singleton. reflexivity. }
  split; [exact Hfind|].
  unfold SpanReader.GetDependencies.
  change (2000 + Go.int64 (-1 * 1500)) with 500.
  by rewrite Hfind, dependencyLinks_nil.
Qed.

End lookup_operations.


Section codec.
Context `{!Float64Conv} `{!MapRange}.

(** C10. Writing never fails on the kind of a reference: a reference
    whose kind is not follows-from, declared or not, is stored with the
    kind child-of, and reads back as a child-of reference, the kind
    that [GetDependencies] counts. *)
Theorem other_kinds_stored_as_child_of (span : model.Span.t) (i : nat)
    (ref : model.SpanRef.t) :
  model.Span.References span !! i = Some ref →
  model.SpanRef.RefType ref ≠ model.FollowsFrom →
  Forall (λ r, wf_trace_id (model.SpanRef.TraceID r) ∧ Go.is_uint64 (model.SpanRef.SpanID r))
         (model.Span.References span) →
  (∀ c, SpanWriter.WriteSpan c span = Ok (c ++ [SpanWriter.mSpan span]))
  ∧ Span.References (SpanWriter.mSpan span) !! i
    = Some (Reference.mk ChildOf
              (model.TraceID.String (model.SpanRef.TraceID ref))
              (model.SpanID.String (model.SpanRef.SpanID ref)))
  ∧ ∃ refs, SpanReader.convertRefs (Span.References (SpanWriter.mSpan span)) = Ok refs
            ∧ refs !! i = Some (model.SpanRef.mk (model.SpanRef.TraceID ref)
                                  (model.SpanRef.SpanID ref) model.SpanRefType.CHILD_OF).
Proof.
  intros Hi Hkind Hids.
  assert (Hk : SpanWriter.convertRefType (model.SpanRef.RefType ref) = ChildOf).
  { unfold SpanWriter.convertRefType.
    by destruct (Z.eqb_spec (model.SpanRef.RefType ref) model.FollowsFrom). }
  split; [done|]. split.
  - cbn [SpanWriter.mSpan Span.References]. rewrite convertReferences_fmap.
    rewrite list_lookup_fmap, Hi. cbn. by rewrite Hk.
  - exists (persisted_ref <$> model.Span.References span). split.
    + by apply convertRefs_convertReferences.
    + rewrite list_lookup_fmap, Hi. cbn. unfold persisted_ref, persisted_kind.
      by destruct (Z.eqb_spec (model.SpanRef.RefType ref) model.FollowsFrom).
Qed.



End codec.




Lemma odd_kind_span_ids :
  Forall (λ r, wf_trace_id (model.SpanRef.TraceID r) ∧ Go.is_uint64 (model.SpanRef.SpanID r))
         (model.Span.References example2.odd_kind_span).
Proof. repeat constructor; cbn; unfold Go.is_uint64; lia. Qed.

(** C10, on a span whose reference has the undeclared kind 5. *)
Lemma other_kinds_stored_as_child_of_witness :
  (∀ c, @SpanWriter.WriteSpan example.no_floats c example2.odd_kind_span
        = Ok (c ++ [@SpanWriter.mSpan example.no_floats example2.odd_kind_span]))
  ∧ Span.References (@SpanWriter.mSpan example.no_floats example2.odd_kind_span) !! 0%nat
    = Some (Reference.mk ChildOf "000000000000002a" "0000000000000007")
  ∧ ∃ refs, SpanReader.convertRefs
              (Span.References (@SpanWriter.mSpan example.no_floats example2.odd_kind_span))
            = Ok refs
            ∧ refs !! 0%nat
              = Some (model.SpanRef.mk (model.TraceID.mk 0 42) 7 model.SpanRefType.CHILD_OF).
Proof.
  refine (@other_kinds_stored_as_child_of example.no_floats example2.odd_kind_span 0
            (model.SpanRef.mk (model.TraceID.mk 0 42) 7 5) eq_refl _ odd_kind_span_ids).
  discriminate.
Defined.

(** The reference of undeclared kind then counts as a dependency of
    "worker" on "frontend". *)
Example odd_kind_contributes_edge :
  @SpanReader.GetDependencies example.no_floats trie_order
    (MongoReaderStorage
       [@SpanWriter.mSpan example.no_floats example.frontend_span;
        @SpanWriter.mSpan example.no_floats example2.odd_kind_span])
    1625101262000000000 60000000000
  = Ok [model.DependencyLink.mk "frontend" "worker" 1].
Proof. vm_compute. reflexivity. Qed.

(** ** The filter of a trace query *)

Section filter_facts.
Context `{!MapRange}.

Lemma tags_array_acc (l : list (string * string)) (acc : list bson.value) :
  foldl (λ a '(k, v),
           a ++ [bson.doc [("tags",
                   bson.doc [("$elemMatch",
                     bson.doc [("key", bson.String k); ("value", bson.String v)])])]])
        acc l
  = acc ++ (tag_filter <$> l).
Proof.
  revert acc. induction l as [|[k v] l IH]; intros acc; csimpl.
  - by rewrite app_nil_r.
  - rewrite IH. by rewrite <- app_assoc.
Qed.

Lemma tags_array_fmap (q : spanstore.TraceQueryParameters) :
  foldl (λ a '(k, v),
           a ++ [bson.doc [("tags",
                   bson.doc [("$elemMatch",
                     bson.doc [("key", bson.String k); ("value", bson.String v)])])]])
        [] (range (spanstore.Tags q))
  = tag_filter <$> range (spanstore.Tags q).
Proof. apply tags_array_acc. Qed.

Lemma range_nil_iff {A} (m : gmap string A) : range m = [] ↔ m = ∅.
Proof.
  rewrite <- map_to_list_empty_iff. split; intros Hnil.
  - apply Permutation_nil_r. by rewrite <- range_perm, Hnil.
  - apply Permutation_nil_r. by rewrite range_perm, Hnil.
Qed.

Lemma traceIDFilter_lookup (q : spanstore.TraceQueryParameters) (k : string) :
  SpanReader.traceIDFilter q !! k
  = if decide (k = "duration") then duration_clause q
    else if decide (k = "operationName") then
      (if decide (spanstore.OperationName q = EmptyString) then None
       else Some (bson.String (spanstore.OperationName q)))
    else if decide (k = "process.serviceName") then
      (if decide (spanstore.ServiceName q = EmptyString) then None
       else Some (bson.String (spanstore.ServiceName q)))
    else if decide (k = "$and") then and_clause q
    else if decide (k = "startTime") then
      Some (bson.doc [("$gt", bson.DateTime (spanstore.StartTimeMin q));
                      ("$lt", bson.DateTime (spanstore.StartTimeMax q))])
    else None.
Proof.
  unfold SpanReader.traceIDFilter, duration_clause, and_clause.
  rewrite tags_array_fmap, length_fmap.
  assert (Hlen : length (range (spanstore.Tags q)) ≠ 0%nat ↔ spanstore.Tags q ≠ ∅).
  { rewrite <- range_nil_iff. by destruct (range (spanstore.Tags q)). }
  repeat case_bool_decide; repeat case_decide; subst;
    rewrite ?lookup_insert_eq, ?lookup_insert_ne, ?lookup_empty by done;
    try done; exfalso; tauto.
Qed.

End filter_facts.

(** The entry of the filter under a given key. *)
Ltac filter_entry :=
  rewrite traceIDFilter_lookup;
  repeat first [rewrite decide_True by done | rewrite decide_False by done].

Section filter_semantics.
Context `{!MapRange}.

Lemma holds_startTime (d : Span.t) (tmin tmax : Go.Time) :
  entry_holds d ("startTime", bson.doc [("$gt", bson.DateTime tmin); ("$lt", bson.DateTime tmax)])
  = true
  ↔ tmin < Span.StartTime d < tmax.
Proof.
  unfold entry_holds. cbn. rewrite andb_true_r, andb_true_iff.
  destruct (Z.compare_spec (Span.StartTime d) tmin),
           (Z.compare_spec (Span.StartTime d) tmax); split; intros [? ?]; try done; lia.
Qed.

Lemma holds_serviceName (d : Span.t) (s : string) :
  entry_holds d ("process.serviceName", bson.String s) = true
  ↔ Process.ServiceName (Span.Process d) = s.
Proof. unfold entry_holds. cbn. apply String.eqb_eq. Qed.

Lemma holds_operationName (d : Span.t) (s : string) :
  entry_holds d ("operationName", bson.String s) = true ↔ Span.OperationName d = s.
Proof. unfold entry_holds. cbn. apply String.eqb_eq. Qed.

Lemma holds_duration_lte (d : Span.t) (hi : Z) :
  entry_holds d ("duration", bson.doc [("$lte", bson.Int64 hi)]) = true
  ↔ Span.Duration d <= hi.
Proof.
  unfold entry_holds. cbn. rewrite andb_true_r.
  destruct (Z.compare_spec (Span.Duration d) hi); split; try done; lia.
Qed.

Lemma holds_duration_gte (d : Span.t) (lo : Z) :
  entry_holds d ("duration", bson.doc [("$gte", bson.Int64 lo)]) = true
  ↔ lo <= Span.Duration d.
Proof.
  unfold entry_holds. cbn. rewrite andb_true_r.
  destruct (Z.compare_spec (Span.Duration d) lo); split; try done; lia.
Qed.

Lemma holds_duration_both (d : Span.t) (lo hi : Z) :
  entry_holds d ("duration", bson.doc [("$lte", bson.Int64 hi); ("$gte", bson.Int64 lo)]) = true
  ↔ lo <= Span.Duration d <= hi.
Proof.
  unfold entry_holds. cbn. rewrite andb_true_r, andb_true_iff.
  destruct (Z.compare_spec (Span.Duration d) hi),
           (Z.compare_spec (Span.Duration d) lo); split; intros [? ?]; try done; lia.
Qed.

Lemma of_any_String (x : any) (v : string) :
  mongo.value_eqb (bson.of_any x) (bson.String v) = true ↔ x = Str v.
Proof.
  destruct x as [|s|z]; cbn; [done| |done].
  rewrite String.eqb_eq. split; [by intros ->|by intros [= ->]].
Qed.

(** One requested tag: some tag of the document has the key and the
    value. *)
Lemma matches_tag_filter (d : Span.t) (kv : string * string) :
  mongo.matches (tag_filter kv) d = true ↔ asks.has_tag d kv.1 kv.2.
Proof.
  unfold tag_filter, asks.has_tag. rewrite matches_Document. cbn [forallb].
  rewrite andb_true_r. unfold entry_holds. cbn. rewrite andb_true_r.
  rewrite existsb_exists. split.
  - intros (e & Hin & He). apply list_elem_of_In, list_elem_of_fmap in Hin as (tag & -> & Hin).
    exists tag. split; [done|]. cbn in He. rewrite andb_true_r in He.
    apply andb_true_iff in He as [Hk Hv].
    split; [by apply String.eqb_eq|by apply of_any_String].
  - intros (tag & Hin & Hk & Hv). exists (mongo.tag_document tag). split.
    + apply list_elem_of_In, list_elem_of_fmap. by exists tag.
    + cbn. rewrite andb_true_r. apply andb_true_iff.
      split; [by apply String.eqb_eq|by apply of_any_String].
Qed.

Lemma holds_and (d : Span.t) (q : spanstore.TraceQueryParameters) :
  entry_holds d ("$and", bson.Array (tag_filter <$> range (spanstore.Tags q))) = true
  ↔ asks.tags q d.
Proof.
  unfold entry_holds, asks.tags. cbn. rewrite forallb_forall. split.
  - intros Hall k v Hkv. apply (matches_tag_filter d (k, v)), Hall.
    apply list_elem_of_In, list_elem_of_fmap. exists (k, v). split; [done|].
    by apply range_elem_of.
  - intros Hall f Hin.
    apply list_elem_of_In, list_elem_of_fmap in Hin as ([k v] & -> & Hin).
    apply matches_tag_filter, Hall. by apply range_elem_of.
Qed.

(** What the filter of a query asks of a document. *)
Lemma traceIDFilter_matches (q : spanstore.TraceQueryParameters) (d : Span.t) :
  mongo.matchesM (SpanReader.traceIDFilter q) d = true
  ↔ asks.in_window q d ∧ asks.tags q d ∧ asks.service q d ∧ asks.operation q d
     ∧ asks.duration q d.
Proof.
  rewrite matchesM_spec. split.
  - intros Hall. split; [|split; [|split; [|split; [|split]]]].
    + apply holds_startTime, Hall. by filter_entry.
    + destruct (decide (spanstore.Tags q = ∅)) as [Hnil|Hne].
      { intros k v Hkv. rewrite Hnil in Hkv. by apply lookup_empty_Some in Hkv. }
      apply (proj1 (holds_and d q)), Hall. filter_entry.
      unfold and_clause. by rewrite decide_False.
    + intros Hs. apply holds_serviceName, Hall. by filter_entry.
    + intros Ho. apply holds_operationName, Hall. by filter_entry.
    + intros Hmax. specialize (Hall "duration"). revert Hall. filter_entry.
      unfold duration_clause. intros Hall. repeat case_decide; try tauto.
      * specialize (Hall _ eq_refl). apply holds_duration_both in Hall. lia.
      * specialize (Hall _ eq_refl). by apply holds_duration_lte in Hall.
    + intros Hmin. specialize (Hall "duration"). revert Hall. filter_entry.
      unfold duration_clause. intros Hall. repeat case_decide; try tauto.
      * specialize (Hall _ eq_refl). apply holds_duration_both in Hall. lia.
      * specialize (Hall _ eq_refl). by apply holds_duration_gte in Hall.
  - intros (Hw & Ht & Hs & Ho & [Hmax Hmin]) k v. rewrite traceIDFilter_lookup.
    unfold duration_clause, and_clause.
    repeat case_decide; subst; intros [= <-]; try done.
    + apply holds_duration_both. split; [apply Hmin|apply Hmax]; tauto.
    + apply holds_duration_gte, Hmin. tauto.
    + apply holds_duration_lte, Hmax. tauto.
    + by apply holds_operationName, Ho.
    + by apply holds_serviceName, Hs.
    + by apply (proj2 (holds_and d q)).
    + by apply holds_startTime.
Qed.

End filter_semantics.

Section query_translation.
Context `{!MapRange}.

(** C6. With a non-empty tag mapping the filter carries, under [$and],
    one [$elemMatch] entry per requested (key, value), and a document
    matches exactly when, besides the rest of the query, this one span
    document has for every requested entry a tag with that key and that
    value. *)
Theorem tag_filter_conjunction (q : spanstore.TraceQueryParameters) :
  spanstore.Tags q ≠ ∅ →
  (∃ entries, SpanReader.traceIDFilter q !! "$and" = Some (bson.Array entries)
              ∧ entries ≡ₚ tag_filter <$> map_to_list (spanstore.Tags q))
  ∧ ∀ d, mongo.matchesM (SpanReader.traceIDFilter q) d = true
         ↔ (∀ k v, spanstore.Tags q !! k = Some v → asks.has_tag d k v)
            ∧ mongo.matchesM (SpanReader.traceIDFilter (with_tags q ∅)) d = true.
Proof.
  intros Hne. split.
  - exists (tag_filter <$> range (spanstore.Tags q)). split.
    + filter_entry. unfold and_clause. by rewrite decide_False.
    + by rewrite range_perm.
  - intros d. rewrite !traceIDFilter_matches.
    unfold asks.in_window, asks.tags, asks.service, asks.operation, asks.duration.
    cbn [with_tags spanstore.Tags spanstore.StartTimeMin spanstore.StartTimeMax
         spanstore.ServiceName spanstore.OperationName spanstore.DurationMin
         spanstore.DurationMax].
    split.
    + intros (Hw & Ht & Hrest). repeat split; try tauto.
      intros k v Hkv. by apply lookup_empty_Some in Hkv.
    + intros (Ht & Hw & _ & Hrest). tauto.
Qed.

(** C9. With only the maximum set the filter bounds the duration from
    above, with only the minimum set from below, with both set by the
    one two-sided range; a document matches exactly when, besides the
    rest of the query, its duration is within the bounds that are set
    (in microseconds). *)
Theorem duration_bounds_filter (q : spanstore.TraceQueryParameters) :
  (spanstore.DurationMax q ≠ 0 → spanstore.DurationMin q = 0 →
   SpanReader.traceIDFilter q !! "duration"
   = Some (bson.doc [("$lte", bson.Int64 (Go.Microseconds (spanstore.DurationMax q)))]))
  ∧ (spanstore.DurationMin q ≠ 0 → spanstore.DurationMax q = 0 →
     SpanReader.traceIDFilter q !! "duration"
     = Some (bson.doc [("$gte", bson.Int64 (Go.Microseconds (spanstore.DurationMin q)))]))
  ∧ (spanstore.DurationMax q ≠ 0 → spanstore.DurationMin q ≠ 0 →
     SpanReader.traceIDFilter q !! "duration"
     = Some (bson.doc [("$lte", bson.Int64 (Go.Microseconds (spanstore.DurationMax q)));
                       ("$gte", bson.Int64 (Go.Microseconds (spanstore.DurationMin q)))]))
  ∧ ∀ d, mongo.matchesM (SpanReader.traceIDFilter q) d = true
         ↔ mongo.matchesM (SpanReader.traceIDFilter (with_durations q 0 0)) d = true
            ∧ (spanstore.DurationMax q ≠ 0 →
               Span.Duration d <= Go.Microseconds (spanstore.DurationMax q))
            ∧ (spanstore.DurationMin q ≠ 0 →
               Go.Microseconds (spanstore.DurationMin q) <= Span.Duration d).
Proof.
  split; [|split; [|split]].
  - intros Hmax Hmin. filter_entry. unfold duration_clause.
    rewrite decide_False by tauto. rewrite decide_False by tauto. by rewrite decide_True.
  - intros Hmin Hmax. filter_entry. unfold duration_clause.
    rewrite decide_False by tauto. by rewrite decide_True.
  - intros Hmax Hmin. filter_entry. unfold duration_clause. by rewrite decide_True.
  - intros d. rewrite !traceIDFilter_matches.
    unfold asks.in_window, asks.tags, asks.service, asks.operation, asks.duration.
    cbn [with_durations spanstore.Tags spanstore.StartTimeMin spanstore.StartTimeMax
         spanstore.ServiceName spanstore.OperationName spanstore.DurationMin
         spanstore.DurationMax].
    tauto.
Qed.

End query_translation.

Lemma slow_ok_query_tags : spanstore.Tags example3.slow_ok_query ≠ ∅.
Proof.
  intros Hnil. apply (f_equal (lookup "component")) in Hnil.
  vm_compute in Hnil. discriminate Hnil.
Qed.

(** C6, on a query for two tags. *)
Lemma tag_filter_conjunction_witness :
  (∃ entries, @SpanReader.traceIDFilter trie_order example3.slow_ok_query !! "$and"
              = Some (bson.Array entries)
              ∧ entries ≡ₚ tag_filter <$> map_to_list (spanstore.Tags example3.slow_ok_query))
  ∧ ∀ d, mongo.matchesM (@SpanReader.traceIDFilter trie_order example3.slow_ok_query) d = true
         ↔ (∀ k v, spanstore.Tags example3.slow_ok_query !! k = Some v → asks.has_tag d k v)
            ∧ mongo.matchesM
                (@SpanReader.traceIDFilter trie_order (with_tags example3.slow_ok_query ∅)) d
              = true.
Proof.
  exact (@tag_filter_conjunction trie_order example3.slow_ok_query slow_ok_query_tags).
Defined.

(** C9, on a query with both bounds set. *)
Lemma duration_bounds_filter_witness :
  @SpanReader.traceIDFilter trie_order example3.slow_ok_query !! "duration"
  = Some (bson.doc [("$lte", bson.Int64 50000); ("$gte", bson.Int64 1000)])
  ∧ (mongo.matchesM (@SpanReader.traceIDFilter trie_order example3.slow_ok_query)
       example.doc_a = true
     ↔ mongo.matchesM
         (@SpanReader.traceIDFilter trie_order (with_durations example3.slow_ok_query 0 0))
         example.doc_a = true
       ∧ (50000000 ≠ 0 → Span.Duration example.doc_a <= 50000)
       ∧ (1000000 ≠ 0 → 1000 <= Span.Duration example.doc_a)).
Proof.
  pose proof (@duration_bounds_filter trie_order example3.slow_ok_query)
    as (_ & _ & Hboth & Hsem).
  split.
  - apply Hboth; discriminate.
  - exact (Hsem example.doc_a).
Defined.

(** ** Collecting trace ids up to a limit *)

Section first_distinct_facts.

Lemma first_distinct_elem_of (x : string) (l : list string) :
  x ∈ first_distinct l ↔ x ∈ l.
Proof.
  induction l as [|y l IH]; [done|]. cbn [first_distinct].
  rewrite !elem_of_cons, list_elem_of_filter, IH.
  destruct (decide (x = y)); naive_solver.
Qed.

Lemma first_distinct_NoDup (l : list string) : NoDup (first_distinct l).
Proof.
  induction l as [|y l IH]; [constructor|]. cbn [first_distinct].
  constructor; [|by apply NoDup_filter].
  rewrite list_elem_of_filter. naive_solver.
Qed.

Lemma filter_drop_known (seen : gset string) (x : string) (l : list string) :
  x ∈ seen →
  filter (λ y, y ∉ seen) (filter (λ y, y ≠ x) l) = filter (λ y, y ∉ seen) l.
Proof.
  intros Hx. rewrite list_filter_filter. apply list_filter_iff.
  intros y. split; [tauto|]. intros Hy. split; [done|]. by intros ->.
Qed.

Lemma filter_drop_new (seen : gset string) (x : string) (l : list string) :
  filter (λ y, y ∉ seen) (filter (λ y, y ≠ x) l) = filter (λ y, y ∉ {[x]} ∪ seen) l.
Proof.
  rewrite list_filter_filter. apply list_filter_iff. intros y. set_solver.
Qed.

Lemma NoDup_take {A} (n : nat) (l : list A) : NoDup l → NoDup (take n l).
Proof. intros Hl. eapply sublist_NoDup; [exact Hl|apply sublist_take]. Qed.

Lemma filter_all {A} (P : A → Prop) `{!∀ x, Decision (P x)} (l : list A) :
  (∀ x, P x) → filter P l = l.
Proof.
  intros HP. induction l as [|x l IH]; [done|].
  by rewrite filter_cons_True, IH.
Qed.

End first_distinct_facts.

Section limit.
Context `{!MapRange}.

(** The cursor loop, entered with fewer than [N] ids: it adds the first
    ids not yet seen until [N] are held. *)
Lemma collectTraceIDs_spec (N : Z) (ds : list Span.t) (acc : gmap string unit) :
  Z.of_nat (size acc) < N →
  ∃ m, SpanReader.collectTraceIDs N (inr <$> ds) acc = Ok m
       ∧ dom m = dom acc
                 ∪ list_to_set (take (Z.to_nat N - size acc)
                                  (filter (λ y, y ∉ dom acc)
                                     (first_distinct (Span.TraceID <$> ds)))).
Proof.
  revert acc. induction ds as [|d ds IH]; intros acc Hlt.
  - exists acc. split; [done|].
    cbn. rewrite take_nil. set_solver.
  - rewrite !fmap_cons. cbn [SpanReader.collectTraceIDs first_distinct].
    destruct (acc !! Span.TraceID d) as [[]|] eqn:Hacc.
    + rewrite insert_id by done.
      rewrite Z.geb_leb, (proj2 (Z.leb_gt _ _)) by lia.
      destruct (IH acc Hlt) as (m & Hm & Hdom). exists m. split; [done|].
      rewrite Hdom. rewrite filter_cons_False by (intros Hn; apply Hn, elem_of_dom; eauto).
      rewrite filter_drop_known by (apply elem_of_dom; eauto). done.
    + assert (Hx : Span.TraceID d ∉ dom acc) by by apply not_elem_of_dom.
      rewrite filter_cons_True by done.
      rewrite filter_drop_new.
      assert (Hsize : size (<[Span.TraceID d := ()]> acc) = S (size acc)).
      { by apply map_size_insert_None. }
      rewrite Hsize.
      destruct (Z.geb_spec (Z.of_nat (S (size acc))) N) as [Hge|Hlt'].
      * exists (<[Span.TraceID d := ()]> acc). split; [done|].
        replace (Z.to_nat N - size acc)%nat with 1%nat by lia.
        cbn [take]. rewrite take_0, dom_insert_L. set_solver.
      * destruct (IH (<[Span.TraceID d := ()]> acc)) as (m & Hm & Hdom).
        { rewrite Hsize. lia. }
        exists m. split; [done|]. rewrite Hdom, Hsize, dom_insert_L.
        replace (Z.to_nat N - size acc)%nat with (S (Z.to_nat N - S (size acc))) by lia.
        cbn [take]. rewrite list_to_set_cons. set_solver.
Qed.

(** With a limit of at least one, [findTraceIDs] returns, in some order,
    the first [NumTraces] distinct trace ids of the documents fetched. *)
Lemma findTraceIDs_first_distinct (st : ReaderStorage) (q : spanstore.TraceQueryParameters)
    (ds : list Span.t) (cerr : option error) :
  Find st (SpanReader.traceIDFilter q) SpanReader.traceIDOptions
    = inr (mongo.mkCursor (inr <$> ds) cerr) →
  1 <= spanstore.NumTraces q →
  ∃ ids, SpanReader.findTraceIDs st q = Ok ids
         ∧ ids ≡ₚ take (Z.to_nat (spanstore.NumTraces q))
                    (first_distinct (Span.TraceID <$> ds)).
Proof.
  intros Hfind Hlimit. unfold SpanReader.findTraceIDs. rewrite Hfind.
  cbn [mongo.batch].
  destruct (collectTraceIDs_spec (spanstore.NumTraces q) ds ∅) as (m & -> & Hdom).
  { rewrite map_size_empty. lia. }
  cbn [mbind result_bind].
  rewrite (proj2 (Z.ltb_ge _ _)) by lia.
  eexists. split; [done|].
  rewrite map_size_empty, Nat.sub_0_r, dom_empty_L, (left_id_L ∅ (∪)) in Hdom.
  rewrite filter_all in Hdom by set_solver.
  apply NoDup_Permutation.
  - apply range_NoDup_fst.
  - apply NoDup_take, first_distinct_NoDup.
  - intros x. transitivity (x ∈ dom m); [|by rewrite Hdom, elem_of_list_to_set].
    rewrite elem_of_dom. unfold is_Some.
    rewrite list_elem_of_fmap. split.
    + intros ([k v] & -> & Hin). apply range_elem_of in Hin. eauto.
    + intros (v & Hv). exists (x, v). split; [done|]. by apply range_elem_of.
Qed.

End limit.

Section limit_consequences.
Context `{!MapRange}.


#[local] Instance newer_first_total : Total memstore.newer_first.
Proof. intros a b. unfold memstore.newer_first. lia. Qed.

#[local] Instance newer_first_trans : Transitive memstore.newer_first.
Proof. intros a b c. unfold memstore.newer_first. lia. Qed.

Lemma project_TraceID (d : Span.t) :
  Span.TraceID (memstore.project (options.Projection SpanReader.traceIDOptions) d)
  = Span.TraceID d.
Proof. done. Qed.


(** C5, at the limit zero: on a collection of one matching document
    the query with [NumTraces = 0] gets one trace id, not none. *)
Theorem zero_limit_returns_one_id :
  SpanReader.findTraceIDs (MongoReaderStorage [example.doc_a])
    (spanstore.mkQuery EmptyString EmptyString ∅ 0 5000 0 0 0)
  = Ok ["000000000000002a"]
  ∧ SpanReader.FindTraceIDs (MongoReaderStorage [example.doc_a])
      (spanstore.mkQuery EmptyString EmptyString ∅ 0 5000 0 0 0)
    = Ok [model.TraceID.mk 0 42].
Proof.
  assert (Hids :
    SpanReader.findTraceIDs (MongoReaderStorage [example.doc_a])
      (spanstore.mkQuery EmptyString EmptyString ∅ 0 5000 0 0 0)
    = Ok ["000000000000002a"]).
  { unfold SpanReader.findTraceIDs, SpanReader.traceIDFilter.
    cbn [spanstore.Tags spanstore.ServiceName spanstore.OperationName
         spanstore.DurationMax spanstore.DurationMin spanstore.StartTimeMin
         spanstore.StartTimeMax spanstore.NumTraces].
    rewrite range_empty. cbn [foldl length].
    cbn [Find MongoReaderStorage]. vm_compute memstore.Find.
    cbn [mongo.batch SpanReader.collectTraceIDs].
    rewrite !insert_empty, map_size_singleton.
    change (Z.of_nat 1 >=? 0) with true. cbn [mbind result_bind].
    change (0 <? 0) with false. cbn iota. by rewrite range_singleton. }
  split; [exact Hids|].
  unfold SpanReader.FindTraceIDs. rewrite Hids. cbn [mbind result_bind].
  vm_compute. reflexivity.
Qed.

End limit_consequences.

(** ** The dependency graph *)

Section dependency_facts.
Context `{!MapRange}.

Lemma foldl_flatten {A} (g : A → model.Span.t → A) (traces : list model.Trace.t) (a : A) :
  foldl (λ acc trace, foldl g acc (model.Trace.Spans trace)) a traces
  = foldl g a (flatten traces).
Proof.
  revert a. induction traces as [|t traces IH]; intros a; [done|].
  unfold flatten. rewrite bind_cons, foldl_app. cbn [foldl]. apply IH.
Qed.

Lemma serviceNames_flatten (traces : list model.Trace.t) :
  SpanReader.serviceNames traces = names_of (flatten traces).
Proof. unfold SpanReader.serviceNames. by rewrite foldl_flatten. Qed.

Lemma countLink_observed (names : gmap Z string) (s : model.Span.t)
    (refs : list model.SpanRef.t) (m : gmap string model.DependencyLink.t) :
  foldl (SpanReader.countLink names s) m refs
  = foldl bump m (refs ≫= λ ref,
      if bool_decide (model.SpanRef.GetRefType ref = model.SpanRefType.CHILD_OF
                      ∧ default EmptyString (names !! model.SpanRef.SpanID ref) ≠ EmptyString)
      then [(default EmptyString (names !! model.SpanRef.SpanID ref), chain.service s)]
      else []).
Proof.
  revert m. induction refs as [|ref refs IH]; intros m; [done|].
  rewrite bind_cons, foldl_app. cbn [foldl]. rewrite IH. f_equal.
  unfold SpanReader.countLink. by case_bool_decide.
Qed.

Lemma foldl_pointwise {A B} (f g : A → B → A) (l : list B) (a : A) :
  (∀ a x, f a x = g a x) → foldl f a l = foldl g a l.
Proof.
  intros Hfg. revert a. induction l as [|x l IH]; intros a; [done|].
  cbn [foldl]. by rewrite Hfg, IH.
Qed.

Lemma foldl_bind {A B C} (g : A → C → A) (f : B → list C) (l : list B) (a : A) :
  foldl (λ acc x, foldl g acc (f x)) a l = foldl g a (l ≫= f).
Proof.
  revert a. induction l as [|x l IH]; intros a; [done|].
  rewrite bind_cons, foldl_app. cbn [foldl]. apply IH.
Qed.

Lemma keep_links (l : list (string * model.DependencyLink.t))
    (acc : list model.DependencyLink.t) :
  foldl (λ dls '(_, dl),
           if bool_decide (model.DependencyLink.Parent dl ≠ model.DependencyLink.Child dl)
           then dls ++ [dl] else dls) acc l
  = acc ++ filter (λ dl, model.DependencyLink.Parent dl ≠ model.DependencyLink.Child dl) l.*2.
Proof.
  revert acc. induction l as [|[k dl] l IH]; intros acc; csimpl.
  - by rewrite app_nil_r.
  - rewrite IH. case_bool_decide.
    + rewrite filter_cons_True by done. by rewrite <- app_assoc.
    + rewrite filter_cons_False; [done|]. by intros ?.
Qed.

(** [dependencyLinks] in three steps: the names of all spans, the pairs
    observed, the links that are not loops. *)
Lemma dependencyLinks_steps (traces : list model.Trace.t) :
  SpanReader.dependencyLinks traces
  = filter (λ dl, model.DependencyLink.Parent dl ≠ model.DependencyLink.Child dl)
      (range (foldl bump ∅
                (flatten traces ≫= observed (names_of (flatten traces))))).*2.
Proof.
  unfold SpanReader.dependencyLinks. rewrite serviceNames_flatten, foldl_flatten.
  rewrite (foldl_pointwise _ (λ m s, foldl bump m (observed (names_of (flatten traces)) s)))
    by (intros; apply countLink_observed).
  rewrite foldl_bind. apply keep_links.
Qed.

(** No returned link is a loop. *)
Lemma dependencyLinks_no_loops (traces : list model.Trace.t) :
  Forall (λ dl, model.DependencyLink.Parent dl ≠ model.DependencyLink.Child dl)
    (SpanReader.dependencyLinks traces).
Proof.
  rewrite dependencyLinks_steps. apply Forall_forall.
  by intros dl [Hdl _]%list_elem_of_filter.
Qed.

End dependency_facts.

Section chain_facts.
Context `{!MapRange}.

Lemma names_of_snoc (l : list model.Span.t) (s : model.Span.t) :
  names_of (l ++ [s]) = <[model.Span.SpanID s := chain.service s]> (names_of l).
Proof. unfold names_of. by rewrite foldl_snoc. Qed.

(** With distinct span ids, every span is recorded under its id with
    its own service. *)
Lemma names_of_lookup (l : list model.Span.t) (s : model.Span.t) :
  NoDup (model.Span.SpanID <$> l) → s ∈ l →
  names_of l !! model.Span.SpanID s = Some (chain.service s).
Proof.
  induction l as [|x l IH] using rev_ind; intros Hnd Hin.
  - by apply elem_of_nil in Hin.
  - rewrite names_of_snoc. rewrite fmap_app in Hnd.
    apply NoDup_app in Hnd as (Hl & Hfresh & _).
    apply elem_of_app in Hin as [Hin|Hin].
    + destruct (decide (model.Span.SpanID x = model.Span.SpanID s)) as [Heq|Hne].
      * exfalso. apply (Hfresh (model.Span.SpanID s)).
        -- apply list_elem_of_fmap. by exists s.
        -- rewrite <- Heq. apply list_elem_of_singleton. done.
      * rewrite lookup_insert_ne by done. by apply IH.
    + apply list_elem_of_singleton in Hin as ->. by rewrite lookup_insert_eq.
Qed.



Lemma link_key_link_of (pc : string * string) : link_key (link_of pc) = pc.1 +:+ pc.2.
Proof. done. Qed.





End chain_facts.

Section chain_through_the_store.
Context `{!Float64Conv} `{!MapRange}.




Lemma List_filter_all {A} (p : A → bool) (l : list A) :
  Forall (λ x, p x = true) l → List.filter p l = l.
Proof. induction 1 as [|x l Hx _ IH]; [done|]. cbn. by rewrite Hx, IH. Qed.

Lemma first_distinct_length_perm (l l' : list string) :
  l' ≡ₚ l → length (first_distinct l') = length (first_distinct l).
Proof.
  intros Hperm. apply Permutation_length, NoDup_Permutation;
    [apply first_distinct_NoDup..|].
  intros x. by rewrite !first_distinct_elem_of, Hperm.
Qed.

(** The query of [GetDependencies] asks nothing but the window. *)
Lemma dependency_query_matches (endTs : Go.Time) (lookback : Go.Duration) (d : Span.t) :
  endTs + Go.int64 (-1 * lookback) < Span.StartTime d < endTs →
  mongo.matchesM
    (SpanReader.traceIDFilter
       (spanstore.mkQuery EmptyString EmptyString ∅
          (endTs + Go.int64 (-1 * lookback)) endTs 0 0 maxTracesForDependencies)) d = true.
Proof.
  intros Hw. apply traceIDFilter_matches.
  unfold asks.in_window, asks.tags, asks.service, asks.operation, asks.duration. cbn.
  repeat split; try done; lia.
Qed.

(** The first query of [GetDependencies] matches every document of a
    window that covers them all. *)
Lemma Find_window (docs : list Span.t) (endTs : Go.Time) (lookback : Go.Duration) :
  Forall (λ d, endTs + Go.int64 (-1 * lookback) < Span.StartTime d < endTs) docs →
  Find (MongoReaderStorage docs)
    (SpanReader.traceIDFilter
       (spanstore.mkQuery EmptyString EmptyString ∅
          (endTs + Go.int64 (-1 * lookback)) endTs 0 0 maxTracesForDependencies))
    SpanReader.traceIDOptions
  = inr (mongo.mkCursor
           (inr <$> (memstore.project (options.Projection SpanReader.traceIDOptions)
                       <$> merge_sort memstore.newer_first docs)) None).
Proof.
  intros Hwin. cbn [Find MongoReaderStorage]. unfold memstore.Find. do 3 f_equal.
  cbn [options.Sort SpanReader.traceIDOptions memstore.sort].
  change (String.eqb "startTime" "startTime") with true. cbn iota.
  rewrite List_filter_all; [done|].
  eapply Forall_impl; [exact Hwin|]. intros d Hd. by apply dependency_query_matches.
Qed.

(** Fetching the traces of a window that covers every stored document,
    with no more distinct trace ids than the cap: the second query
    matches every document. *)
Lemma FindTraces_window (pairs : list (Span.t * model.Span.t))
    (endTs : Go.Time) (lookback : Go.Duration) :
  pairs ≠ [] →
  Forall (λ d, endTs + Go.int64 (-1 * lookback) < Span.StartTime d < endTs) pairs.*1 →
  Z.of_nat (length (first_distinct (Span.TraceID <$> pairs.*1))) <= maxTracesForDependencies →
  ∃ ids,
    SpanReader.FindTraces (MongoReaderStorage pairs.*1)
      (spanstore.mkQuery EmptyString EmptyString ∅
         (endTs + Go.int64 (-1 * lookback)) endTs 0 0 maxTracesForDependencies)
    = (tracesMap ← SpanReader.fetchTracesById (MongoReaderStorage pairs.*1) ids;
       Ok (snd <$> range tracesMap))
    ∧ Find (MongoReaderStorage pairs.*1) (SpanReader.fetchFilter ids) options.none
      = inr (mongo.mkCursor (inr <$> pairs.*1) None).
Proof.
  intros Hne Hwin Hcap.
  set (q := spanstore.mkQuery EmptyString EmptyString ∅
              (endTs + Go.int64 (-1 * lookback)) endTs 0 0 maxTracesForDependencies).
  set (docs := pairs.*1) in *.
  set (fetched := memstore.project (options.Projection SpanReader.traceIDOptions)
                    <$> merge_sort memstore.newer_first docs).
  pose proof (Find_window docs endTs lookback Hwin) as Hfind. fold q fetched in Hfind.
  assert (Hids_of : Span.TraceID <$> fetched ≡ₚ Span.TraceID <$> docs).
  { unfold fetched. rewrite <- list_fmap_compose.
    rewrite (list_fmap_ext (Span.TraceID ∘ _) Span.TraceID) by done.
    by rewrite merge_sort_Permutation. }
  destruct (findTraceIDs_first_distinct (MongoReaderStorage docs) q fetched None Hfind)
    as (ids & Hids & Hperm); [done|].
  rewrite take_ge in Hperm.
  2:{ rewrite (first_distinct_length_perm _ _ Hids_of). cbn [spanstore.NumTraces q]. lia. }
  assert (Hmem : ∀ x, x ∈ ids ↔ x ∈ Span.TraceID <$> docs).
  { intros x. by rewrite Hperm, first_distinct_elem_of, Hids_of. }
  exists ids. split.
  - unfold SpanReader.FindTraces. rewrite Hids. cbn [mbind result_bind].
    rewrite bool_decide_eq_false_2; [done|].
    destruct pairs as [|[d s] pairs']; [done|].
    intros Hlen. apply nil_length_inv in Hlen.
    assert (Hin : Span.TraceID d ∈ ids).
    { apply Hmem. unfold docs. rewrite !fmap_cons. apply list_elem_of_here. }
    rewrite Hlen in Hin. by apply elem_of_nil in Hin.
  - cbn [Find MongoReaderStorage]. rewrite Find_fetchFilter. do 3 f_equal.
    apply List_filter_all, Forall_forall. intros d Hd.
    apply bool_decide_eq_true_2, Hmem, list_elem_of_fmap. by exists d.
Qed.


(** When the documents all belong to one trace, that trace comes back
    with its spans in the order of the documents. *)
Lemma FindTraces_one_trace (pairs : list (Span.t * model.Span.t)) (tid : string)
    (endTs : Go.Time) (lookback : Go.Duration) :
  pairs ≠ [] →
  Forall (λ p, SpanReader.convertSpan p.1 = Ok p.2) pairs →
  Forall (λ d, endTs + Go.int64 (-1 * lookback) < Span.StartTime d < endTs) pairs.*1 →
  Forall (λ d, Span.TraceID d = tid) pairs.*1 →
  Z.of_nat (length (first_distinct (Span.TraceID <$> pairs.*1))) <= maxTracesForDependencies →
  SpanReader.FindTraces (MongoReaderStorage pairs.*1)
    (spanstore.mkQuery EmptyString EmptyString ∅
       (endTs + Go.int64 (-1 * lookback)) endTs 0 0 maxTracesForDependencies)
  = Ok [model.Trace.mk pairs.*2].
Proof.
  intros Hne Hall Hwin Hone Hcap.
  destruct (FindTraces_window pairs endTs lookback Hne Hwin Hcap) as (ids & -> & Hfind).
  destruct (fetchTracesById_grouped _ ids pairs Hfind Hall) as (m & -> & Hg).
  cbn [mbind result_bind].
  assert (Hsame : spans_of tid pairs = pairs.*2).
  { unfold spans_of. f_equal. apply List_filter_all.
    apply Forall_fmap in Hone. eapply Forall_impl; [exact Hone|].
    intros p Hp. by apply bool_decide_eq_true_2. }
  assert (Hother : ∀ tid', tid' ≠ tid → spans_of tid' pairs = []).
  { intros tid' Hne'. unfold spans_of.
    apply Forall_fmap in Hone. clear -Hone Hne'.
    induction Hone as [|p l Hp _ IH]; [done|]. cbn [List.filter].
    rewrite bool_decide_eq_false_2; [done|]. cbn in Hp. congruence. }
  assert (Heq : m = {[ tid := model.Trace.mk pairs.*2 ]}).
  { apply map_eq. intros tid'. rewrite (Hg tid').
    destruct (decide (tid' = tid)) as [->|Hne'].
    - rewrite Hsame, lookup_singleton_eq.
      destruct pairs; [done|]. by rewrite fmap_cons.
    - by rewrite (Hother _ Hne'), lookup_singleton_ne. }
  by rewrite Heq, range_singleton.
Qed.

End chain_through_the_store.

Section capped.
Context `{!Float64Conv} `{!MapRange}.







Lemma observed_length (names : gmap Z string) (s : model.Span.t) :
  (length (observed names s) ≤ length (model.Span.References s))%nat.
Proof.
  unfold observed. induction (model.Span.References s) as [|ref refs IH]; [done|].
  rewrite bind_cons, length_app. cbn [length].
  destruct (bool_decide _); cbn [length]; lia.
Qed.




End capped.

Section linear_chains.
Context `{!Float64Conv} `{!MapRange}.






End linear_chains.

Section colliding_keys.
Context `{!Float64Conv} `{!MapRange}.

(** C4. The links are counted under the concatenation of the two
    service names, so two different pairs with the same concatenation
    are counted as one. Stored: one trace in which a span of "bc" is a
    child of a span of "a", and a span of "c" a child of a span of
    "ab". Each pair is observed once; [GetDependencies] returns the one
    link from "a" to "bc" with call count 2, and no link from "ab" to
    "c". *)
Theorem crossing_calls_counted_as_one :
  SpanReader.GetDependencies
    (MongoReaderStorage (SpanWriter.mSpan <$> example4.crossing)) 5000 4500
  = Ok [model.DependencyLink.mk "a" "bc" 2]
  ∧ calls example4.crossing "a" "bc" = 1%nat
  ∧ calls example4.crossing "ab" "c" = 1%nat.
Proof.
  split; [|split; vm_compute; reflexivity].
  set (pairs := (λ s, (SpanWriter.mSpan s, s)) <$> example4.crossing).
  change (SpanWriter.mSpan <$> example4.crossing) with pairs.*1.
  unfold SpanReader.GetDependencies.
  rewrite (FindTraces_one_trace pairs "0000000000000009").
  - change pairs.*2 with example4.crossing. f_equal.
    rewrite dependencyLinks_steps.
    assert (Hm : foldl bump ∅
                   (flatten [model.Trace.mk example4.crossing]
                      ≫= observed (names_of (flatten [model.Trace.mk example4.crossing])))
                 = {[ "abc" := model.DependencyLink.mk "a" "bc" 2 ]}).
    { vm_compute. reflexivity. }
    rewrite Hm, range_singleton. reflexivity.
  - done.
  - repeat constructor; vm_compute; reflexivity.
  - repeat constructor; vm_compute; reflexivity.
  - repeat constructor.
  - vm_compute. discriminate.
Qed.

End colliding_keys.


Section long_chains.













End long_chains.

(** * Further properties of the reader and the writer *)

(** ** The name queries *)

Section name_queries.

Lemma toStringArray_cons (x : any) (arr : list any) :
  SpanReader.toStringArray (x :: arr)
  = match x with
    | Str str => names ← SpanReader.toStringArray arr; Ok (str :: names)
    | _ => Err (errors_New "non-string key found")
    end.
Proof. by destruct x. Qed.

Lemma toStringArray_Ok (arr : list any) (names : list string) :
  SpanReader.toStringArray arr = Ok names ↔ arr = Str <$> names.
Proof.
  revert names. induction arr as [|x arr IH]; intros names.
  - cbn. split; [intros [= <-]; done|]. by destruct names.
  - rewrite toStringArray_cons. destruct x as [|str|z]; try (split; [done|by destruct names]).
    destruct (SpanReader.toStringArray arr) as [l| | |] eqn:Hl; cbn.
    + split.
      * intros [= <-]. rewrite fmap_cons. f_equal. by apply IH.
      * destruct names as [|n names]; [done|]. rewrite fmap_cons. intros [= -> Harr].
        apply IH in Harr. by injection Harr as ->.
    + split; [done|]. destruct names as [|n names]; [done|]. rewrite fmap_cons.
      intros [= _ Harr]. by apply IH in Harr.
    + split; [done|]. destruct names as [|n names]; [done|]. rewrite fmap_cons.
      intros [= _ Harr]. by apply IH in Harr.
    + split; [done|]. destruct names as [|n names]; [done|]. rewrite fmap_cons.
      intros [= _ Harr]. by apply IH in Harr.
Qed.

Lemma toStringArray_outcome (arr : list any) :
  (∃ names, SpanReader.toStringArray arr = Ok names)
  ∨ SpanReader.toStringArray arr = Err (errors_New "non-string key found").
Proof.
  induction arr as [|x arr IH]; [left; by exists []|].
  rewrite toStringArray_cons. destruct x as [|str|z]; [by right| |by right].
  destruct IH as [[names ->]| ->]; [left; by eexists|by right].
Qed.

Lemma strings_or_not (arr : list any) :
  (∃ names, arr = Str <$> names) ∨ Exists not_a_string arr.
Proof.
  induction arr as [|x arr [[names ->]|Hex]].
  - left. by exists [].
  - destruct x as [|str|z].
    + right. by left.
    + left. by exists (str :: names).
    + right. by left.
  - right. by right.
Qed.

Lemma strings_not_both (names : list string) : ¬ Exists not_a_string (Str <$> names).
Proof.
  intros Hex. apply Exists_exists in Hex as (x & Hx & Hnot).
  apply list_elem_of_fmap in Hx as (s & -> & _). by apply (Hnot s).
Qed.

Lemma toStringArray_Err (arr : list any) :
  SpanReader.toStringArray arr = Err (errors_New "non-string key found")
  ↔ Exists not_a_string arr.
Proof.
  split.
  - intros Herr. destruct (strings_or_not arr) as [[names Hs]|Hex]; [|done].
    apply toStringArray_Ok in Hs. by rewrite Hs in Herr.
  - intros Hex. destruct (toStringArray_outcome arr) as [[names Hs]|Herr]; [|done].
    apply toStringArray_Ok in Hs. subst arr. by apply strings_not_both in Hex.
Qed.

(** X1. [toStringArray] is all or nothing: it returns the strings, in
    order, exactly when every element is a string, and the one error
    "non-string key found" exactly when some element is not. *)
Theorem toStringArray_all_or_nothing (arr : list any) :
  (∀ names, SpanReader.toStringArray arr = Ok names ↔ arr = Str <$> names)
  ∧ (SpanReader.toStringArray arr = Err (errors_New "non-string key found")
     ↔ Exists not_a_string arr).
Proof. split; [apply toStringArray_Ok|apply toStringArray_Err]. Qed.

Lemma toStringOperations_toStringArray (arr : list any) :
  SpanReader.toStringOperations arr
  = SpanReader.toStringArray arr ≫= λ names : list string, Ok (operation_of <$> names).
Proof.
  induction arr as [|x arr IH]; [done|].
  rewrite toStringArray_cons. unfold SpanReader.toStringOperations in *.
  cbn [for_each]. destruct x as [|str|z]; [done| |done].
  cbn [mbind result_bind]. rewrite IH.
  by destruct (SpanReader.toStringArray arr).
Qed.

(** X2. [toStringOperations] returns, exactly when every element is a
    string, one operation per element, in order, named by the string
    and of span kind "TODO"; otherwise the error "non-string key
    found". *)
Theorem toStringOperations_all_or_nothing (arr : list any) :
  (∀ ops, SpanReader.toStringOperations arr = Ok ops
          ↔ ∃ names, arr = Str <$> names ∧ ops = operation_of <$> names)
  ∧ (SpanReader.toStringOperations arr = Err (errors_New "non-string key found")
     ↔ Exists not_a_string arr)
  ∧ (∀ ops, SpanReader.toStringOperations arr = Ok ops →
            length ops = length arr
            ∧ Forall (λ op, spanstore.Operation.SpanKind op = "TODO") ops).
Proof.
  rewrite toStringOperations_toStringArray.
  split; [|split].
  - intros ops. split.
    + destruct (SpanReader.toStringArray arr) as [names| | |] eqn:Hs; try done.
      cbn. intros [= <-]. exists names. split; [|done]. by apply toStringArray_Ok.
    + intros (names & Hs & ->). apply toStringArray_Ok in Hs. by rewrite Hs.
  - rewrite <- toStringArray_Err.
    destruct (toStringArray_outcome arr) as [[names ->]| ->]; [|done]. by cbn.
  - intros ops. destruct (SpanReader.toStringArray arr) as [names| | |] eqn:Hs; try done.
    cbn. intros [= <-]. apply toStringArray_Ok in Hs. subst arr.
    rewrite !length_fmap. split; [done|]. by apply Forall_fmap, Forall_true.
Qed.

Context `{!ErrorText}.

Lemma List_filter_elem (A : Type) (p : A → bool) (l : list A) (x : A) :
  x ∈ List.filter p l ↔ x ∈ l ∧ p x = true.
Proof. by rewrite !list_elem_of_In, filter_In. Qed.

(** What [Distinct] answers on a collection. *)
Lemma Distinct_elem_of (c : memstore.Collection) (fieldName : string)
    (filter : bson.value) :
  ∃ names, memstore.Distinct c fieldName filter = Str <$> names
           ∧ NoDup names
           ∧ ∀ x, x ∈ names ↔ ∃ d, d ∈ c ∧ mongo.matches filter d = true
                                    ∧ memstore.string_field fieldName d = Some x.
Proof.
  eexists. split; [reflexivity|]. split; [apply NoDup_remove_dups|].
  intros x. rewrite elem_of_remove_dups, list_elem_of_omap. split.
  - intros (d & Hd & Hx). apply List_filter_elem in Hd as [Hd Hm]. by exists d.
  - intros (d & Hd & Hm & Hx). exists d. split; [|done]. by apply List_filter_elem.
Qed.

(** X3. On a collection [GetServices] never fails, and it returns each
    service name that some stored span document carries, once. *)
Theorem GetServices_each_service_once (c : memstore.Collection) :
  ∃ names, SpanReader.GetServices (MongoDistinctStorage c) = Ok names
           ∧ NoDup names
           ∧ ∀ x, x ∈ names ↔ ∃ d, d ∈ c ∧ Process.ServiceName (Span.Process d) = x.
Proof.
  destruct (Distinct_elem_of c "process.serviceName" (bson.Document []))
    as (names & Hd & Hnd & Hin).
  exists names. split; [|split; [done|]].
  - unfold SpanReader.GetServices. cbn [Distinct MongoDistinctStorage].
    rewrite Hd. by apply toStringArray_Ok.
  - intros x. rewrite Hin. split.
    + intros (d & Hc & _ & [= <-]). by exists d.
    + intros (d & Hc & <-). by exists d.
Qed.

Lemma matches_service (svc : string) (d : Span.t) :
  mongo.matches (bson.Document [("process.serviceName", bson.String svc)]) d = true
  ↔ Process.ServiceName (Span.Process d) = svc.
Proof.
  cbn. rewrite andb_true_r. apply String.eqb_eq.
Qed.

(** X4. On a collection [GetOperations] never fails. It returns, each
    once and each with span kind "TODO", the operation names of the
    stored span documents of the service asked for, or of all of them
    when the query names no service; the span kind of the query plays
    no part. *)
Theorem GetOperations_each_operation_once (c : memstore.Collection)
    (query : spanstore.OperationQueryParameters.t) :
  ∃ ops, SpanReader.GetOperations (MongoDistinctStorage c) query = Ok ops
         ∧ NoDup (spanstore.Operation.Name <$> ops)
         ∧ Forall (λ op, spanstore.Operation.SpanKind op = "TODO") ops
         ∧ ∀ x, x ∈ spanstore.Operation.Name <$> ops
                ↔ ∃ d, d ∈ c ∧ Span.OperationName d = x
                       ∧ (spanstore.OperationQueryParameters.ServiceName query ≠ EmptyString →
                          Process.ServiceName (Span.Process d)
                          = spanstore.OperationQueryParameters.ServiceName query).
Proof.
  unfold SpanReader.GetOperations. cbn [Distinct MongoDistinctStorage].
  set (filter := if bool_decide _ then _ else _).
  destruct (Distinct_elem_of c "operationName" (bson.Document filter))
    as (names & Hd & Hnd & Hin).
  exists (operation_of <$> names).
  assert (Hnames : spanstore.Operation.Name <$> (operation_of <$> names) = names).
  { rewrite <- list_fmap_compose. apply list_fmap_id. }
  rewrite Hnames. split; [|split; [done|split]].
  - rewrite Hd, toStringOperations_toStringArray.
    by rewrite (proj2 (toStringArray_Ok _ names) eq_refl).
  - by apply Forall_fmap, Forall_true.
  - intros x. rewrite Hin. unfold filter. case_bool_decide as Hsvc.
    + split.
      * intros (d & Hc & Hm%matches_service & [= <-]). by exists d.
      * intros (d & Hc & <- & Hs). exists d. split; [done|]. split; [|done].
        by apply matches_service, Hs.
    + split.
      * intros (d & Hc & _ & [= <-]). exists d. split; [done|]. split; [done|].
        intros Hne. by destruct Hsvc.
      * intros (d & Hc & <- & _). by exists d.
Qed.

(** X5. The name queries succeed exactly when the store's [Distinct]
    answers with strings only. A failure of the store is reported by
    its text alone, under "distinct call failed", with no cause to
    unwrap; an answer that holds anything but strings is reported as
    "non-string key found". *)
Theorem GetServices_outcomes (s : DistinctStorage) :
  (∀ names, SpanReader.GetServices s = Ok names
            ↔ Distinct s "process.serviceName" (bson.Document []) = inr (Str <$> names))
  ∧ (∀ e, Distinct s "process.serviceName" (bson.Document []) = inl e →
          SpanReader.GetServices s = Err (ErrMsg "distinct call failed: %s" (Error e))
          ∧ Unwrap (ErrMsg "distinct call failed: %s" (Error e)) = None)
  ∧ (∀ arr, Distinct s "process.serviceName" (bson.Document []) = inr arr →
            Exists not_a_string arr →
            SpanReader.GetServices s = Err (errors_New "non-string key found")).
Proof.
  unfold SpanReader.GetServices. split; [|split].
  - intros names. destruct (Distinct s _ _) as [e|arr]; [done|].
    rewrite toStringArray_Ok. split; [by intros ->|by intros [= ->]].
  - by intros e ->.
  - intros arr -> Hex. by apply toStringArray_Err.
Qed.

End name_queries.

(** ** The trace ids a search keeps *)

Section kept_ids.





Context `{!MapRange}.



End kept_ids.



Section search_failures.
Context `{!Float64Conv} `{!MapRange}.

Lemma collectTraceIDs_negative (N : Z) (ds : list Span.t) :
  N < 0 → ∃ m, SpanReader.collectTraceIDs N (inr <$> ds) ∅ = Ok m.
Proof.
  intros HN. destruct ds as [|d ds]; [by exists ∅|].
  rewrite fmap_cons. cbn [SpanReader.collectTraceIDs].
  rewrite Z.geb_leb, (proj2 (Z.leb_le _ _)) by lia. by eexists.
Qed.

(** X8. A negative limit makes the search panic: once the cursor is
    read, the slice of ids is made with the limit as its capacity.
    [FindTraces] and [FindTraceIDs] panic with it. *)
Theorem negative_limit_panics (st : ReaderStorage) (q : spanstore.TraceQueryParameters)
    (ds : list Span.t) (cerr : option error) :
  Find st (SpanReader.traceIDFilter q) SpanReader.traceIDOptions
    = inr (mongo.mkCursor (inr <$> ds) cerr) →
  spanstore.NumTraces q < 0 →
  SpanReader.findTraceIDs st q = Panic "makeslice: cap out of range"
  ∧ SpanReader.FindTraces st q = Panic "makeslice: cap out of range"
  ∧ SpanReader.FindTraceIDs st q = Panic "makeslice: cap out of range".
Proof.
  intros Hfind HN.
  assert (Hids : SpanReader.findTraceIDs st q = Panic "makeslice: cap out of range").
  { unfold SpanReader.findTraceIDs. rewrite Hfind. cbn [mongo.batch].
    destruct (collectTraceIDs_negative (spanstore.NumTraces q) ds HN) as (m & ->).
    cbn [mbind result_bind]. by rewrite (proj2 (Z.ltb_lt _ _)). }
  unfold SpanReader.FindTraces, SpanReader.FindTraceIDs. by rewrite Hids.
Qed.

(** The cursor loop goes on as long as fewer ids than the limit are
    held. *)
Lemma collectTraceIDs_continue (N : Z) (ds : list Span.t) (items : list (error + Span.t))
    (acc : gmap string unit) :
  Z.of_nat (size (dom acc ∪ list_to_set (Span.TraceID <$> ds) : gset string)) < N →
  ∃ acc', SpanReader.collectTraceIDs N ((inr <$> ds) ++ items) acc
          = SpanReader.collectTraceIDs N items acc'.
Proof.
  revert acc. induction ds as [|d ds IH]; intros acc Hlt; [by exists acc|].
  rewrite fmap_cons. cbn [app SpanReader.collectTraceIDs].
  assert (Hsub : dom (<[Span.TraceID d := ()]> acc) ∪ list_to_set (Span.TraceID <$> ds)
                 = dom acc ∪ list_to_set (Span.TraceID <$> d :: ds) :> gset string).
  { rewrite dom_insert_L, fmap_cons, list_to_set_cons. set_solver. }
  assert (Hsize : (size (<[Span.TraceID d := ()]> acc)
                   ≤ size (dom acc ∪ list_to_set (Span.TraceID <$> d :: ds) : gset string))%nat).
  { rewrite <- Hsub, <- size_dom. apply subseteq_size. set_solver. }
  rewrite Z.geb_leb, (proj2 (Z.leb_gt _ _)) by lia.
  apply IH. rewrite Hsub. exact Hlt.
Qed.

Lemma distinct_size (l : list string) :
  size (list_to_set l : gset string) = length (first_distinct l).
Proof.
  rewrite <- (size_list_to_set (C := gset string) (first_distinct l))
    by apply first_distinct_NoDup.
  f_equal. apply set_eq. intros x.
  by rewrite !elem_of_list_to_set, first_distinct_elem_of.
Qed.

(** X9. A document the cursor cannot decode ends the program: when it
    comes before the limit is reached, [findTraceIDs] calls
    [log.Fatal] with the decoding error instead of returning it, and
    so do [FindTraces] and [FindTraceIDs]. *)
Theorem undecodable_document_is_fatal (st : ReaderStorage)
    (q : spanstore.TraceQueryParameters) (ds : list Span.t) (e : error)
    (rest : list (error + Span.t)) (cerr : option error) :
  Find st (SpanReader.traceIDFilter q) SpanReader.traceIDOptions
    = inr (mongo.mkCursor ((inr <$> ds) ++ inl e :: rest) cerr) →
  Z.of_nat (length (first_distinct (Span.TraceID <$> ds))) < spanstore.NumTraces q →
  SpanReader.findTraceIDs st q = Fatal e
  ∧ SpanReader.FindTraces st q = Fatal e
  ∧ SpanReader.FindTraceIDs st q = Fatal e.
Proof.
  intros Hfind Hfew.
  assert (Hids : SpanReader.findTraceIDs st q = Fatal e).
  { unfold SpanReader.findTraceIDs. rewrite Hfind. cbn [mongo.batch].
    destruct (collectTraceIDs_continue (spanstore.NumTraces q) ds (inl e :: rest) ∅)
      as (acc' & ->); [|done].
    by rewrite dom_empty_L, (left_id_L ∅ (∪)), distinct_size. }
  unfold SpanReader.FindTraces, SpanReader.FindTraceIDs. by rewrite Hids.
Qed.

End search_failures.

(** X8, on a collection of one document. *)
Lemma negative_limit_panics_witness :
  @SpanReader.findTraceIDs trie_order (MongoReaderStorage [example.doc_a])
    (example5.any_in_window (-1))
  = Panic "makeslice: cap out of range"
  ∧ @SpanReader.FindTraces example.no_floats trie_order (MongoReaderStorage [example.doc_a])
      (example5.any_in_window (-1))
    = Panic "makeslice: cap out of range"
  ∧ @SpanReader.FindTraceIDs trie_order (MongoReaderStorage [example.doc_a])
      (example5.any_in_window (-1))
    = Panic "makeslice: cap out of range".
Proof.
  apply (@negative_limit_panics example.no_floats trie_order
           (MongoReaderStorage [example.doc_a]) (example5.any_in_window (-1))
           [memstore.project (options.Projection SpanReader.traceIDOptions) example.doc_a]
           None).
  - vm_compute. reflexivity.
  - reflexivity.
Defined.

(** X9, at a store whose second document cannot be decoded. *)
Lemma undecodable_document_is_fatal_witness :
  @SpanReader.findTraceIDs trie_order example5.corrupt (example5.any_in_window 20)
  = Fatal (ErrStore "cannot decode")
  ∧ @SpanReader.FindTraces example.no_floats trie_order example5.corrupt
      (example5.any_in_window 20)
    = Fatal (ErrStore "cannot decode")
  ∧ @SpanReader.FindTraceIDs trie_order example5.corrupt (example5.any_in_window 20)
    = Fatal (ErrStore "cannot decode").
Proof.
  apply (@undecodable_document_is_fatal example.no_floats trie_order example5.corrupt
           (example5.any_in_window 20) [example.doc_a] (ErrStore "cannot decode") [] None).
  - reflexivity.
  - vm_compute. reflexivity.
Defined.

(** ** The traces a search returns *)

Section whole_traces.
Context `{!Float64Conv} `{!MapRange}.




End whole_traces.


(** ** Writing, then reading *)

Section write_then_read.
Context `{!Float64Conv} `{!MapRange}.





End write_then_read.





(** ** What the dependency links stand for *)

Section link_invariants.
Context `{!MapRange}.

Lemma names_of_Some (l : list model.Span.t) (id : Z) (name : string) :
  names_of l !! id = Some name →
  ∃ p, p ∈ l ∧ model.Span.SpanID p = id ∧ chain.service p = name.
Proof.
  induction l as [|x l IH] using rev_ind.
  { unfold names_of. cbn [foldl]. by rewrite lookup_empty. }
  rewrite names_of_snoc.
  destruct (decide (model.Span.SpanID x = id)) as [<-|Hne].
  - rewrite lookup_insert_eq. intros [= <-]. exists x. split; [|done].
    apply elem_of_app. right. apply list_elem_of_here.
  - rewrite lookup_insert_ne by done. intros (p & Hp & Hid & Hn)%IH.
    exists p. split; [|done]. apply elem_of_app. by left.
Qed.

Lemma names_of_None (l : list model.Span.t) (id : Z) :
  id ∉ model.Span.SpanID <$> l → names_of l !! id = None.
Proof.
  intros Hout. destruct (names_of l !! id) as [name|] eqn:Hn; [|done].
  apply names_of_Some in Hn as (p & Hp & <- & _).
  exfalso. apply Hout, list_elem_of_fmap. by exists p.
Qed.

Lemma observed_elem (names : gmap Z string) (s : model.Span.t) (pc : string * string) :
  pc ∈ observed names s
  ↔ ∃ ref, ref ∈ model.Span.References s
           ∧ model.SpanRef.GetRefType ref = model.SpanRefType.CHILD_OF
           ∧ names !! model.SpanRef.SpanID ref = Some pc.1
           ∧ pc.1 ≠ EmptyString ∧ pc.2 = chain.service s.
Proof.
  unfold observed. rewrite list_elem_of_bind. split.
  - intros (ref & Hpc & Href). exists ref. split; [done|].
    case_bool_decide as Hg; [|by apply elem_of_nil in Hpc].
    apply list_elem_of_singleton in Hpc. subst pc. cbn [fst snd].
    destruct Hg as [Hkind Hname].
    destruct (names !! model.SpanRef.SpanID ref) as [name|]; [|done]. done.
  - intros (ref & Href & Hkind & Hname & Hne & Hc). exists ref. split; [|done].
    rewrite Hname. cbn [default]. rewrite bool_decide_eq_true_2 by done.
    apply list_elem_of_singleton. destruct pc as [p c]. cbn in *. by subst c.
Qed.

Lemma bump_sound (obs l : list (string * string)) (m : gmap string model.DependencyLink.t) :
  link_entries_sound obs m → (∀ pc, pc ∈ l → pc ∈ obs) →
  link_entries_sound obs (foldl bump m l).
Proof.
  revert m. induction l as [|[p c] l IH]; intros m Hm Hl; [done|].
  cbn [foldl]. apply IH; [|intros pc Hpc; by apply Hl, list_elem_of_further].
  intros k dl. unfold bump. cbn [fst snd].
  destruct (decide (k = p +:+ c)) as [->|Hne].
  - rewrite lookup_insert_eq. intros [= <-].
    destruct (m !! (p +:+ c)) as [d|] eqn:Hd; cbn [default].
    + destruct (Hm _ _ Hd) as [Hk Hin]. by split.
    + split; [done|]. apply Hl, list_elem_of_here.
  - rewrite lookup_insert_ne by done. apply Hm.
Qed.

Lemma keys_of_entries (l : list (string * model.DependencyLink.t)) :
  (∀ k dl, (k, dl) ∈ l → k = link_key dl) → l.*1 = link_key <$> l.*2.
Proof.
  induction l as [|[k dl] l IH]; intros Hl; [done|].
  rewrite !fmap_cons. cbn [fst snd]. f_equal.
  - apply Hl, list_elem_of_here.
  - apply IH. intros k' dl' Hin. by apply Hl, list_elem_of_further.
Qed.

(** The links of the traces read stem from calls, and no two of them
    join the same two services. *)
Lemma dependencyLinks_sound (traces : list model.Trace.t) :
  Forall (λ dl, model.DependencyLink.Parent dl ≠ model.DependencyLink.Child dl
                ∧ model.DependencyLink.Parent dl ≠ EmptyString
                ∧ call_between (flatten traces) (model.DependencyLink.Parent dl)
                    (model.DependencyLink.Child dl))
    (SpanReader.dependencyLinks traces)
  ∧ NoDup ((λ dl, (model.DependencyLink.Parent dl, model.DependencyLink.Child dl))
             <$> SpanReader.dependencyLinks traces).
Proof.
  rewrite dependencyLinks_steps.
  set (spans := flatten traces).
  set (obs := spans ≫= observed (names_of spans)).
  assert (Hinv : link_entries_sound obs (foldl bump ∅ obs)).
  { apply bump_sound; [|done]. intros k dl. by rewrite lookup_empty. }
  split.
  - apply Forall_forall. intros dl [Hloop Hdl]%list_elem_of_filter.
    apply list_elem_of_fmap in Hdl as ([k dl'] & -> & Hin). cbn [snd] in *.
    apply range_elem_of, Hinv in Hin as [_ Hin].
    apply list_elem_of_bind in Hin as (s & Hin & Hs).
    apply observed_elem in Hin as (ref & Href & Hkind & Hname & Hne & Hc).
    cbn [fst snd] in *. split; [done|]. split; [done|].
    apply names_of_Some in Hname as (parent & Hp & Hid & Hsvc).
    by exists s, ref, parent.
  - apply (NoDup_fmap_1 (λ pc : string * string, pc.1 +:+ pc.2)).
    rewrite <- list_fmap_compose.
    eapply sublist_NoDup; [|apply fmap_sublist, sublist_filter].
    change ((λ pc : string * string, pc.1 +:+ pc.2) ∘ _) with link_key.
    rewrite <- keys_of_entries; [apply range_NoDup_fst|].
    intros k dl Hin. by apply range_elem_of, Hinv in Hin as [Hk _].
Qed.

Context `{!Float64Conv}.

(** X12. Whatever [GetDependencies] returns for the traces it read,
    every link joins two different services, the parent's name is not
    empty, the link stems from a call (some span read, of the child
    service, carries a child-of reference to the id of a span read of
    the parent service), and no two links join the same parent and
    child. *)
Theorem dependency_links_are_calls (st : ReaderStorage) (endTs : Go.Time)
    (lookback : Go.Duration) (traces : list model.Trace.t) :
  SpanReader.FindTraces st (dependency_query endTs lookback) = Ok traces →
  ∃ dls, SpanReader.GetDependencies st endTs lookback = Ok dls
         ∧ Forall (λ dl, model.DependencyLink.Parent dl ≠ model.DependencyLink.Child dl
                         ∧ model.DependencyLink.Parent dl ≠ EmptyString
                         ∧ call_between (flatten traces) (model.DependencyLink.Parent dl)
                             (model.DependencyLink.Child dl)) dls
         ∧ NoDup ((λ dl, (model.DependencyLink.Parent dl, model.DependencyLink.Child dl))
                    <$> dls).
Proof.
  intros Hfind. exists (SpanReader.dependencyLinks traces). split.
  - unfold SpanReader.GetDependencies. unfold dependency_query in Hfind. by rewrite Hfind.
  - apply dependencyLinks_sound.
Qed.

(** X13. References that are not child-of, and references to a span id
    that no span read has, give no link: when every reference of the
    traces read is of one of these two sorts, [GetDependencies] returns
    no link at all. *)
Theorem no_link_without_child_of (st : ReaderStorage) (endTs : Go.Time)
    (lookback : Go.Duration) (traces : list model.Trace.t) :
  SpanReader.FindTraces st (dependency_query endTs lookback) = Ok traces →
  Forall (λ s, Forall (λ ref, model.SpanRef.GetRefType ref ≠ model.SpanRefType.CHILD_OF
                              ∨ model.SpanRef.SpanID ref
                                ∉ model.Span.SpanID <$> flatten traces)
                 (model.Span.References s)) (flatten traces) →
  SpanReader.GetDependencies st endTs lookback = Ok [].
Proof.
  intros Hfind Hrefs. unfold SpanReader.GetDependencies.
  unfold dependency_query in Hfind. rewrite Hfind. f_equal.
  rewrite dependencyLinks_steps.
  assert (Hnone : flatten traces ≫= observed (names_of (flatten traces)) = []).
  { set (names := names_of (flatten traces)).
    assert (Hname : ∀ id, id ∉ model.Span.SpanID <$> flatten traces → names !! id = None)
      by apply names_of_None.
    clearbody names. induction Hrefs as [|s l Hs _ IH]; [done|].
    rewrite bind_cons, IH, app_nil_r. unfold observed.
    induction Hs as [|ref refs Href _ IHrefs]; [done|].
    rewrite bind_cons, IHrefs, app_nil_r.
    rewrite bool_decide_eq_false_2; [done|]. intros [Hkind Hne].
    destruct Href as [Href|Href]; [done|]. by rewrite (Hname _ Href) in Hne. }
  rewrite Hnone. cbn [foldl]. by rewrite range_empty.
Qed.

Lemma List_filter_none {A} (p : A → bool) (l : list A) :
  Forall (λ x, p x = false) l → List.filter p l = [].
Proof. induction 1 as [|x l Hx _ IH]; [done|]. cbn. by rewrite Hx. Qed.

(** X14. Over a window that holds the start time of no stored document
    strictly inside it (the bounds themselves are outside),
    [GetDependencies] returns no link and no error. *)
Theorem GetDependencies_empty_window (c : memstore.Collection) (endTs : Go.Time)
    (lookback : Go.Duration) :
  Forall (λ d, ¬ (endTs + Go.int64 (-1 * lookback) < Span.StartTime d < endTs)) c →
  SpanReader.FindTraces (MongoReaderStorage c) (dependency_query endTs lookback) = Ok []
  ∧ SpanReader.GetDependencies (MongoReaderStorage c) endTs lookback = Ok [].
Proof.
  intros Hout.
  assert (Hfind : SpanReader.FindTraces (MongoReaderStorage c)
                    (dependency_query endTs lookback) = Ok []).
  { unfold SpanReader.FindTraces, SpanReader.findTraceIDs.
    cbn [Find MongoReaderStorage]. unfold memstore.Find.
    rewrite List_filter_none.
    2:{ eapply Forall_impl; [exact Hout|]. intros d Hd.
        apply not_true_is_false. intros Hm. apply traceIDFilter_matches in Hm as [Hw _].
        by apply Hd. }
    cbn [options.Sort SpanReader.traceIDOptions memstore.sort].
    change (String.eqb "startTime" "startTime") with true. cbn iota.
    change (merge_sort memstore.newer_first []) with (@nil Span.t).
    cbn [fmap list_fmap mongo.batch SpanReader.collectTraceIDs mbind result_bind
         dependency_query spanstore.NumTraces].
    change (maxTracesForDependencies <? 0) with false. cbn iota.
    by rewrite range_empty. }
  split; [exact Hfind|].
  unfold SpanReader.GetDependencies. unfold dependency_query in Hfind.
  by rewrite Hfind, dependencyLinks_nil.
Qed.

End link_invariants.

(** X12, on the four written spans of [example4.crossing]. *)
Lemma dependency_links_are_calls_witness :
  ∃ dls, @SpanReader.GetDependencies example.no_floats trie_order
           (MongoReaderStorage (@SpanWriter.mSpan example.no_floats <$> example4.crossing))
           5000 4500 = Ok dls
         ∧ Forall (λ dl, model.DependencyLink.Parent dl ≠ model.DependencyLink.Child dl
                         ∧ model.DependencyLink.Parent dl ≠ EmptyString
                         ∧ call_between (flatten [model.Trace.mk example4.crossing])
                             (model.DependencyLink.Parent dl)
                             (model.DependencyLink.Child dl)) dls
         ∧ NoDup ((λ dl, (model.DependencyLink.Parent dl, model.DependencyLink.Child dl))
                    <$> dls).
Proof.
  apply (@dependency_links_are_calls trie_order example.no_floats
           (MongoReaderStorage (@SpanWriter.mSpan example.no_floats <$> example4.crossing))
           5000 4500 [model.Trace.mk example4.crossing]).
  vm_compute. reflexivity.
Defined.

(** X13, on two written spans of which the second follows from the
    first. *)
Lemma no_link_without_child_of_witness :
  @SpanReader.GetDependencies example.no_floats trie_order
    (MongoReaderStorage (@SpanWriter.mSpan example.no_floats <$> example6.followers))
    5000 4500 = Ok [].
Proof.
  apply (@no_link_without_child_of trie_order example.no_floats
           (MongoReaderStorage (@SpanWriter.mSpan example.no_floats <$> example6.followers))
           5000 4500 [model.Trace.mk example6.followers]).
  - vm_compute. reflexivity.
  - apply Forall_cons; split; [constructor|].
    apply Forall_cons; split; [|constructor].
    apply Forall_cons; split; [|constructor].
    left. discriminate.
Defined.

(** X14, on a collection whose one document starts at the very end of
    the window. *)
Lemma GetDependencies_empty_window_witness :
  @SpanReader.FindTraces example.no_floats trie_order (MongoReaderStorage [example.doc_a])
    (dependency_query 1000 500) = Ok []
  ∧ @SpanReader.GetDependencies example.no_floats trie_order
      (MongoReaderStorage [example.doc_a]) 1000 500 = Ok [].
Proof.
  apply (@GetDependencies_empty_window trie_order example.no_floats [example.doc_a] 1000 500).
  apply Forall_cons; split; [|constructor].
  change (¬ (500 < 1000 < 1000)). lia.
Defined.

(** ** Exact call counts *)

Section exact_counts.
Context `{!MapRange}.

Lemma occurrences_snoc (pc x : string * string) (l : list (string * string)) :
  occurrences pc (l ++ [x])
  = (occurrences pc l + if decide (x = pc) then 1 else 0)%nat.
Proof.
  unfold occurrences. rewrite filter_app, length_app. f_equal.
  destruct (decide (x = pc)).
  - by rewrite filter_cons_True.
  - by rewrite filter_cons_False.
Qed.

Lemma occurrences_le (pc : string * string) (l : list (string * string)) :
  (occurrences pc l ≤ length l)%nat.
Proof. apply length_filter. Qed.

Lemma occurrences_pos (pc : string * string) (l : list (string * string)) :
  (0 < occurrences pc l)%nat ↔ pc ∈ l.
Proof.
  unfold occurrences. split.
  - destruct (filter (λ x, x = pc) l) as [|x k] eqn:Hf; [cbn; lia|]. intros _.
    assert (Hin : x ∈ filter (λ x, x = pc) l) by (rewrite Hf; apply list_elem_of_here).
    by apply list_elem_of_filter in Hin as [-> Hin].
  - intros Hin. assert (Hf : pc ∈ filter (λ x, x = pc) l) by by apply list_elem_of_filter.
    destruct (filter (λ x, x = pc) l); [by apply elem_of_nil in Hf|cbn; lia].
Qed.

(** When no two observed pairs share a key, the map holds each pair
    under its key with the number of times it was counted. *)
Lemma bump_counts (obs l : list (string * string)) :
  (∀ a b, a ∈ obs → b ∈ obs → a.1 +:+ a.2 = b.1 +:+ b.2 → a = b) →
  (∀ x, x ∈ l → x ∈ obs) →
  Z.of_nat (length l) < 2 ^ 64 →
  ∀ pc, pc ∈ obs →
        foldl bump ∅ l !! (pc.1 +:+ pc.2)
        = match occurrences pc l with
          | O => None
          | S n => Some (model.DependencyLink.mk pc.1 pc.2 (Z.of_nat (S n)))
          end.
Proof.
  intros Hinj. induction l as [|x l IH] using rev_ind; intros Hl Hlen pc Hpc.
  { cbn. by rewrite lookup_empty. }
  rewrite length_app in Hlen. cbn [length] in Hlen.
  assert (Hl' : ∀ y, y ∈ l → y ∈ obs).
  { intros y Hy. apply Hl, elem_of_app. by left. }
  assert (Hx : x ∈ obs).
  { apply Hl, elem_of_app. right. apply list_elem_of_here. }
  specialize (IH Hl' ltac:(lia)).
  rewrite foldl_snoc, occurrences_snoc. unfold bump at 1.
  destruct (decide (x = pc)) as [->|Hne].
  - rewrite lookup_insert_eq, (IH pc Hpc).
    pose proof (occurrences_le pc l) as Hocc.
    destruct (occurrences pc l) as [|n]; cbn [default from_option id
      model.DependencyLink.Parent model.DependencyLink.Child
      model.DependencyLink.CallCount Nat.add].
    + done.
    + rewrite Nat.add_1_r. do 2 f_equal. unfold Go.uint64.
      rewrite Z.mod_small by lia. lia.
  - rewrite lookup_insert_ne.
    + rewrite Nat.add_0_r. by apply IH.
    + intros Hk. apply Hne. by apply Hinj.
Qed.

Lemma observed_total_length (names : gmap Z string) (l : list model.Span.t) :
  (length (l ≫= observed names) ≤ length (l ≫= model.Span.References))%nat.
Proof.
  induction l as [|s l IH]; [done|].
  rewrite !bind_cons, !length_app. pose proof (observed_length names s). lia.
Qed.

(** One reference counts towards the pair [(p, c)] exactly when it is a
    call from [c] to [p]. *)
Lemma observed_one (spans : list model.Span.t) (names : gmap Z string)
    (p c : string) (s : model.Span.t) (refs : list model.SpanRef.t) :
  p ≠ EmptyString →
  (∀ id, names !! id = Some p
         ↔ Exists (λ q, model.Span.SpanID q = id ∧ chain.service q = p) spans) →
  length (filter (λ x, x = (p, c))
            (refs ≫= λ ref,
               if bool_decide (model.SpanRef.GetRefType ref = model.SpanRefType.CHILD_OF
                               ∧ default EmptyString (names !! model.SpanRef.SpanID ref)
                                 ≠ EmptyString)
               then [(default EmptyString (names !! model.SpanRef.SpanID ref),
                      chain.service s)]
               else []))
  = length
      (List.filter
         (λ sr : model.Span.t * model.SpanRef.t,
            bool_decide
              (chain.service sr.1 = c
               ∧ model.SpanRef.GetRefType sr.2 = model.SpanRefType.CHILD_OF
               ∧ Exists (λ q, model.Span.SpanID q = model.SpanRef.SpanID sr.2
                              ∧ chain.service q = p) spans))
         (pair s <$> refs)).
Proof.
  intros Hp Hnames. induction refs as [|ref refs IH]; [done|].
  rewrite bind_cons, filter_app, length_app, IH, fmap_cons. cbn [List.filter fst snd].
  clear IH. destruct (bool_decide (chain.service s = c ∧ _ ∧ _)) eqn:Hcall.
  - apply bool_decide_eq_true_1 in Hcall as (Hc & Hkind & Hex). apply Hnames in Hex.
    rewrite Hex. cbn [default from_option id]. rewrite bool_decide_eq_true_2 by done.
    rewrite filter_cons_True by by rewrite Hc. done.
  - apply bool_decide_eq_false_1 in Hcall.
    case_bool_decide as Hguard; [|done].
    rewrite filter_cons_False; [done|]. intros [= Hname Hc].
    apply Hcall. destruct Hguard as [Hkind Hne]. split; [done|]. split; [done|].
    apply Hnames. destruct (names !! model.SpanRef.SpanID ref) as [name|]; [|done].
    cbn in Hname. by subst name.
Qed.

Lemma List_filter_app_length {A} (f : A → bool) (l k : list A) :
  length (List.filter f (l ++ k))
  = (length (List.filter f l) + length (List.filter f k))%nat.
Proof. by rewrite List.filter_app, length_app. Qed.

Lemma observed_all (spans l : list model.Span.t) (names : gmap Z string) (p c : string) :
  p ≠ EmptyString →
  (∀ id, names !! id = Some p
         ↔ Exists (λ q, model.Span.SpanID q = id ∧ chain.service q = p) spans) →
  length (filter (λ x, x = (p, c)) (l ≫= observed names))
  = length
      (List.filter
         (λ sr : model.Span.t * model.SpanRef.t,
            bool_decide
              (chain.service sr.1 = c
               ∧ model.SpanRef.GetRefType sr.2 = model.SpanRefType.CHILD_OF
               ∧ Exists (λ q, model.Span.SpanID q = model.SpanRef.SpanID sr.2
                              ∧ chain.service q = p) spans))
         (l ≫= λ s, pair s <$> model.Span.References s)).
Proof.
  intros Hp Hnames. induction l as [|s l IH]; [done|].
  rewrite !bind_cons, filter_app, length_app, List_filter_app_length, IH. f_equal.
  by apply observed_one.
Qed.

(** With distinct span ids, a pair is observed as often as there are
    calls between the two services. *)
Lemma occurrences_calls (spans : list model.Span.t) (p c : string) :
  NoDup (model.Span.SpanID <$> spans) → p ≠ EmptyString →
  occurrences (p, c) (spans ≫= observed (names_of spans)) = calls spans p c.
Proof.
  intros Hnd Hp. unfold occurrences, calls. apply observed_all; [done|].
  intros id. rewrite Exists_exists. split.
  - intros (q & Hq & Hid & Hs)%names_of_Some. by exists q.
  - intros (q & Hq & <- & <-). by apply names_of_lookup.
Qed.

Context `{!Float64Conv}.

(** X15. When the spans read have distinct span ids and no two
    different pairs of calling services concatenate to the same string,
    [GetDependencies] is exact: it returns, each once, the pairs of
    different services between which there is a call from a parent
    with a non-empty name, and the call count of a link is the number
    of child-of references from spans of the child service to spans of
    the parent service. *)
Theorem dependency_links_exact (st : ReaderStorage) (endTs : Go.Time)
    (lookback : Go.Duration) (traces : list model.Trace.t) :
  SpanReader.FindTraces st (dependency_query endTs lookback) = Ok traces →
  NoDup (model.Span.SpanID <$> flatten traces) →
  (∀ p c p' c', call_between (flatten traces) p c → call_between (flatten traces) p' c' →
                p +:+ c = p' +:+ c' → p = p' ∧ c = c') →
  Z.of_nat (length (flatten traces ≫= model.Span.References)) < 2 ^ 64 →
  ∃ dls, SpanReader.GetDependencies st endTs lookback = Ok dls
         ∧ NoDup dls
         ∧ ∀ dl, dl ∈ dls
                 ↔ ∃ p c, p ≠ c ∧ p ≠ EmptyString
                          ∧ (0 < calls (flatten traces) p c)%nat
                          ∧ dl = model.DependencyLink.mk p c
                                   (Z.of_nat (calls (flatten traces) p c)).
Proof.
  intros Hfind Hnd Hkeys Hsmall. exists (SpanReader.dependencyLinks traces).
  split; [unfold SpanReader.GetDependencies; unfold dependency_query in Hfind;
          by rewrite Hfind|].
  split; [eapply NoDup_fmap_1, dependencyLinks_sound|].
  rewrite dependencyLinks_steps.
  set (spans := flatten traces) in *.
  set (obs := spans ≫= observed (names_of spans)).
  assert (Hcall : ∀ pc, pc ∈ obs → pc.1 ≠ EmptyString ∧ call_between spans pc.1 pc.2).
  { intros pc (s & Hin & Hs)%list_elem_of_bind.
    apply observed_elem in Hin as (ref & Href & Hkind & Hname & Hne & Hc).
    split; [done|]. apply names_of_Some in Hname as (parent & Hp & Hid & Hsvc).
    by exists s, ref, parent. }
  assert (Hinj : ∀ a b, a ∈ obs → b ∈ obs → a.1 +:+ a.2 = b.1 +:+ b.2 → a = b).
  { intros [p c] [p' c'] [_ Ha]%Hcall [_ Hb]%Hcall Hk. cbn [fst snd] in *.
    destruct (Hkeys _ _ _ _ Ha Hb Hk) as [-> ->]. done. }
  assert (Hlen : Z.of_nat (length obs) < 2 ^ 64).
  { pose proof (observed_total_length (names_of spans) spans). unfold obs. lia. }
  pose proof (bump_counts obs obs Hinj (λ x Hx, Hx) Hlen) as Hcount.
  assert (Hinv : link_entries_sound obs (foldl bump ∅ obs)).
  { apply bump_sound; [|done]. intros k dl. by rewrite lookup_empty. }
  intros dl. rewrite list_elem_of_filter, list_elem_of_fmap. split.
  - intros (Hloop & [k dl'] & -> & Hin). cbn [snd] in *.
    apply range_elem_of in Hin. destruct (Hinv _ _ Hin) as [-> Hobs].
    destruct (Hcall _ Hobs) as [Hp _]. cbn [fst snd] in Hp.
    specialize (Hcount _ Hobs). cbn [fst snd] in Hcount.
    unfold link_key in Hin. rewrite Hin in Hcount.
    rewrite (occurrences_calls spans _ _ Hnd Hp) in Hcount.
    exists (model.DependencyLink.Parent dl'), (model.DependencyLink.Child dl').
    split; [done|]. split; [done|].
    destruct (calls spans _ _) as [|n]; [done|]. split; [lia|]. by injection Hcount.
  - intros (p & c & Hloop & Hp & Hpos & ->).
    rewrite <- (occurrences_calls spans p c Hnd Hp) in Hpos |- *.
    fold obs in Hpos |- *.
    assert (Hobs : (p, c) ∈ obs) by by apply occurrences_pos.
    specialize (Hcount _ Hobs). cbn [fst snd] in Hcount.
    split; [done|].
    exists (p +:+ c, model.DependencyLink.mk p c (Z.of_nat (occurrences (p, c) obs))).
    split; [done|]. apply range_elem_of. rewrite Hcount.
    by destruct (occurrences (p, c) obs) as [|n]; [lia|].
Qed.

End exact_counts.

Ltac in_list H :=
  repeat first
    [ apply elem_of_nil in H; destruct H
    | apply elem_of_cons in H as [->|H] ].

Lemma fanout_calls (p c : string) :
  call_between (flatten [model.Trace.mk example6.fanout]) p c → p = "web" ∧ c = "api".
Proof.
  intros (s & ref & parent & Hs & Href & Hkind & Hp & Hid & <- & <-).
  change (flatten [model.Trace.mk example6.fanout]) with example6.fanout in Hs, Hp.
  unfold example6.fanout in Hs, Hp.
  in_list Hs; cbn in Href; in_list Href; in_list Hp; cbn in Hid; try discriminate Hid;
    by split.
Qed.

(** X15, on the three written spans of [example6.fanout]. *)
Lemma dependency_links_exact_witness :
  ∃ dls, @SpanReader.GetDependencies example.no_floats trie_order
           (MongoReaderStorage (@SpanWriter.mSpan example.no_floats <$> example6.fanout))
           5000 4500 = Ok dls
         ∧ NoDup dls
         ∧ ∀ dl, dl ∈ dls
                 ↔ ∃ p c, p ≠ c ∧ p ≠ EmptyString
                          ∧ (0 < calls (flatten [model.Trace.mk example6.fanout]) p c)%nat
                          ∧ dl = model.DependencyLink.mk p c
                                   (Z.of_nat
                                      (calls (flatten [model.Trace.mk example6.fanout]) p c)).
Proof.
  apply (@dependency_links_exact trie_order example.no_floats
           (MongoReaderStorage (@SpanWriter.mSpan example.no_floats <$> example6.fanout))
           5000 4500 [model.Trace.mk example6.fanout]).
  - vm_compute. reflexivity.
  - apply (bool_decide_unpack _). vm_compute. exact I.
  - intros p c p' c' [-> ->]%fanout_calls [-> ->]%fanout_calls _. by split.
  - vm_compute. reflexivity.
Defined.

(** ** Durations and reference kinds through a write and a read *)

Section any_duration.
Context `{!Float64Conv}.


End any_duration.


(** ** The earlier reader *)

Section earlier_reader.
Context `{!Float64Conv} `{!MapRange}.


(** X17. The earlier [findTraceIDs] cuts the distinct trace ids the
    store answers with to the limit of the query by slicing: for a
    limit that is not negative it returns the first [NumTraces] of them
    (none for a limit of zero, all when there are fewer), and for a
    negative limit the slice expression panics. *)
Theorem earlier_findTraceIDs_cuts_to_limit (s : DistinctStorage)
    (q : spanstore.TraceQueryParameters) (ids : list string) :
  Distinct s "traceID" (bson.Document (map_to_list (jager_mongodb.traceIDFilter q)))
    = inr (Str <$> ids) →
  (0 <= spanstore.NumTraces q →
   jager_mongodb.findTraceIDs s q = Ok (take (Z.to_nat (spanstore.NumTraces q)) ids))
  ∧ (spanstore.NumTraces q = 0 → jager_mongodb.findTraceIDs s q = Ok [])
  ∧ (spanstore.NumTraces q < 0 →
     jager_mongodb.findTraceIDs s q = Panic "slice bounds out of range").
Proof.
  intros Hd.
  assert (Hcut : 0 <= spanstore.NumTraces q →
                 jager_mongodb.findTraceIDs s q
                 = Ok (take (Z.to_nat (spanstore.NumTraces q)) ids)).
  { intros HN. unfold jager_mongodb.findTraceIDs. rewrite Hd.
    rewrite (proj2 (toStringArray_Ok _ ids) eq_refl).
    destruct (Z.gtb_spec (spanstore.NumTraces q) (Z.of_nat (length ids))) as [Hgt|Hle].
    - rewrite (proj2 (Z.ltb_ge _ _)) by lia.
      rewrite Nat2Z.id. by rewrite !take_ge by lia.
    - by rewrite (proj2 (Z.ltb_ge _ _)) by lia. }
  split; [exact Hcut|]. split.
  - intros Hzero. rewrite Hcut by lia. by rewrite Hzero.
  - intros HN. unfold jager_mongodb.findTraceIDs. rewrite Hd.
    rewrite (proj2 (toStringArray_Ok _ ids) eq_refl).
    rewrite Z.gtb_ltb.
    rewrite (proj2 (Z.ltb_ge (Z.of_nat (length ids)) (spanstore.NumTraces q))) by lia.
    by rewrite (proj2 (Z.ltb_lt _ _)).
Qed.



Lemma returns_convertKeyValues (tags : list KeyValue.t) :
  returns (SpanReader.convertKeyValues tags).
Proof. apply returns_for_each, returns_convertKeyValue. Qed.

(** X19. The earlier reader decodes a document as the later one
    decodes it once its logs and warnings are left out and its own
    tags, unless they all decode, are taken as none: a bad tag of the
    span does not fail the decoding, it costs the span all its tags. *)
Theorem earlier_convertSpan_drops_bad_tags (d : Span.t) :
  jager_mongodb.convertSpan d = SpanReader.convertSpan (as_the_earlier_reader d).
Proof.
  unfold jager_mongodb.convertSpan, SpanReader.convertSpan, as_the_earlier_reader.
  cbn [Span.TraceID Span.SpanID Span.OperationName Span.StartTime Span.Duration
       Span.References Span.ProcessID Span.Process Span.Tags Span.Logs Span.Warnings].
  destruct (model.TraceIDFromString (Span.TraceID d)) as [tId| | |]; try done.
  destruct (model.SpanIDFromString (Span.SpanID d)) as [sId| | |]; try done.
  destruct (SpanReader.convertRefs (Span.References d)) as [refs| | |]; try done.
  cbn [mbind result_bind].
  pose proof (returns_convertKeyValues (Span.Tags d)) as Hret.
  destruct (SpanReader.convertKeyValues (Span.Tags d)) as [tags|e|e|msg] eqn:Htags;
    try done.
  rewrite Htags. cbn [mbind result_bind].
  by destruct (SpanReader.convertKeyValues (Process.Tags (Span.Process d))).
Qed.

End earlier_reader.

(** The earlier reader decodes a document with a tag that holds an
    integer, without its tags and its warning; the later one rejects
    it. *)
Example int_tag_decoded_without_tags :
  (∃ s, @jager_mongodb.convertSpan example.no_floats example7.doc_int_tag = Ok s
        ∧ model.Span.Tags s = [] ∧ model.Span.Warnings s = [])
  ∧ ∃ e, @SpanReader.convertSpan example.no_floats example7.doc_int_tag = Err e.
Proof. split; [eexists|eexists]; vm_compute; eauto. Qed.

(** X17, at a store that answers with three trace ids. *)
Lemma earlier_findTraceIDs_cuts_to_limit_witness :
  jager_mongodb.findTraceIDs example7.three_ids (example5.any_in_window 2) = Ok ["0a"; "0b"]
  ∧ jager_mongodb.findTraceIDs example7.three_ids (example5.any_in_window 0) = Ok []
  ∧ jager_mongodb.findTraceIDs example7.three_ids (example5.any_in_window (-1))
    = Panic "slice bounds out of range".
Proof.
  split; [|split].
  - apply (proj1 (earlier_findTraceIDs_cuts_to_limit example7.three_ids
                    (example5.any_in_window 2) ["0a"; "0b"; "0c"] eq_refl)).
    vm_compute. discriminate.
  - apply (proj1 (proj2 (earlier_findTraceIDs_cuts_to_limit example7.three_ids
                           (example5.any_in_window 0) ["0a"; "0b"; "0c"] eq_refl))).
    reflexivity.
  - apply (proj2 (proj2 (earlier_findTraceIDs_cuts_to_limit example7.three_ids
                           (example5.any_in_window (-1)) ["0a"; "0b"; "0c"] eq_refl))).
    reflexivity.
Defined.


(** ** Searching after writing *)

Section search_after_write.
Context `{!Float64Conv} `{!MapRange}.



End search_after_write.


(** ** Tags of an undeclared value type *)

Section undeclared_types.
Context `{!Float64Conv} `{!MapRange}.

Lemma undeclared_name (x : Z) :
  ¬ (0 <= x <= 4) → model.ValueType.String x = strconv.FormatInt x.
Proof.
  intros Hx. destruct x as [|p|p]; [lia| |done].
  destruct p as [[p|p|]|[p|[p|p|]|]|]; try done; lia.
Qed.

Lemma digit_not_letter (d : Z) :
  0 <= d < 10 →
  strings.lower_ascii (strconv.digit_char d) = strconv.digit_char d
  ∧ Ascii.eqb (strconv.digit_char d) "s" = false
  ∧ Ascii.eqb (strconv.digit_char d) "b" = false
  ∧ Ascii.eqb (strconv.digit_char d) "i" = false
  ∧ Ascii.eqb (strconv.digit_char d) "f" = false.
Proof.
  intros Hd.
  assert (Hcases : d = 0 ∨ d = 1 ∨ d = 2 ∨ d = 3 ∨ d = 4 ∨ d = 5 ∨ d = 6 ∨ d = 7
                   ∨ d = 8 ∨ d = 9) by lia.
  repeat destruct Hcases as [->|Hcases]; try subst d; by vm_compute.
Qed.

(** The type name written for an undeclared value type is none of the
    four the reader knows. *)
Lemma undeclared_name_unknown (x : Z) :
  ¬ (0 <= x <= 4) →
  let name := strings.ToLower (model.ValueType.String x) in
  String.eqb name StringType = false ∧ String.eqb name BoolType = false
  ∧ String.eqb name Int64Type = false ∧ String.eqb name Float64Type = false.
Proof.
  intros Hx name. unfold name. rewrite (undeclared_name x Hx). unfold strconv.FormatInt.
  destruct (Z.ltb_spec x 0) as [Hneg|Hpos].
  - by cbn.
  - destruct (format_digits_head 19 x Hpos) as (d & r & Hd & ->).
    destruct (digit_not_letter d Hd) as (Hlow & Hs & Hb & Hi & Hf).
    cbn [strings.ToLower]. rewrite Hlow.
    unfold StringType, BoolType, Int64Type, Float64Type. cbn [String.eqb].
    by rewrite Hs, Hb, Hi, Hf.
Qed.

Lemma undeclared_tag_rejected (kv : model.KeyValue.t) :
  ¬ (0 <= model.KeyValue.VType kv <= 4) →
  ∃ e, SpanReader.convertKeyValue (SpanWriter.convertKeyValue kv) = Err e.
Proof.
  intros Hx. destruct (undeclared_name_unknown _ Hx) as (Hs & Hb & Hi & Hf).
  unfold SpanReader.convertKeyValue, SpanWriter.convertKeyValue.
  cbn [KeyValue.Value KeyValue.Type_ KeyValue.Key]. rewrite Hs, Hb, Hi, Hf. by eexists.
Qed.

Lemma undeclared_tags_rejected (kvs : list model.KeyValue.t) :
  Exists (λ kv, ¬ (0 <= model.KeyValue.VType kv <= 4)) kvs →
  ∃ e, SpanReader.convertKeyValues (SpanWriter.convertKeyValues kvs) = Err e.
Proof.
  intros Hex. pose proof (returns_convertKeyValues (SpanWriter.convertKeyValues kvs)) as Hret.
  destruct (SpanReader.convertKeyValues _) as [tags|e| |] eqn:Hconv; try done; [|by eexists].
  exfalso. clear Hret. rewrite writer_convertKeyValues_fmap in Hconv.
  unfold SpanReader.convertKeyValues in Hconv. rewrite for_each_fmap in Hconv.
  apply for_each_Ok_inv in Hconv.
  apply Exists_exists in Hex as (kv & Hin & Hx).
  assert (Hkept : kv ∈ persisted_tags kvs).
  { apply List_filter_elem. split; [done|]. apply bool_decide_eq_true_2.
    unfold model.BinaryType, model.ValueType.BINARY. lia. }
  apply list_elem_of_lookup in Hkept as (i & Hi).
  destruct (Forall2_lookup_l _ _ _ _ _ Hconv Hi) as (t & _ & Ht).
  cbn [compose] in Ht. destruct (undeclared_tag_rejected kv Hx) as (e & He).
  by rewrite He in Ht.
Qed.

(** X21. A span that carries a tag of a value type outside the
    enumeration is written all the same, but its document cannot be
    read back: decoding it fails, and with it every fetch of its
    trace from a collection that holds the document. *)
Theorem undeclared_tag_type_unreadable (s : model.Span.t) :
  Exists (λ kv, ¬ (0 <= model.KeyValue.VType kv <= 4)) (model.Span.Tags s)
  ∨ Exists (λ kv, ¬ (0 <= model.KeyValue.VType kv <= 4))
      (model.Process.Tags (model.Span.Process s)) →
  (∀ c, SpanWriter.WriteSpan c s = Ok (c ++ [SpanWriter.mSpan s]))
  ∧ (∃ e, SpanReader.convertSpan (SpanWriter.mSpan s) = Err e)
  ∧ ∀ c, SpanWriter.mSpan s ∈ c →
         ∃ e, SpanReader.fetchTracesById (MongoReaderStorage c)
                [model.TraceID.String (model.Span.TraceID s)] = Err e
              ∧ SpanReader.GetTrace (MongoReaderStorage c) (model.Span.TraceID s) = Err e.
Proof.
  intros Hbad.
  assert (Hdec : ∀ s', SpanReader.convertSpan (SpanWriter.mSpan s) ≠ Ok s').
  { intros s' Hok. unfold SpanReader.convertSpan, SpanWriter.mSpan in Hok.
    cbn [Span.TraceID Span.SpanID Span.References Span.Tags Span.Process Span.Logs
         SpanWriter.convertProcess Process.Tags] in Hok.
    destruct (model.TraceIDFromString _) as [tId| | |]; try done.
    destruct (model.SpanIDFromString _) as [sId| | |]; try done.
    destruct (SpanReader.convertRefs _) as [refs| | |]; try done.
    cbn [mbind result_bind] in Hok.
    destruct Hbad as [Hbad|Hbad]; apply undeclared_tags_rejected in Hbad as (e & He).
    - by rewrite He in Hok.
    - destruct (SpanReader.convertKeyValues (SpanWriter.convertKeyValues (model.Span.Tags s)))
        as [tags| | |]; try done.
      cbn [mbind result_bind] in Hok. by rewrite He in Hok. }
  split; [done|]. split.
  - pose proof (returns_convertSpan (SpanWriter.mSpan s)) as Hret.
    destruct (SpanReader.convertSpan (SpanWriter.mSpan s)) as [s'|e| |] eqn:Hconv; try done.
    + by destruct (Hdec s').
    + by exists e.
  - intros c Hin. unfold SpanReader.GetTrace, SpanReader.fetchTracesById.
    cbn [Find MongoReaderStorage]. rewrite Find_fetchFilter. cbn [mongo.batch].
    destruct (readSpans_Err
                (inr <$> List.filter
                   (λ d, bool_decide
                           (Span.TraceID d ∈ [model.TraceID.String (model.Span.TraceID s)]))
                   c) ∅) as (e & He).
    { apply Exists_exists. exists (inr (SpanWriter.mSpan s)). split; [|done].
      apply list_elem_of_fmap. exists (SpanWriter.mSpan s). split; [done|].
      apply List_filter_elem. split; [done|]. apply bool_decide_eq_true_2.
      apply list_elem_of_here. }
    exists e. rewrite He. done.
Qed.

End undeclared_types.

(** X21, on a span with a tag of value type 7. *)
Lemma undeclared_tag_type_unreadable_witness :
  ∃ e, @SpanReader.convertSpan example.no_floats
         (@SpanWriter.mSpan example.no_floats example8.odd_tag_span) = Err e.
Proof.
  apply (@undeclared_tag_type_unreadable example.no_floats trie_order example8.odd_tag_span).
  left. apply Exists_cons_hd. cbn. lia.
Defined.
